(** * The instance and type bridge of nanobind (src/nb_type.cpp, src/nb_internals.h)

    A shallow embedding of the identity map, the instance allocator and
    deallocator, the return-value policy engine, the keep-alive lists and the
    implicit-conversion search, followed by the properties of the design
    document that are about them.

    Conventions of the embedding.
    - Pointers are integers ([Z]); [nullptr] is [0].  Integer casts that the
      source writes ([intptr_t], [uintptr_t], [int32_t]) are written out with
      their wrap-around on an LP64 target (8-byte pointers, 24-byte
      [nb_inst]).
    - The process state the code reads and writes is the record [world]:
      the three tables of [nb_internals], the host object headers, the
      [nb_inst] fields of the wrappers, the type records of the bound types
      and the pointer-sized words the code stores behind a wrapper.
    - Calls that leave the bridge (native destructors, constructors,
      callbacks, the host allocator, reference counting) are recorded in
      order in the [trace] of the world.  What such a call answers is read
      from the record [host_env].
    - A function of the source becomes a function [world -> result A]; a
      failed [check]/[fail] is [Fatal] (with the world at the abort), a C++
      exception is [Thrown], and a dereference of an object the world does
      not hold is [Undefined]. *)

From Stdlib Require Import ZArith Lia.
From stdpp Require Import base option list gmap strings.

Local Open Scope Z_scope.

(** ** Machine integers *)

Definition sizeof_ptr : Z := 8.
Definition sizeof_nb_inst : Z := 24.

(** [(uintptr_t) z] *)
Definition to_uintptr (z : Z) : Z := z mod 2 ^ 64.
(** [(intptr_t) z] *)
Definition to_intptr (z : Z) : Z := (z + 2 ^ 63) mod 2 ^ 64 - 2 ^ 63.
(** [(int32_t) z] *)
Definition to_int32 (z : Z) : Z := (z + 2 ^ 31) mod 2 ^ 32 - 2 ^ 31.

(** A pointer value: an address below [2^64]. *)
Definition is_ptr (p : Z) : Prop := 0 <= p < 2 ^ 64.

(** ** Pointer tagging of the values of [inst_c2p] (nb_internals.h) *)

(** [((uintptr_t) p) & 1] *)
Definition nb_is_seq (p : Z) : bool := negb (Z.land p 1 =? 0).
(** [((uintptr_t) p) | 1] *)
Definition nb_mark_seq (p : Z) : Z := Z.lor p 1.
(** [((uintptr_t) p) ^ 1] *)
Definition nb_get_seq (p : Z) : Z := Z.lxor p 1.

(** ** Data *)

(** A [const std::type_info *]: the address of the object together with the
    name the object carries.  [==] on the pointers compares the addresses;
    [operator==] on the objects and [std::type_index] compare the names. *)
Record type_info := { ti_addr : Z; ti_name : string }.

Definition type_info_ptr_eq (a b : type_info) : bool := ti_addr a =? ti_addr b.
Definition type_info_eq (a b : type_info) : bool :=
  bool_decide (ti_name a = ti_name b).
Definition type_index (t : type_info) : string := ti_name t.

(** Modelled from the spec: the enumeration [rv_policy], which is declared in
    a header outside the sources at hand; the policies are those of the
    design document, section 4.4. *)
Inductive rv_policy :=
| rvp_copy | rvp_move | rvp_reference | rvp_reference_internal
| rvp_take_ownership | rvp_none.

Global Instance rv_policy_eq_dec : EqDecision rv_policy.
Proof. solve_decision. Defined.

(** Modelled from the spec: the enumeration [type_flags], declared in a
    header outside the sources at hand.  The sources only test, set and
    clear the named bits; the positions chosen here are immaterial. *)
Inductive type_flags :=
| is_destructible | is_copy_constructible | is_move_constructible
| has_destruct | has_copy | has_move | has_implicit_conversions
| is_python_type | is_final | has_dynamic_attr | intrusive_ptr
| has_shared_from_this.

Definition type_flag_mask (f : type_flags) : Z :=
  Z.shiftl 1
    match f with
    | is_destructible => 0 | is_copy_constructible => 1
    | is_move_constructible => 2 | has_destruct => 4 | has_copy => 5
    | has_move => 6 | has_implicit_conversions => 7 | is_python_type => 8
    | is_final => 9 | has_dynamic_attr => 10 | intrusive_ptr => 11
    | has_shared_from_this => 12
    end.

(** [flags & (uint32_t) type_flags::f], read as a truth value *)
Definition has_flag (flags : Z) (f : type_flags) : bool :=
  negb (Z.land flags (type_flag_mask f) =? 0).

Definition flags_of (l : list type_flags) : Z :=
  foldr (fun f acc => Z.lor (type_flag_mask f) acc) 0 l.

(** The fields of [type_data] that src/nb_type.cpp reads.  Function pointers
    are addresses; [t_implicit] and [t_implicit_py] are the null-terminated
    arrays ([None] for a null array). *)
Record type_data := {
  t_size : Z;
  t_align : Z;
  t_flags : Z;
  t_name : string;
  t_type : type_info;
  t_type_py : Z;
  t_destruct : Z;
  t_copy : Z;
  t_move : Z;
  t_implicit : option (list type_info);
  t_implicit_py : option (list Z);
  t_set_self_py : Z;
  t_keep_shared_from_this_alive : Z
}.

(** A host type object created by the bridge: the one feature bit of the
    host type that the code tests, and the [type_data] stored behind it
    ([nb_type_data]). *)
Record nb_type := {
  tp_have_gc : bool;
  tp_data : type_data
}.

(** [struct nb_inst] without its object header *)
Record nb_inst := {
  offset : Z;
  direct : bool;
  internal : bool;
  ready : bool;
  destruct : bool;
  cpp_delete : bool;
  clear_keep_alive : bool
}.

Global Instance nb_inst_eq_dec : EqDecision nb_inst.
Proof. solve_decision. Defined.

(** [struct nb_inst_seq]: a node of a collision list; [next] is the rest of
    the Rocq list the node sits in. *)
Record nb_inst_seq := { seq_addr : Z; seq_inst : Z }.

Global Instance nb_inst_seq_eq_dec : EqDecision nb_inst_seq.
Proof. solve_decision. Defined.

(** [struct nb_weakref_seq]: a node of a keep-alive list; a null callback is
    [0]. *)
Record nb_weakref_seq := { ws_addr : Z; ws_callback : Z; ws_payload : Z }.

Global Instance nb_weakref_seq_eq_dec : EqDecision nb_weakref_seq.
Proof. solve_decision. Defined.

(** A value of [inst_c2p]: bit 0 clear, a wrapper; bit 0 set, the head of a
    collision list. *)
Inductive c2p_entry :=
| Direct (inst : Z)
| Seq (nodes : list nb_inst_seq).

Global Instance c2p_entry_eq_dec : EqDecision c2p_entry.
Proof. solve_decision. Defined.

(** The [void *] the map stores for an entry. *)
Definition c2p_encode (e : c2p_entry) : Z :=
  match e with
  | Direct inst => inst
  | Seq nodes => nb_mark_seq (match nodes with n :: _ => seq_addr n | [] => 0 end)
  end.

(** The wrappers an entry holds, in list order. *)
Definition c2p_insts (e : c2p_entry) : list Z :=
  match e with
  | Direct inst => [inst]
  | Seq nodes => seq_inst <$> nodes
  end.

(** [cleanup_list], as far as the code uses it: [self()]. *)
Record cleanup_list := { cleanup_self : Z }.

(** Calls that leave the bridge, in the order they are made. *)
Inductive event :=
| EvAlloc (bytes addr : Z)            (* PyObject_Malloc / PyMem_Malloc *)
| EvGenericAlloc (tp addr : Z)        (* PyType_GenericAlloc(tp, 0) *)
| EvRealloc (old bytes addr : Z)      (* PyObject_Realloc *)
| EvFree (addr : Z)                   (* PyObject_Free / PyMem_Free *)
| EvTpFree (self : Z)                 (* PyType_Type.tp_free *)
| EvNoMemory                          (* PyErr_NoMemory *)
| EvErrClear                          (* PyErr_Clear *)
| EvGCUnTrack (self : Z)              (* PyObject_GC_UnTrack *)
| EvClearDict (self : Z)              (* Py_CLEAR on the instance dictionary *)
| EvIncref (o : Z)                    (* Py_INCREF *)
| EvDecref (o : Z)                    (* Py_DECREF *)
| EvDestruct (fn p : Z)               (* t->destruct(p) *)
| EvDelete (p : Z)                    (* operator delete(p) *)
| EvDeleteAligned (p align : Z)       (* operator delete(p, align_val_t) *)
| EvCallback (fn payload : Z)         (* c->callback(c->payload) *)
| EvCopy (fn dst src : Z)             (* t->copy(dst, src) *)
| EvMove (fn dst src : Z)             (* t->move(dst, src) *)
| EvMemcpy (dst src bytes : Z)
| EvMemzero (p bytes : Z)             (* memset(p, 0, bytes) *)
| EvKeepShared (fn inst : Z)          (* t->keep_shared_from_this_alive(inst) *)
| EvSetSelfPy (fn p inst : Z)         (* t->set_self_py(p, inst) *)
| EvPredicate (fn tp src : Z)         (* an implicit_py entry is asked *)
| EvCall (tp src : Z)                 (* the destination type is called on src *)
| EvCleanupAppend (o : Z)             (* cleanup->append(o) *)
| EvWeakref (nurse patient : Z)       (* PyCFunction_New + PyWeakref_NewRef *)
| EvWarn (msg : string).              (* PyErr_WarnFormat / fprintf(stderr) *)

Global Instance event_eq_dec : EqDecision event.
Proof. solve_decision. Defined.

(** The state of the bridge and of the part of the host heap it touches. *)
Record world := {
  inst_c2p : gmap Z c2p_entry;            (* internals.inst_c2p *)
  type_c2p : gmap string Z;               (* internals.type_c2p: type_index -> type_data* *)
  keep_alive_map : gmap Z (list nb_weakref_seq);  (* internals.keep_alive *)
  print_implicit_cast_warnings : bool;
  ob_type : gmap Z Z;                     (* Py_TYPE of the live host objects *)
  insts : gmap Z nb_inst;                 (* the wrappers *)
  types : gmap Z nb_type;                 (* the host types made by the bridge *)
  ptr_mem : gmap Z Z;                     (* pointer-sized words stored by the bridge *)
  allocs : list Z;                        (* what the host allocator answers next *)
  trace : list event
}.

(** Field updates of [world]. *)
Definition set_inst_c2p (f : gmap Z c2p_entry → gmap Z c2p_entry) (w : world) : world :=
  {| inst_c2p := f (inst_c2p w); type_c2p := type_c2p w;
     keep_alive_map := keep_alive_map w;
     print_implicit_cast_warnings := print_implicit_cast_warnings w;
     ob_type := ob_type w; insts := insts w; types := types w;
     ptr_mem := ptr_mem w; allocs := allocs w; trace := trace w |}.

Definition set_keep_alive_map
    (f : gmap Z (list nb_weakref_seq) → gmap Z (list nb_weakref_seq)) (w : world) : world :=
  {| inst_c2p := inst_c2p w; type_c2p := type_c2p w;
     keep_alive_map := f (keep_alive_map w);
     print_implicit_cast_warnings := print_implicit_cast_warnings w;
     ob_type := ob_type w; insts := insts w; types := types w;
     ptr_mem := ptr_mem w; allocs := allocs w; trace := trace w |}.

Definition set_ob_type (f : gmap Z Z → gmap Z Z) (w : world) : world :=
  {| inst_c2p := inst_c2p w; type_c2p := type_c2p w;
     keep_alive_map := keep_alive_map w;
     print_implicit_cast_warnings := print_implicit_cast_warnings w;
     ob_type := f (ob_type w); insts := insts w; types := types w;
     ptr_mem := ptr_mem w; allocs := allocs w; trace := trace w |}.

Definition set_insts (f : gmap Z nb_inst → gmap Z nb_inst) (w : world) : world :=
  {| inst_c2p := inst_c2p w; type_c2p := type_c2p w;
     keep_alive_map := keep_alive_map w;
     print_implicit_cast_warnings := print_implicit_cast_warnings w;
     ob_type := ob_type w; insts := f (insts w); types := types w;
     ptr_mem := ptr_mem w; allocs := allocs w; trace := trace w |}.

Definition set_ptr_mem (f : gmap Z Z → gmap Z Z) (w : world) : world :=
  {| inst_c2p := inst_c2p w; type_c2p := type_c2p w;
     keep_alive_map := keep_alive_map w;
     print_implicit_cast_warnings := print_implicit_cast_warnings w;
     ob_type := ob_type w; insts := insts w; types := types w;
     ptr_mem := f (ptr_mem w); allocs := allocs w; trace := trace w |}.

Definition set_allocs (f : list Z → list Z) (w : world) : world :=
  {| inst_c2p := inst_c2p w; type_c2p := type_c2p w;
     keep_alive_map := keep_alive_map w;
     print_implicit_cast_warnings := print_implicit_cast_warnings w;
     ob_type := ob_type w; insts := insts w; types := types w;
     ptr_mem := ptr_mem w; allocs := f (allocs w); trace := trace w |}.

Definition set_trace (f : list event → list event) (w : world) : world :=
  {| inst_c2p := inst_c2p w; type_c2p := type_c2p w;
     keep_alive_map := keep_alive_map w;
     print_implicit_cast_warnings := print_implicit_cast_warnings w;
     ob_type := ob_type w; insts := insts w; types := types w;
     ptr_mem := ptr_mem w; allocs := allocs w; trace := f (trace w) |}.

(** Field updates of [nb_inst]. *)
Definition set_ready (b : bool) (i : nb_inst) : nb_inst :=
  {| offset := offset i; direct := direct i; internal := internal i;
     ready := b; destruct := destruct i; cpp_delete := cpp_delete i;
     clear_keep_alive := clear_keep_alive i |}.

Definition set_destruct (b : bool) (i : nb_inst) : nb_inst :=
  {| offset := offset i; direct := direct i; internal := internal i;
     ready := ready i; destruct := b; cpp_delete := cpp_delete i;
     clear_keep_alive := clear_keep_alive i |}.

Definition set_cpp_delete (b : bool) (i : nb_inst) : nb_inst :=
  {| offset := offset i; direct := direct i; internal := internal i;
     ready := ready i; destruct := destruct i; cpp_delete := b;
     clear_keep_alive := clear_keep_alive i |}.

Definition set_storage (off : Z) (d int : bool) (i : nb_inst) : nb_inst :=
  {| offset := off; direct := d; internal := int;
     ready := ready i; destruct := destruct i; cpp_delete := cpp_delete i;
     clear_keep_alive := clear_keep_alive i |}.

Definition set_clear_keep_alive (b : bool) (i : nb_inst) : nb_inst :=
  {| offset := offset i; direct := direct i; internal := internal i;
     ready := ready i; destruct := destruct i; cpp_delete := cpp_delete i;
     clear_keep_alive := b |}.

(** ** Results and sequencing *)

Inductive exn :=
| next_overload
| runtime_error (msg : string).

Inductive result (A : Type) :=
| Ok (a : A) (w : world)
| Fatal (msg : string) (w : world)
| Thrown (e : exn) (w : world)
| Undefined.
Arguments Ok {A} a w.
Arguments Fatal {A} msg w.
Arguments Thrown {A} e w.
Arguments Undefined {A}.

Definition M (A : Type) : Type := world → result A.

Definition ret {A} (a : A) : M A := fun w => Ok a w.

Definition bind {A B} (c : M A) (k : A → M B) : M B := fun w =>
  match c w with
  | Ok a w' => k a w'
  | Fatal msg w' => Fatal msg w'
  | Thrown e w' => Thrown e w'
  | Undefined => Undefined
  end.

Notation "'let*' x ':=' c 'in' k" := (bind c (fun x => k))
  (at level 10, x pattern, c at level 100, k at level 200).
Notation "c ';;' k" := (bind c (fun _ => k))
  (at level 100, k at level 200, right associativity).

Definition get : M world := fun w => Ok w w.
Definition modify (f : world → world) : M unit := fun w => Ok tt (f w).
Definition emit (e : event) : M unit := modify (set_trace (fun t => t ++ [e])).
Definition fail {A} (msg : string) : M A := fun w => Fatal msg w.
Definition throw {A} (e : exn) : M A := fun w => Thrown e w.
Definition undefined {A} : M A := fun _ => Undefined.

(** [check(cond, msg)] *)
Definition check (cond : bool) (msg : string) : M unit :=
  if cond then ret tt else fail msg.

Definition when (cond : bool) (c : M unit) : M unit :=
  if cond then c else ret tt.

(** The double quote that the messages put around a type name. *)
Definition dquote : string := String (Ascii.ascii_of_nat 34) EmptyString.

(** [prefix("name")suffix], the shape of the diagnostics that name a type *)
Definition msg_named (prefix name suffix : string) : string :=
  (prefix +:+ "(" +:+ dquote +:+ name +:+ dquote +:+ ")" +:+ suffix)%string.

(** ** The host runtime and the native side, as the bridge consumes them *)

Record host_env := {
  (* the address of the None object *)
  Py_None : Z;
  (* PyType_IsSubtype(a, b) *)
  PyType_IsSubtype : Z → Z → bool;
  (* __STDCPP_DEFAULT_NEW_ALIGNMENT__ *)
  default_new_alignment : Z;
  (* whether the copy or move constructor [fn(dst, src)] throws *)
  native_throws : Z → Z → Z → bool;
  (* what [t->keep_shared_from_this_alive(inst)] answers *)
  keep_shared_answer : Z → Z → bool;
  (* what an [implicit_py] entry [fn(tp, src, cleanup)] answers *)
  predicate_answer : Z → Z → Z → bool;
  (* calling the host type [tp] on [src]: the new object (null on error)
     and the world the call leaves behind *)
  call_type : Z → Z → world → Z * world;
  (* capsule_new(payload, nullptr, callback) *)
  capsule_new : Z → Z → Z;
  (* PyCFunction_New(&keep_alive_callback_def, patient), null on error *)
  cfunction_new : Z → Z;
  (* PyWeakref_NewRef(nurse, callback), null on error *)
  weakref_new : Z → Z → Z
}.

(** Host primitives. *)

(** One call of the host allocator: the next answer of [allocs], null when
    none is left. *)
Definition host_alloc (bytes : Z) : M Z := fun w =>
  match allocs w with
  | [] => Ok 0 (set_trace (fun t => t ++ [EvAlloc bytes 0]) w)
  | a :: rest =>
      Ok a (set_trace (fun t => t ++ [EvAlloc bytes a]) (set_allocs (fun _ => rest) w))
  end.

Definition host_realloc (old bytes : Z) : M Z := fun w =>
  match allocs w with
  | [] => Ok 0 (set_trace (fun t => t ++ [EvRealloc old bytes 0]) w)
  | a :: rest =>
      Ok a (set_trace (fun t => t ++ [EvRealloc old bytes a]) (set_allocs (fun _ => rest) w))
  end.

(** [Py_TYPE(o)] *)
Definition Py_TYPE (o : Z) : M Z := fun w =>
  match ob_type w !! o with
  | Some tp => Ok tp w
  | None => Undefined
  end.

(** The host type object behind [tp] *)
Definition nb_type_obj (tp : Z) : M nb_type := fun w =>
  match types w !! tp with
  | Some t => Ok t w
  | None => Undefined
  end.

(** [nb_type_data(tp)] *)
Definition nb_type_data (tp : Z) : M type_data :=
  let* t := nb_type_obj tp in ret (tp_data t).

(** Reading the [nb_inst] fields of [o] *)
Definition nb_inst_read (o : Z) : M nb_inst := fun w =>
  match insts w !! o with
  | Some i => Ok i w
  | None => Undefined
  end.

(** Assignment to [nb_inst] fields of [o] *)
Definition nb_inst_update (o : Z) (f : nb_inst → nb_inst) : M unit := fun w =>
  match insts w !! o with
  | Some i => Ok tt (set_insts (insert o (f i)) w)
  | None => Undefined
  end.

(** [nb_type_check(tp)]: the types of the bridge are those of
    [types]. *)
Definition nb_type_check (tp : Z) : M bool := fun w =>
  Ok (bool_decide (is_Some (types w !! tp))) w.

(** ** src/nb_internals.h: [inst_ptr] *)

Definition inst_ptr (self : Z) : M Z :=
  let* i := nb_inst_read self in
  let ptr := to_uintptr (to_intptr self + offset i) in
  if direct i then ret ptr
  else fun w =>
    match ptr_mem w !! ptr with
    | Some v => Ok v w
    | None => Undefined
    end.

(** [PyType_GenericAlloc(tp, 0)] *)
Definition PyType_GenericAlloc (tp : Z) : M Z := fun w =>
  match allocs w with
  | [] => Ok 0 (set_trace (fun t => t ++ [EvGenericAlloc tp 0]) w)
  | a :: rest =>
      Ok a (set_trace (fun t => t ++ [EvGenericAlloc tp a]) (set_allocs (fun _ => rest) w))
  end.

(** A zeroed [nb_inst] ([memset], or the zeroing of the host allocator) *)
Definition nb_inst_zero : nb_inst :=
  {| offset := 0; direct := false; internal := false; ready := false;
     destruct := false; cpp_delete := false; clear_keep_alive := false |}.

(** The object at [self] comes into being with type [tp] ([PyObject_Init]). *)
Definition object_init (self tp : Z) (w : world) : world :=
  set_ob_type (insert self tp) (set_insts (insert self nb_inst_zero) w).

(** The object at [self] is gone. *)
Definition object_drop (self : Z) (w : world) : world :=
  set_ob_type (delete self) (set_insts (delete self) w).

(** [PyObject_Realloc] moved the object from [old] to [new]. *)
Definition object_move (old new : Z) (w : world) : world :=
  match insts w !! old, ob_type w !! old with
  | Some i, Some tp =>
      set_ob_type (fun m => <[new:=tp]> (delete old m))
        (set_insts (fun m => <[new:=i]> (delete old m)) w)
  | _, _ => w
  end.

Definition sizeof_nb_inst_seq : Z := 16.
Definition sizeof_nb_weakref_seq : Z := 24.

Section Bridge.
Context (env : host_env).

(** ** src/nb_type.cpp: [inst_new_impl] *)

(** Lines 56-74: the object is allocated.  The answer is null when the
    plain allocator is out of memory. *)
Definition inst_new_alloc (tp value : Z) (gc : bool) (t : type_data) : M Z :=
  if negb gc then
    let size :=
      to_uintptr
        (sizeof_nb_inst +
         (if value =? 0 then
            t_size t +
            (if sizeof_ptr <? to_uintptr (t_align t)
             then to_uintptr (t_align t) - sizeof_ptr else 0)
          else 0)) in
    let* self := host_alloc size in
    if self =? 0 then emit EvNoMemory ;; ret 0
    else modify (object_init self tp) ;; ret self
  else
    let* self := PyType_GenericAlloc tp in
    (* the source goes on to write through [self] without a test *)
    if self =? 0 then undefined
    else modify (object_init self tp) ;; ret self.

(** Lines 76-115: the payload address is fixed and encoded in the wrapper.
    The answer is the wrapper (null when the reallocation failed) and the
    payload address. *)
Definition inst_new_place (gc : bool) (align self value : Z) : M (Z * Z) :=
  if value =? 0 then
    if align =? 0 then undefined
    else
      let payload := to_uintptr (self + sizeof_nb_inst) in
      let payload := to_uintptr (to_uintptr (payload + align - 1) / align * align) in
      nb_inst_update self
        (set_storage (to_int32 (to_intptr payload - to_intptr self)) true true) ;;
      ret (self, payload)
  else
    let offset := to_int32 (to_intptr value - to_intptr self) in
    if to_intptr (to_intptr self + offset) =? to_intptr value then
      nb_inst_update self (set_storage offset true false) ;;
      ret (self, value)
    else
      let* self :=
        if negb gc then
          let* self_2 := host_realloc self (sizeof_nb_inst + sizeof_ptr) in
          if self_2 =? 0 then
            emit (EvFree self) ;; modify (object_drop self) ;;
            emit EvNoMemory ;; ret 0
          else modify (object_move self self_2) ;; ret self_2
        else ret self in
      if self =? 0 then ret (0, value)
      else
        modify (set_ptr_mem (insert (self + sizeof_nb_inst) value)) ;;
        nb_inst_update self (set_storage (to_int32 sizeof_nb_inst) false false) ;;
        ret (self, value).

(** The walk of lines 135-141 over the nodes of a collision list. *)
Fixpoint seq_check_new (self : Z) (nodes : list nb_inst_seq) : M unit :=
  match nodes with
  | [] => undefined
  | n :: rest =>
      check (negb (seq_inst n =? self))
        "nanobind::detail::inst_new(): duplicate instance!" ;;
      match rest with
      | [] => ret tt
      | _ => seq_check_new self rest
      end
  end.

(** Lines 117-150: the wrapper is entered in [inst_c2p]. *)
Definition inst_c2p_emplace (value self : Z) : M unit :=
  let* w := get in
  match inst_c2p w !! value with
  | None => modify (set_inst_c2p (insert value (Direct self)))
  | Some entry =>
      let* nodes :=
        match entry with
        | Direct e =>
            let* first := host_alloc sizeof_nb_inst_seq in
            check (negb (first =? 0))
              "nanobind::detail::inst_new(): list element allocation failed!" ;;
            let nodes := [ {| seq_addr := first; seq_inst := e |} ] in
            modify (set_inst_c2p (insert value (Seq nodes))) ;;
            ret nodes
        | Seq nodes => ret nodes
        end in
      seq_check_new self nodes ;;
      let* next := host_alloc sizeof_nb_inst_seq in
      check (negb (next =? 0))
        "nanobind::detail::inst_new(): list element allocation failed!" ;;
      modify (set_inst_c2p
                (insert value (Seq (nodes ++ [ {| seq_addr := next; seq_inst := self |} ]))))
  end.

Definition inst_new_impl (tp value : Z) : M Z :=
  let* ty := nb_type_obj tp in
  let gc := tp_have_gc ty in
  let t := tp_data ty in
  let align := to_uintptr (t_align t) in
  let* self := inst_new_alloc tp value gc t in
  if self =? 0 then ret 0
  else
    let* placed := inst_new_place gc align self value in
    let self := placed.1 in
    let value := placed.2 in
    if self =? 0 then ret 0
    else inst_c2p_emplace value self ;; ret self.

(** ** src/nb_type.cpp: [inst_dealloc] *)

(** Lines 200-210, one turn of the loop: the edge is released and its node
    freed. *)
Definition release_node (c : nb_weakref_seq) : M unit :=
  (if negb (ws_callback c =? 0)
   then emit (EvCallback (ws_callback c) (ws_payload c))
   else emit (EvDecref (ws_payload c))) ;;
  emit (EvFree (ws_addr c)).

Fixpoint release_nodes (s : list nb_weakref_seq) : M unit :=
  match s with
  | [] => ret tt
  | c :: s' => release_node c ;; release_nodes s'
  end.

(** Lines 192-211 *)
Definition keep_alive_clear (self : Z) (name : string) : M unit :=
  let* w := get in
  match keep_alive_map w !! self with
  | None =>
      fail (msg_named "nanobind::detail::inst_dealloc" name
              ": inconsistent keep_alive information")
  | Some s =>
      modify (set_keep_alive_map (delete self)) ;;
      match s with
      | [] => undefined                (* the do-while reads through null *)
      | _ => release_nodes s
      end
  end.

(** The do-while of lines 228-247: the first node that holds [inst] and the
    list without it, [None] when no node holds it. *)
Fixpoint seq_unlink (inst : Z) (nodes : list nb_inst_seq)
    : option (nb_inst_seq * list nb_inst_seq) :=
  match nodes with
  | [] => None
  | n :: rest =>
      if seq_inst n =? inst then Some (n, rest)
      else
        match seq_unlink inst rest with
        | Some (r, rest') => Some (r, n :: rest')
        | None => None
        end
  end.

(** Lines 213-249: the wrapper leaves [inst_c2p]; the answer is [found]. *)
Definition inst_c2p_remove (p inst : Z) : M bool :=
  let* w := get in
  match inst_c2p w !! p with
  | None => ret false
  | Some (Direct e) =>
      if e =? inst then modify (set_inst_c2p (delete p)) ;; ret true
      else ret false
  | Some (Seq []) => undefined
  | Some (Seq nodes) =>
      match seq_unlink inst nodes with
      | None => ret false
      | Some (n, rest) =>
          (match rest with
           | [] => modify (set_inst_c2p (delete p))
           | _ => modify (set_inst_c2p (insert p (Seq rest)))
           end) ;;
          emit (EvFree (seq_addr n)) ;;
          ret true
      end
  end.

Definition inst_dealloc (self : Z) : M unit :=
  let* tp := Py_TYPE self in
  let* ty := nb_type_obj tp in
  let t := tp_data ty in
  let gc := tp_have_gc ty in
  when gc (emit (EvGCUnTrack self)) ;;
  when (has_flag (t_flags t) has_dynamic_attr) (emit (EvClearDict self)) ;;
  let* inst := nb_inst_read self in
  let* p := inst_ptr self in
  when (destruct inst)
    (check (has_flag (t_flags t) is_destructible)
       (msg_named "nanobind::detail::inst_dealloc" (t_name t)
          ": attempted to call the destructor of a non-destructible type!") ;;
     when (has_flag (t_flags t) has_destruct) (emit (EvDestruct (t_destruct t) p))) ;;
  when (cpp_delete inst)
    (if t_align t <=? default_new_alignment env
     then emit (EvDelete p)
     else emit (EvDeleteAligned p (t_align t))) ;;
  when (clear_keep_alive inst) (keep_alive_clear self (t_name t)) ;;
  let* found := inst_c2p_remove p self in
  check found
    (msg_named "nanobind::detail::inst_dealloc" (t_name t)
       ": attempted to delete an unknown instance (%p)!") ;;
  (if gc then emit (EvTpFree self) else emit (EvFree self)) ;;
  modify (object_drop self) ;;
  emit (EvDecref tp).

(** ** src/nb_type.cpp: [nb_type_get_implicit] *)

(** The place from which the search jumps to [found]: the loop and the
    index of the entry it stood at. *)
Inductive candidate :=
| by_type_exact (i : nat)        (* lines 872-875 *)
| by_type_subtype (i : nat)      (* lines 877-883 *)
| by_predicate (i : nat).        (* lines 891-894 *)

Global Instance candidate_eq_dec : EqDecision candidate.
Proof. solve_decision. Defined.

(** Lines 872-875 *)
Fixpoint implicit_exact (cpp_type_src : type_info) (i : nat) (it : list type_info)
    : option nat :=
  match it with
  | [] => None
  | v :: it' =>
      if type_info_ptr_eq v cpp_type_src || type_info_eq v cpp_type_src
      then Some i
      else implicit_exact cpp_type_src (S i) it'
  end.

(** Lines 877-883 *)
Fixpoint implicit_subtype (src : Z) (i : nat) (it : list type_info) : M (option nat) :=
  match it with
  | [] => ret None
  | v :: it' =>
      let* w := get in
      match type_c2p w !! type_index v with
      | Some td =>
          let* t := nb_type_data td in
          let* tp := Py_TYPE src in
          if PyType_IsSubtype env tp (t_type_py t) then ret (Some i)
          else implicit_subtype src (S i) it'
      | None => implicit_subtype src (S i) it'
      end
  end.

(** Lines 891-894 *)
Fixpoint implicit_predicates (type_py src : Z) (i : nat) (it : list Z) : M (option nat) :=
  match it with
  | [] => ret None
  | v2 :: it' =>
      emit (EvPredicate v2 type_py src) ;;
      if predicate_answer env v2 type_py src then ret (Some i)
      else implicit_predicates type_py src (S i) it'
  end.

(** Lines 868-897: the search, up to [return false] or [goto found]. *)
Definition implicit_search (src : Z) (cpp_type_src : option type_info)
    (dst_type : type_data) : M (option candidate) :=
  let* native :=
    match t_implicit dst_type, cpp_type_src with
    | Some it, Some ts =>
        match implicit_exact ts 0 it with
        | Some i => ret (Some (by_type_exact i))
        | None =>
            let* r := implicit_subtype src 0 it in
            ret (by_type_subtype <$> r)
        end
    | _, _ => ret None
    end in
  match native with
  | Some c => ret (Some c)
  | None =>
      match t_implicit_py dst_type with
      | Some it =>
          let* r := implicit_predicates (t_type_py dst_type) src 0 it in
          ret (by_predicate <$> r)
      | None => ret None
      end
  end.

(** Lines 899-946, the branch for host runtimes from 3.9 on: the destination
    type is called on [src]. *)
Definition implicit_construct (src : Z) (dst_type : type_data)
    (cleanup : option cleanup_list) : M (option Z) :=
  emit (EvCall (t_type_py dst_type) src) ;;
  let* w := get in
  let called := call_type env (t_type_py dst_type) src w in
  modify (fun _ => called.2) ;;
  let result := called.1 in
  if negb (result =? 0) then
    match cleanup with
    | None => undefined
    | Some _ =>
        emit (EvCleanupAppend result) ;;
        let* out := inst_ptr result in
        ret (Some out)
    end
  else
    emit EvErrClear ;;
    let* w := get in
    when (print_implicit_cast_warnings w)
      (emit (EvWarn ("nanobind: implicit conversion from type '%s' to type '"
                     +:+ t_name dst_type +:+ "' failed!"))) ;;
    ret None.

(** The answer is the pointer written to [out], [None] for [false]. *)
Definition nb_type_get_implicit (src : Z) (cpp_type_src : option type_info)
    (dst_type : type_data) (cleanup : option cleanup_list) : M (option Z) :=
  let* c := implicit_search src cpp_type_src dst_type in
  match c with
  | None => ret None
  | Some _ => implicit_construct src dst_type cleanup
  end.

(** ** src/nb_type.cpp: [keep_alive] *)

(** Lines 1041-1048: whether the walk meets a callback-free node for
    [patient] and returns. *)
Fixpoint weakref_seq_has (patient : Z) (s : list nb_weakref_seq) : bool :=
  match s with
  | [] => false
  | p :: s' =>
      if (ws_payload p =? patient) && (ws_callback p =? 0) then true
      else weakref_seq_has patient s'
  end.

(** [internals.keep_alive[nurse]]: the list, entered empty when absent. *)
Definition keep_alive_slot (nurse : Z) : M (list nb_weakref_seq) :=
  let* w := get in
  match keep_alive_map w !! nurse with
  | Some s => ret s
  | None => modify (set_keep_alive_map (insert nurse [])) ;; ret []
  end.

(** [keep_alive(PyObject *nurse, PyObject *patient)] *)
Definition keep_alive (nurse patient : Z) : M unit :=
  if (patient =? 0) || (nurse =? 0) || (nurse =? Py_None env) || (patient =? Py_None env)
  then ret tt
  else
    let* tp := Py_TYPE nurse in
    let* is_nb := nb_type_check tp in
    if is_nb then
      let* pp := keep_alive_slot nurse in
      if weakref_seq_has patient pp then ret tt
      else
        let* s := host_alloc sizeof_nb_weakref_seq in
        check (negb (s =? 0)) "nanobind::detail::keep_alive(): out of memory!" ;;
        modify (set_keep_alive_map
                  (insert nurse
                     (pp ++ [ {| ws_addr := s; ws_callback := 0; ws_payload := patient |} ]))) ;;
        emit (EvIncref patient) ;;
        nb_inst_update nurse (set_clear_keep_alive true)
    else
      let callback := cfunction_new env patient in
      let weakref := weakref_new env nurse callback in
      emit (EvWeakref nurse patient) ;;
      if weakref =? 0 then
        (if callback =? 0 then undefined else emit (EvDecref callback)) ;;
        emit EvErrClear ;;
        throw (runtime_error
                 "nanobind::detail::keep_alive(): could not create a weak reference! Likely, the 'nurse' argument you specified is not a weak-referenceable type!")
      else
        check (negb (callback =? 0))
          "nanobind::detail::keep_alive(): callback creation failed!" ;;
        emit (EvIncref patient) ;;
        emit (EvDecref callback).


(** ** src/nb_type.cpp: [nb_type_put_common] *)

(** The policy after the three places that reassign [rvp] (lines 1112-1113,
    1142 and 1171); [shared] is the answer of
    [keep_shared_from_this_alive], asked only when the type has
    [has_shared_from_this] and the value is not stored in the object. *)
Definition rvp_after_intrusive (flags : Z) (rvp : rv_policy) : rv_policy :=
  if has_flag flags intrusive_ptr then rvp_take_ownership else rvp.

Definition rvp_after_move (flags : Z) (rvp : rv_policy) : rv_policy :=
  if bool_decide (rvp = rvp_move) && negb (has_flag flags is_move_constructible)
  then rvp_copy else rvp.

Definition rvp_after_shared (shared : bool) (rvp : rv_policy) : rv_policy :=
  if shared then rvp_reference else rvp.

Definition store_in_obj (rvp : rv_policy) : bool :=
  bool_decide (rvp = rvp_copy) || bool_decide (rvp = rvp_move).

(** Lines 1123-1144.  The answer is [false] when the move constructor threw
    and the function returns null. *)
Definition put_move (t : type_data) (inst new_value value : Z) : M bool :=
  if has_flag (t_flags t) is_move_constructible then
    if has_flag (t_flags t) has_move then
      emit (EvMove (t_move t) new_value value) ;;
      if native_throws env (t_move t) new_value value then
        (* the only reference to the new wrapper is dropped *)
        emit (EvDecref inst) ;; inst_dealloc inst ;; ret false
      else ret true
    else
      emit (EvMemcpy new_value value (t_size t)) ;;
      emit (EvMemzero value (t_size t)) ;;
      ret true
  else
    check (has_flag (t_flags t) is_copy_constructible)
      (msg_named "nanobind::detail::nb_type_put" (t_name t)
         ": attempted to move an instance that is neither copy- nor move-constructible!") ;;
    ret true.

(** Lines 1146-1161 *)
Definition put_copy (t : type_data) (inst new_value value : Z) : M bool :=
  check (has_flag (t_flags t) is_copy_constructible)
    (msg_named "nanobind::detail::nb_type_put" (t_name t)
       ": attempted to copy an instance that is not copy-constructible!") ;;
  if has_flag (t_flags t) has_copy then
    emit (EvCopy (t_copy t) new_value value) ;;
    if native_throws env (t_copy t) new_value value then
      emit (EvDecref inst) ;; inst_dealloc inst ;; ret false
    else ret true
  else
    emit (EvMemcpy new_value value (t_size t)) ;;
    ret true.

(** [cleanup && cleanup->self()] *)
Definition cleanup_has_self (cleanup : option cleanup_list) : bool :=
  match cleanup with
  | Some c => negb (cleanup_self c =? 0)
  | None => false
  end.

(** The answer is the object (null on failure) and whether [*is_new] was
    set.  [td] is the [type_data *], named by the host type it lives in. *)
Definition nb_type_put_common (value td : Z) (rvp : rv_policy)
    (cleanup : option cleanup_list) : M (Z * bool) :=
  if bool_decide (rvp = rvp_reference_internal) && negb (cleanup_has_self cleanup)
  then ret (0, false)
  else
    let* t := nb_type_data td in
    let intrusive := has_flag (t_flags t) intrusive_ptr in
    let rvp := rvp_after_intrusive (t_flags t) rvp in
    let in_obj := store_in_obj rvp in
    let* inst := inst_new_impl (t_type_py t) (if in_obj then 0 else value) in
    if inst =? 0 then ret (0, false)
    else
      let* new_value := inst_ptr inst in
      let* moved :=
        if bool_decide (rvp = rvp_move) then put_move t inst new_value value
        else ret true in
      if negb moved then ret (0, false)
      else
        let rvp := rvp_after_move (t_flags t) rvp in
        let* copied :=
          if bool_decide (rvp = rvp_copy) then put_copy t inst new_value value
          else ret true in
        if negb copied then ret (0, false)
        else
          let* shared :=
            if has_flag (t_flags t) has_shared_from_this && negb in_obj then
              emit (EvKeepShared (t_keep_shared_from_this_alive t) inst) ;;
              ret (keep_shared_answer env (t_keep_shared_from_this_alive t) inst)
            else ret false in
          let rvp := rvp_after_shared shared rvp in
          let is_new := negb shared in
          nb_inst_update inst
            (fun i =>
               set_ready true
                 (set_cpp_delete (bool_decide (rvp = rvp_take_ownership))
                    (set_destruct
                       (negb (bool_decide (rvp = rvp_reference)) &&
                        negb (bool_decide (rvp = rvp_reference_internal))) i))) ;;
          when (bool_decide (rvp = rvp_reference_internal))
            (keep_alive inst (from_option cleanup_self 0 cleanup)) ;;
          when intrusive (emit (EvSetSelfPy (t_set_self_py t) new_value inst)) ;;
          ret (inst, is_new).

(** ** src/nb_type.cpp: [nb_type_put] *)

(** The lambda [lookup_type]: whether [td] is set afterwards, and [td]. *)
Definition lookup_type (cpp_type : type_info) (td : Z) : M (bool * Z) :=
  if negb (td =? 0) then ret (true, td)
  else
    let* w := get in
    match type_c2p w !! type_index cpp_type with
    | None => ret (false, td)
    | Some td' => ret (true, td')
    end.

(** How the loop of lines 1232-1252 ends. *)
Inductive put_scan :=
| scan_return (o : Z)        (* an existing wrapper is returned *)
| scan_null                  (* [return nullptr] *)
| scan_break (td : Z).       (* [break]: no wrapper of the list fits *)

Fixpoint nb_type_put_scan (cpp_type : type_info) (td : Z) (seq : list Z) : M put_scan :=
  match seq with
  | [] => undefined
  | inst :: next =>
      let* tp := Py_TYPE inst in
      let* t := nb_type_data tp in
      if type_info_ptr_eq (t_type t) cpp_type then
        emit (EvIncref inst) ;; ret (scan_return inst)
      else
        let* looked := lookup_type cpp_type td in
        if negb looked.1 then ret scan_null
        else
          let td := looked.2 in
          let* t_dst := nb_type_data td in
          if PyType_IsSubtype env tp (t_type_py t_dst) then
            emit (EvIncref inst) ;; ret (scan_return inst)
          else
            match next with
            | [] => ret (scan_break td)
            | _ => nb_type_put_scan cpp_type td next
            end
  end.

(** The answer is the object (null on failure) and whether [*is_new] was
    set. *)
Definition nb_type_put (cpp_type : type_info) (value : Z) (rvp : rv_policy)
    (cleanup : option cleanup_list) : M (Z * bool) :=
  if value =? 0 then emit (EvIncref (Py_None env)) ;; ret (Py_None env, false)
  else
    let* scan :=
      if negb (bool_decide (rvp = rvp_copy)) then
        let* w := get in
        match inst_c2p w !! value with
        | Some entry => nb_type_put_scan cpp_type 0 (c2p_insts entry)
        | None =>
            if bool_decide (rvp = rvp_none) then ret scan_null
            else ret (scan_break 0)
        end
      else ret (scan_break 0) in
    match scan with
    | scan_return o => ret (o, false)
    | scan_null => ret (0, false)
    | scan_break td =>
        let* looked := lookup_type cpp_type td in
        if negb looked.1 then ret (0, false)
        else nb_type_put_common value looked.2 rvp cleanup
    end.

(** ** src/nb_type.cpp: unique ownership *)

Definition nb_type_put_unique_finalize (o : Z) (cpp_type : type_info)
    (cpp_delete_arg is_new : bool) : M unit :=
  check (cpp_delete_arg || negb is_new)
    ("nanobind::detail::nb_type_put_unique(type='" +:+ ti_name cpp_type
     +:+ "', cpp_delete=%i): ownership status has become corrupted.") ;;
  let* inst := nb_inst_read o in
  if cpp_delete_arg then
    check (eqb (ready inst) is_new && eqb (destruct inst) is_new &&
           eqb (cpp_delete inst) is_new)
      ("nanobind::detail::nb_type_put_unique(type='" +:+ ti_name cpp_type
       +:+ "', cpp_delete=%i): unexpected status flags! (ready=%i, destruct=%i, cpp_delete=%i)") ;;
    nb_inst_update o (fun i => set_ready true (set_destruct true (set_cpp_delete true i)))
  else
    check (negb (ready inst))
      ("nanobind::detail::nb_type_put_unique('" +:+ ti_name cpp_type
       +:+ "'): ownership status has become corrupted.") ;;
    nb_inst_update o (set_ready true).

Definition nb_type_put_unique (cpp_type : type_info) (value : Z)
    (cleanup : option cleanup_list) (cpp_delete_arg : bool) : M Z :=
  let policy := if cpp_delete_arg then rvp_take_ownership else rvp_none in
  let* put := nb_type_put cpp_type value policy cleanup in
  let o := put.1 in
  let is_new := put.2 in
  when (negb (o =? 0)) (nb_type_put_unique_finalize o cpp_type cpp_delete_arg is_new) ;;
  ret o.

Definition nb_type_relinquish_ownership (o : Z) (cpp_delete_arg : bool) : M unit :=
  let* inst := nb_inst_read o in
  check (ready inst)
    "nanobind::detail::nb_relinquish_ownership('%s'): ownership status has become corrupted." ;;
  (if cpp_delete_arg then
     if negb (cpp_delete inst) || negb (destruct inst) || internal inst then
       emit (EvWarn
               "nanobind::detail::nb_relinquish_ownership(): could not transfer ownership of a Python instance of type '%U' to C++. This is only possible when the instance was previously constructed on the C++ side and is now owned by Python, which was not the case here. You could change the unique pointer signature to std::unique_ptr<T, nb::deleter<T>> to work around this issue.") ;;
       throw next_overload
     else
       nb_inst_update o (fun i => set_destruct false (set_cpp_delete false i))
   else ret tt) ;;
  nb_inst_update o (set_ready false).

End Bridge.

(** * Vocabulary of the statements and sample data *)

(** [d] is representable as an [int32_t]. *)
Definition fits_int32 (d : Z) : bool := (- 2 ^ 31 <=? d) && (d <? 2 ^ 31).

(** An answer of the host allocator: null, or an address that is not within
    the last 4 GiB of the address space. *)
Definition alloc_ok (a : Z) : Prop :=
  a = 0 ∨ (0 < a ∧ a + 2 ^ 32 <= 2 ^ 64).

(** How the payload address [payload] of the wrapper [self] with fields [i]
    is stored, for a wrapper made by [inst_new_impl tp value] whose object
    was first allocated at [self0]. *)
Definition storage_encoded (w' : world) (align value self0 self : Z)
    (i : nb_inst) (payload : Z) : Prop :=
  if decide (value = 0) then
    self = self0 ∧ direct i = true ∧ internal i = true ∧
    payload `mod` align = 0 ∧
    self + sizeof_nb_inst <= payload < self + sizeof_nb_inst + align
  else
    payload = value ∧ internal i = false ∧
    if fits_int32 (to_intptr (value - self0)) then
      self = self0 ∧ direct i = true ∧ offset i = to_intptr (value - self0)
    else
      direct i = false ∧ offset i = sizeof_nb_inst ∧
      ptr_mem w' !! (self + sizeof_nb_inst) = Some value.

(** The world and the value a run ends with. *)
Definition world_of {A} (r : result A) (w : world) : world :=
  match r with
  | Ok _ w' => w'
  | Fatal _ w' => w'
  | Thrown _ w' => w'
  | Undefined => w
  end.

Definition value_of {A} (r : result A) (d : A) : A :=
  match r with
  | Ok a _ => a
  | _ => d
  end.

(** A small world: a bound type [Point] at host type 1000, a host subclass
    of it at 2000 and a bound type [Pod] at 3000, no wrappers, eight answers
    of the allocator. *)
Definition point_info : type_info := {| ti_addr := 500; ti_name := "5Point" |}.

Definition point_data (flags : Z) (type_py : Z) : type_data :=
  {| t_size := 16; t_align := 8; t_flags := flags; t_name := "Point";
     t_type := point_info; t_type_py := type_py;
     t_destruct := 601; t_copy := 602; t_move := 603;
     t_implicit := None; t_implicit_py := None;
     t_set_self_py := 604; t_keep_shared_from_this_alive := 605 |}.

Definition point_flags : Z :=
  flags_of [is_destructible; is_copy_constructible; is_move_constructible;
            has_destruct; has_copy; has_move].

Definition point_type : nb_type :=
  {| tp_have_gc := false; tp_data := point_data point_flags 1000 |}.

Definition point_subtype : nb_type :=
  {| tp_have_gc := true;
     tp_data := point_data (Z.lor point_flags (type_flag_mask is_python_type)) 2000 |}.

(** A trivially destructible type: it may be destroyed, and there is no
    destructor to call. *)
Definition pod_info : type_info := {| ti_addr := 520; ti_name := "3Pod" |}.

Definition pod_type : nb_type :=
  {| tp_have_gc := false;
     tp_data :=
       {| t_size := 8; t_align := 8;
          t_flags := flags_of [is_destructible; is_copy_constructible; is_move_constructible];
          t_name := "Pod"; t_type := pod_info; t_type_py := 3000;
          t_destruct := 0; t_copy := 0; t_move := 0;
          t_implicit := None; t_implicit_py := None;
          t_set_self_py := 0; t_keep_shared_from_this_alive := 0 |} |}.

Definition world0 : world :=
  {| inst_c2p := ∅;
     type_c2p := {[ "5Point" := 1000; "3Pod" := 3000 ]};
     keep_alive_map := ∅;
     print_implicit_cast_warnings := true;
     ob_type := ∅;
     insts := ∅;
     types := {[ 1000 := point_type; 2000 := point_subtype; 3000 := pod_type ]};
     ptr_mem := ∅;
     allocs := [4096; 4200; 4300; 4400; 4500; 4600; 4700; 4800];
     trace := [] |}.

(** A host runtime in which 2000 is a subtype of 1000, no native
    constructor throws, and calls of host types fail. *)
Definition env0 : host_env :=
  {| Py_None := 8;
     PyType_IsSubtype := fun a b => (a =? b) || ((a =? 2000) && (b =? 1000));
     default_new_alignment := 16;
     native_throws := fun _ _ _ => false;
     keep_shared_answer := fun _ _ => false;
     predicate_answer := fun fn _ _ => fn =? 701;
     call_type := fun _ _ w => (0, w);
     capsule_new := fun payload _ => payload + 1;
     cfunction_new := fun patient => patient + 2;
     weakref_new := fun nurse _ => nurse + 3 |}.

(** How often the wrapper [inst] occurs in the entry of [inst_c2p] for the
    address [p]. *)
Definition c2p_count (m : gmap Z c2p_entry) (p inst : Z) : nat :=
  match m !! p with
  | Some e => length (filter (fun x => x = inst) (c2p_insts e))
  | None => 0%nat
  end.

(** The entries of the identity map hold no wrapper twice, and a collision
    list has at least one node. *)
Definition c2p_wf (m : gmap Z c2p_entry) : Prop :=
  map_Forall (fun _ e => NoDup (c2p_insts e) ∧ c2p_insts e ≠ []) m.

(** What [inst_c2p] holds for an address after the wrapper [inst] left the
    entry [e] of that address. *)
Definition entry_after_removal (inst : Z) (e : c2p_entry) (after : option c2p_entry) : Prop :=
  match e with
  | Direct _ => after = None
  | Seq nodes =>
      ∃ before n behind,
        nodes = before ++ n :: behind ∧ seq_inst n = inst ∧
        match before, behind with
        | [], [] => after = None
        | [], _ => after = Some (Seq behind)
        | _, _ => after = Some (Seq (before ++ behind))
        end
  end.

(** What [inst_c2p] holds for an address after the wrapper [inst] entered:
    a direct value for the first wrapper of the address, a list made on the
    spot for the second, the list with one more node from then on. *)
Definition entry_after_insertion (inst : Z) (before : option c2p_entry) (after : option c2p_entry) : Prop :=
  match before with
  | None => after = Some (Direct inst)
  | Some (Direct e) =>
      ∃ first next,
        after = Some (Seq [ {| seq_addr := first; seq_inst := e |};
                            {| seq_addr := next; seq_inst := inst |} ])
  | Some (Seq nodes) =>
      ∃ next, after = Some (Seq (nodes ++ [ {| seq_addr := next; seq_inst := inst |} ]))
  end.

(** The policy [nb_type_put_common] ends with, for the type [t], the
    requested policy [rvp] and the new wrapper [inst]: the requested policy
    after the three reassignments of the source, in their order. *)
Definition effective_rvp (env : host_env) (t : type_data) (rvp : rv_policy) (inst : Z)
    : rv_policy :=
  let rvp1 := rvp_after_intrusive (t_flags t) rvp in
  let rvp2 := rvp_after_move (t_flags t) rvp1 in
  rvp_after_shared
    (has_flag (t_flags t) has_shared_from_this && negb (store_in_obj rvp1) &&
     keep_shared_answer env (t_keep_shared_from_this_alive t) inst)
    rvp2.

(** The world in which [nb_type_put_common] returns the wrapper [inst] that
    [inst_new_impl] made in [w1], after the native calls [evs], with the
    ownership flags [d] and [c]. *)
Definition put_finished (w1 : world) (inst : Z) (evs : list event) (d c : bool) : world :=
  set_insts
    (fun m =>
       match m !! inst with
       | Some i => <[inst := set_ready true (set_cpp_delete c (set_destruct d i))]> m
       | None => m
       end)
    (set_trace (fun t => t ++ evs) w1).

(** The three ways [nb_type_relinquish_ownership(o, true)] can end for a
    wrapper with the fields [i]. *)
Definition relinquish_ready_msg : string :=
  "nanobind::detail::nb_relinquish_ownership('%s'): ownership status has become corrupted.".

Definition relinquish_warning : string :=
  "nanobind::detail::nb_relinquish_ownership(): could not transfer ownership of a Python instance of type '%U' to C++. This is only possible when the instance was previously constructed on the C++ side and is now owned by Python, which was not the case here. You could change the unique pointer signature to std::unique_ptr<T, nb::deleter<T>> to work around this issue.".

(** The wrapper owns a destructible payload that is not co-located. *)
Definition owns_external (i : nb_inst) : bool :=
  cpp_delete i && destruct i && negb (internal i).

(** A world with one wrapper at 4096 for the address 7000 that owns its
    payload but is not ready. *)
Definition world_unready : world :=
  set_insts
    (insert 4096
       {| offset := 2904; direct := true; internal := false; ready := false;
          destruct := true; cpp_delete := true; clear_keep_alive := false |})
    (set_ob_type (insert 4096 1000)
       (set_inst_c2p (insert 7000 (Direct 4096)) world0)).

(** The calls that release the edge of one keep-alive node. *)
Definition release_events (c : nb_weakref_seq) : list event :=
  [ if negb (ws_callback c =? 0) then EvCallback (ws_callback c) (ws_payload c)
    else EvDecref (ws_payload c);
    EvFree (ws_addr c) ].




(** The calls of [inst_dealloc] up to the release of the payload (lines
    164-189), for a wrapper [self] with the fields [i] and the payload
    address [p], of a type with the record [t]. *)
Definition dealloc_untrack_events (gc : bool) (self : Z) : list event :=
  if gc then [EvGCUnTrack self] else [].

Definition dealloc_dict_events (t : type_data) (self : Z) : list event :=
  if has_flag (t_flags t) has_dynamic_attr then [EvClearDict self] else [].

Definition dealloc_destruct_events (t : type_data) (i : nb_inst) (p : Z) : list event :=
  if destruct i && has_flag (t_flags t) has_destruct
  then [EvDestruct (t_destruct t) p] else [].

Definition dealloc_delete_events (env : host_env) (t : type_data) (i : nb_inst) (p : Z)
    : list event :=
  if cpp_delete i then
    [ if t_align t <=? default_new_alignment env then EvDelete p
      else EvDeleteAligned p (t_align t) ]
  else [].

(** The release of the keep-alive edges of [self] (lines 192-211). *)
Definition dealloc_keep_alive_events (w : world) (i : nb_inst) (self : Z) : list event :=
  if clear_keep_alive i
  then flat_map release_events (default [] (keep_alive_map w !! self))
  else [].

(** The node freed when [self] leaves the entry of [p] (line 241). *)
Definition dealloc_unlink_events (w : world) (p self : Z) : list event :=
  match inst_c2p w !! p with
  | Some (Seq nodes) =>
      match seq_unlink self nodes with
      | Some (n, _) => [EvFree (seq_addr n)]
      | None => []
      end
  | _ => []
  end.

(** The release of the object header and of the reference to its type
    (lines 255-260). *)
Definition dealloc_free_events (gc : bool) (self tp : Z) : list event :=
  [ if gc then EvTpFree self else EvFree self; EvDecref tp ].

Definition dealloc_destruct_msg (t : type_data) : string :=
  msg_named "nanobind::detail::inst_dealloc" (t_name t)
    ": attempted to call the destructor of a non-destructible type!".

Definition dealloc_keep_alive_msg (t : type_data) : string :=
  msg_named "nanobind::detail::inst_dealloc" (t_name t)
    ": inconsistent keep_alive information".

Definition dealloc_unknown_msg (t : type_data) : string :=
  msg_named "nanobind::detail::inst_dealloc" (t_name t)
    ": attempted to delete an unknown instance (%p)!".

(** The world with the calls [evs] added to its trace. *)
Definition traced (evs : list event) (w : world) : world :=
  set_trace (fun t => t ++ evs) w.

(** [world0] after a [Point] at 7000 was handed over with [take_ownership],
    and after a [Pod] at 7000 was. *)
Definition world_owned : world :=
  world_of (nb_type_put env0 point_info 7000 rvp_take_ownership None world0) world0.






Definition predicate_matches (env : host_env) (dst : type_data) (src : Z) (fn : Z) : bool :=
  predicate_answer env fn (t_type_py dst) src.







(** The registry names host types of the bridge only. *)
Definition registry_wf (w : world) : Prop :=
  map_Forall (fun _ td => is_Some (types w !! td)) (type_c2p w).

(** A destination type that declares a conversion from [Point] and a
    predicate (701, which [env0] lets accept every source). *)
Definition line_data : type_data :=
  {| t_size := 32; t_align := 8;
     t_flags := flags_of [is_destructible; has_implicit_conversions];
     t_name := "Line"; t_type := {| ti_addr := 540; ti_name := "4Line" |};
     t_type_py := 5000;
     t_destruct := 0; t_copy := 0; t_move := 0;
     t_implicit := Some [pod_info; point_info]; t_implicit_py := Some [700; 701];
     t_set_self_py := 0; t_keep_shared_from_this_alive := 0 |}.

(** The wrapper [inst] is a live object whose host type is one of the
    bridge. *)
Definition wrapper_live (w : world) (inst : Z) : Prop :=
  ∃ tp t, ob_type w !! inst = Some tp ∧ types w !! tp = Some t.

(** The wrapper [inst] fits the request for the native type [cpp_type],
    registered with the record [t_dst]: its type record names [cpp_type],
    or its host type is a subtype of the host type of [t_dst]. *)
Definition wrapper_fits (env : host_env) (w : world) (cpp_type : type_info)
    (t_dst : type_data) (inst : Z) : bool :=
  match ob_type w !! inst with
  | Some tp =>
      match types w !! tp with
      | Some t =>
          type_info_ptr_eq (t_type (tp_data t)) cpp_type ||
          PyType_IsSubtype env tp (t_type_py t_dst)
      | None => false
      end
  | None => false
  end.

(** The wrappers that [inst_c2p] holds for the address [p]. *)
Definition wrappers_at (w : world) (p : Z) : list Z :=
  from_option c2p_insts [] (inst_c2p w !! p).

(** * Further functions of the sources *)

(** ** src/nb_internals.h: [ptr_hash] *)

(** [ptr_hash::operator()]: fmix64 on the pointer value; every assignment
    is to a [uintptr_t]. *)
Definition ptr_hash (p : Z) : Z :=
  let v := to_uintptr p in
  let v := Z.lxor v (Z.shiftr v 33) in
  let v := to_uintptr (v * 0xff51afd7ed558ccd) in
  let v := Z.lxor v (Z.shiftr v 33) in
  let v := to_uintptr (v * 0xc4ceb9fe1a85ec53) in
  let v := Z.lxor v (Z.shiftr v 33) in
  v.

(** The inverse of [ptr_hash] on 64-bit words: the three steps undone in
    reverse order, the multiplications by the inverses of the two odd
    constants modulo [2^64]. *)
Definition ptr_unhash (h : Z) : Z :=
  let v := Z.lxor h (Z.shiftr h 33) in
  let v := to_uintptr (v * 0x9cb4b2f8129337db) in
  let v := Z.lxor v (Z.shiftr v 33) in
  let v := to_uintptr (v * 0x4f74430c22a54005) in
  let v := Z.lxor v (Z.shiftr v 33) in
  v.

(** ** Casting flags *)

(** The enumeration [cast_flags] is declared in a header outside the sources
    at hand; src/nb_type.cpp tests two of its bits.  The positions are those
    of the library ([convert = 1 << 0], [construct = 1 << 1]). *)
Inductive cast_flags := convert | construct.

Definition cast_flag_mask (f : cast_flags) : Z :=
  match f with
  | convert => 1
  | construct => 2
  end.

(** [flags & (uint8_t) cast_flags::f], read as a truth value *)
Definition has_cast_flag (flags : Z) (f : cast_flags) : bool :=
  negb (Z.land flags (cast_flag_mask f) =? 0).

(** The line feed that ends a warning. *)
Definition newline : string := String (Ascii.ascii_of_nat 10) EmptyString.

(** [p == q] for a [const std::type_info *] [q] that may be null ([None]);
    a type record whose [type] is null has the address 0. *)
Definition type_info_ptr_eq_opt (p : type_info) (q : option type_info) : bool :=
  match q with
  | Some q => type_info_ptr_eq p q
  | None => ti_addr p =? 0
  end.

Section Access.
Context (env : host_env).

(** ** src/nb_type.cpp: [nb_type_get] *)

(** Where lines 965-998 leave [nb_type_get]: at a [return], or behind the
    block with [cpp_type_src] and [dst_type] as they stand. *)
Inductive get_step :=
| get_return (out : option Z)
| get_continue (cpp_type_src : option type_info) (dst_type : option Z).

(** The answer is the pointer written to [out], [None] for [false]. *)
Definition nb_type_get (cpp_type : type_info) (src : Z) (flags : Z)
    (cleanup : option cleanup_list) : M (option Z) :=
  if src =? Py_None env then ret (Some 0)
  else
    let* src_type := Py_TYPE src in
    let* src_is_nb_type := nb_type_check src_type in
    let* step :=
      if src_is_nb_type then
        let* t := nb_type_data src_type in
        let cpp_type_src := t_type t in
        let valid := type_info_ptr_eq cpp_type cpp_type_src ||
                     type_info_eq cpp_type cpp_type_src in
        let* w := get in
        let dst_type := if valid then None else type_c2p w !! type_index cpp_type in
        let* valid :=
          if valid then ret true
          else
            match dst_type with
            | Some d =>
                let* t_dst := nb_type_data d in
                ret (PyType_IsSubtype env src_type (t_type_py t_dst))
            | None => ret false
            end in
        if valid then
          let* inst := nb_inst_read src in
          if negb (ready inst) && negb (has_cast_flag flags construct) then
            emit (EvWarn ("nanobind: attempted to access an uninitialized instance of type '"
                          +:+ t_name t +:+ "'!" +:+ newline)) ;;
            ret (get_return None)
          else
            let* out := inst_ptr src in
            ret (get_return (Some out))
        else ret (get_continue (Some cpp_type_src) dst_type)
      else ret (get_continue None None) in
    match step with
    | get_return out => ret out
    | get_continue cpp_type_src dst_type =>
        if has_cast_flag flags convert && bool_decide (is_Some cleanup) then
          let* w := get in
          let dst_type :=
            if negb src_is_nb_type then type_c2p w !! type_index cpp_type
            else dst_type in
          match dst_type with
          | Some d =>
              let* t_dst := nb_type_data d in
              if has_flag (t_flags t_dst) has_implicit_conversions then
                nb_type_get_implicit env src cpp_type_src t_dst cleanup
              else ret None
          | None => ret None
          end
        else ret None
    end.

(** ** src/nb_type.cpp: [keep_alive_callback] *)

(** [nargs] and [args[0]] stand for the argument vector, [is_weakref] for
    the answer of [PyWeakref_CheckRefExact(args[0])]. *)
Definition keep_alive_callback (self : Z) (nargs : Z) (arg0 : Z) (is_weakref : bool)
    : M Z :=
  check ((nargs =? 1) && is_weakref)
    "nanobind::detail::keep_alive_callback(): invalid input!" ;;
  emit (EvDecref arg0) ;;
  emit (EvDecref self) ;;
  emit (EvIncref (Py_None env)) ;;
  ret (Py_None env).

(** ** src/nb_type.cpp: [nb_type_put_p] *)

(** The lambda [lookup_type] of [nb_type_put_p]: whether [td] is set
    afterwards, and [td] and [td_p]. *)
Definition lookup_type_p (cpp_type : type_info) (cpp_type_p : option type_info)
    (td td_p : Z) : M (bool * (Z * Z)) :=
  if negb (td =? 0) then ret (true, (td, td_p))
  else
    let* w := get in
    match type_c2p w !! type_index cpp_type with
    | None => ret (false, (td, td_p))
    | Some td' =>
        match cpp_type_p with
        | Some cpp_type_p' =>
            if negb (type_info_ptr_eq cpp_type_p' cpp_type) then
              match type_c2p w !! type_index cpp_type_p' with
              | Some td_p' => ret (true, (td', td_p'))
              | None => ret (true, (td', td_p))
              end
            else ret (true, (td', td_p))
        | None => ret (true, (td', td_p))
        end
    end.

(** How the loop of lines 1319-1344 ends. *)
Inductive put_p_scan :=
| scan_p_return (o : Z)
| scan_p_null
| scan_p_break (td td_p : Z).

Fixpoint nb_type_put_p_scan (cpp_type : type_info) (cpp_type_p : option type_info)
    (td td_p : Z) (seq : list Z) : M put_p_scan :=
  match seq with
  | [] => undefined
  | inst :: next =>
      let* tp := Py_TYPE inst in
      let* t := nb_type_data tp in
      let p := t_type t in
      if type_info_ptr_eq p cpp_type || type_info_ptr_eq_opt p cpp_type_p then
        emit (EvIncref inst) ;; ret (scan_p_return inst)
      else
        let* looked := lookup_type_p cpp_type cpp_type_p td td_p in
        if negb looked.1 then ret scan_p_null
        else
          let td := looked.2.1 in
          let td_p := looked.2.2 in
          let* t_dst := nb_type_data td in
          let* sub_p :=
            if PyType_IsSubtype env tp (t_type_py t_dst) then ret true
            else if negb (td_p =? 0) then
              let* t_dst_p := nb_type_data td_p in
              ret (PyType_IsSubtype env tp (t_type_py t_dst_p))
            else ret false in
          if sub_p then
            emit (EvIncref inst) ;; ret (scan_p_return inst)
          else
            match next with
            | [] => ret (scan_p_break td td_p)
            | _ => nb_type_put_p_scan cpp_type cpp_type_p td td_p next
            end
  end.

Definition nb_type_put_p (cpp_type : type_info) (cpp_type_p : option type_info)
    (value : Z) (rvp : rv_policy) (cleanup : option cleanup_list) : M (Z * bool) :=
  if value =? 0 then emit (EvIncref (Py_None env)) ;; ret (Py_None env, false)
  else
    let* scan :=
      if negb (bool_decide (rvp = rvp_copy)) then
        let* w := get in
        match inst_c2p w !! value with
        | Some entry => nb_type_put_p_scan cpp_type cpp_type_p 0 0 (c2p_insts entry)
        | None =>
            if bool_decide (rvp = rvp_none) then ret scan_p_null
            else ret (scan_p_break 0 0)
        end
      else ret (scan_p_break 0 0) in
    match scan with
    | scan_p_return o => ret (o, false)
    | scan_p_null => ret (0, false)
    | scan_p_break td td_p =>
        let* looked := lookup_type_p cpp_type cpp_type_p td td_p in
        if negb looked.1 then ret (0, false)
        else
          let td := looked.2.1 in
          let td_p := looked.2.2 in
          nb_type_put_common env value (if negb (td_p =? 0) then td_p else td) rvp cleanup
    end.

Definition nb_type_put_unique_p (cpp_type : type_info) (cpp_type_p : option type_info)
    (value : Z) (cleanup : option cleanup_list) (cpp_delete_arg : bool) : M Z :=
  let policy := if cpp_delete_arg then rvp_take_ownership else rvp_none in
  let* put := nb_type_put_p cpp_type cpp_type_p value policy cleanup in
  let o := put.1 in
  let is_new := put.2 in
  when (negb (o =? 0)) (nb_type_put_unique_finalize o cpp_type cpp_delete_arg is_new) ;;
  ret o.

(** ** src/nb_type.cpp: queries on types *)

Definition nb_type_isinstance (o : Z) (t : type_info) : M bool :=
  let* w := get in
  match type_c2p w !! type_index t with
  | None => ret false
  | Some d =>
      let* tp := Py_TYPE o in
      let* t_dst := nb_type_data d in
      ret (PyType_IsSubtype env tp (t_type_py t_dst))
  end.

(** The answer is the host type, null when [t] is not registered. *)
Definition nb_type_lookup (t : type_info) : M Z :=
  let* w := get in
  match type_c2p w !! type_index t with
  | Some d => let* t_dst := nb_type_data d in ret (t_type_py t_dst)
  | None => ret 0
  end.

Definition nb_type_size (t : Z) : M Z :=
  let* d := nb_type_data t in ret (t_size d).

Definition nb_type_align (t : Z) : M Z :=
  let* d := nb_type_data t in ret (t_align d).

Definition nb_type_info (t : Z) : M type_info :=
  let* d := nb_type_data t in ret (t_type d).

Definition nb_inst_python_derived (o : Z) : M bool :=
  let* tp := Py_TYPE o in
  let* t := nb_type_data tp in
  ret (has_flag (t_flags t) is_python_type).

(** ** src/nb_type.cpp: the low-level instance interface *)

(** [inst_new]: a new instance with co-located storage *)
Definition inst_new (type : Z) : M Z := inst_new_impl type 0.

Definition nb_inst_ptr (o : Z) : M Z := inst_ptr o.

(** [nb_inst_zero(o)] (the name [nb_inst_zero] is taken by the zeroed
    record) *)
Definition nb_inst_zero_payload (o : Z) : M unit :=
  let* tp := Py_TYPE o in
  let* t := nb_type_data tp in
  let* p := inst_ptr o in
  emit (EvMemzero p (t_size t)) ;;
  nb_inst_update o (fun i => set_ready true (set_destruct true i)).

Definition nb_inst_set_state (o : Z) (ready_arg destruct_arg : bool) : M unit :=
  nb_inst_update o
    (fun i =>
       set_cpp_delete (destruct_arg && negb (internal i))
         (set_destruct destruct_arg (set_ready ready_arg i))).

Definition nb_inst_state (o : Z) : M (bool * bool) :=
  let* i := nb_inst_read o in ret (ready i, destruct i).

Definition nb_inst_destruct (o : Z) : M unit :=
  let* nbi := nb_inst_read o in
  let* tp := Py_TYPE o in
  let* t := nb_type_data tp in
  when (destruct nbi)
    (check (has_flag (t_flags t) is_destructible)
       (msg_named "nanobind::detail::nb_inst_destruct" (t_name t)
          ": attempted to call the destructor of a non-destructible type!") ;;
     (if has_flag (t_flags t) has_destruct then
        let* p := inst_ptr o in emit (EvDestruct (t_destruct t) p)
      else ret tt) ;;
     nb_inst_update o (set_destruct false)) ;;
  nb_inst_update o (set_ready false).

(** [nb_inst_copy] and [nb_inst_move] are [noexcept]: a constructor that
    throws ends the process. *)
Definition nb_inst_copy (dst src : Z) : M unit :=
  let* tp := Py_TYPE src in
  let* t := nb_type_data tp in
  let* tp_dst := Py_TYPE dst in
  check ((tp =? tp_dst) && has_flag (t_flags t) is_copy_constructible)
    "nanobind::detail::nb_inst_copy(): invalid arguments!" ;;
  let* src_data := inst_ptr src in
  let* dst_data := inst_ptr dst in
  (if has_flag (t_flags t) has_copy then
     emit (EvCopy (t_copy t) dst_data src_data) ;;
     when (native_throws env (t_copy t) dst_data src_data) (fail "std::terminate")
   else emit (EvMemcpy dst_data src_data (t_size t))) ;;
  nb_inst_update dst (fun i => set_ready true (set_destruct true i)).

Definition nb_inst_move (dst src : Z) : M unit :=
  let* tp := Py_TYPE src in
  let* t := nb_type_data tp in
  let* tp_dst := Py_TYPE dst in
  check ((tp =? tp_dst) && has_flag (t_flags t) is_move_constructible)
    "nanobind::detail::nb_inst_move(): invalid arguments!" ;;
  let* src_data := inst_ptr src in
  let* dst_data := inst_ptr dst in
  (if has_flag (t_flags t) has_move then
     emit (EvMove (t_move t) dst_data src_data) ;;
     when (native_throws env (t_move t) dst_data src_data) (fail "std::terminate")
   else
     emit (EvMemcpy dst_data src_data (t_size t)) ;;
     emit (EvMemzero src_data (t_size t))) ;;
  nb_inst_update dst (fun i => set_ready true (set_destruct true i)).

End Access.

(** ** src/nb_type.cpp: the slots of the metaclass *)

Definition set_type_c2p (f : gmap string Z → gmap string Z) (w : world) : world :=
  {| inst_c2p := inst_c2p w; type_c2p := f (type_c2p w);
     keep_alive_map := keep_alive_map w;
     print_implicit_cast_warnings := print_implicit_cast_warnings w;
     ob_type := ob_type w; insts := insts w; types := types w;
     ptr_mem := ptr_mem w; allocs := allocs w; trace := trace w |}.

Definition set_types (f : gmap Z nb_type → gmap Z nb_type) (w : world) : world :=
  {| inst_c2p := inst_c2p w; type_c2p := type_c2p w;
     keep_alive_map := keep_alive_map w;
     print_implicit_cast_warnings := print_implicit_cast_warnings w;
     ob_type := ob_type w; insts := insts w; types := f (types w);
     ptr_mem := ptr_mem w; allocs := allocs w; trace := trace w |}.

(** What the host answers to the slots of [nb_type]: tuples, the type
    check, [PyType_Type.tp_init] and the name of a type. *)
Record type_host := {
  (* [PyTuple_CheckExact(o)] and, when it holds, the items of [o] *)
  tuple_exact : Z → option (list Z);
  (* [PyType_Check(o)] *)
  PyType_Check : Z → bool;
  (* [PyType_Type.tp_init(self, args, kwds)] *)
  PyType_tp_init : Z → list Z → Z → Z;
  (* [nb_type_name(tp)]: the new string object and its text *)
  type_name_obj : Z → Z;
  type_name_str : Z → string
}.

(** How a slot returns: 0, -1 with an exception set by the bridge, or the
    nonzero answer of the host with whatever the host has set. *)
Inductive py_exc := PyExc_RuntimeError | PyExc_TypeError.

Inductive slot_result :=
| slot_ok
| slot_error (exc : py_exc) (msg : string)
| slot_rv (rv : Z).

(** [flags & ~mask] on [uint32_t] *)
Definition clear_bits (flags mask : Z) : Z := Z.land flags (Z.lnot mask mod 2 ^ 32).

(** Lines 319-329: the record of a type derived in Python from the type
    with the record [t_b]. *)
Definition derived_type_data (t_b : type_data) (self : Z) (name : string) : type_data :=
  {| t_size := t_size t_b; t_align := t_align t_b;
     t_flags := clear_bits (Z.lor (t_flags t_b) (type_flag_mask is_python_type))
                  (type_flag_mask has_implicit_conversions);
     t_name := name; t_type := t_type t_b; t_type_py := self;
     t_destruct := t_destruct t_b; t_copy := t_copy t_b; t_move := t_move t_b;
     t_implicit := None; t_implicit_py := None;
     t_set_self_py := t_set_self_py t_b;
     t_keep_shared_from_this_alive := t_keep_shared_from_this_alive t_b |}.

(** [nb_type_init(self, args, kwds)]; [args] are the items of the argument
    tuple. *)
Definition nb_type_init (h : type_host) (self : Z) (args : list Z) (kwds : Z)
    : M slot_result :=
  if negb (Z.of_nat (length args) =? 3) then
    ret (slot_error PyExc_RuntimeError "nb_type_init(): invalid number of arguments!")
  else
    match args !! 1%nat with
    | None => undefined
    | Some bases =>
        match tuple_exact h bases with
        | Some [base] =>
            if negb (PyType_Check h base) then
              ret (slot_error PyExc_RuntimeError
                     "nb_type_init(): expected a base type object!")
            else
              let* t_b := nb_type_data base in
              if has_flag (t_flags t_b) is_final then
                ret (slot_error PyExc_TypeError
                       ("The type '" +:+ t_name t_b +:+ "' prohibits subclassing!"))
              else
                let rv := PyType_tp_init h self args kwds in
                if negb (rv =? 0) then ret (slot_rv rv)
                else
                  let* ty := nb_type_obj self in
                  modify (set_types
                            (insert self
                               {| tp_have_gc := tp_have_gc ty;
                                  tp_data := derived_type_data t_b self
                                               (type_name_str h self) |})) ;;
                  emit (EvDecref (type_name_obj h self)) ;;
                  ret slot_ok
        | _ =>
            ret (slot_error PyExc_RuntimeError "nb_type_init(): invalid number of bases!")
        end
    end.

(** What [nb_type_dealloc] releases besides the registry entry: the two
    conversion tables, the name, and the type object itself (through
    [PyType_Type.tp_dealloc]). *)
Inductive type_release :=
| release_implicit
| release_implicit_py
| release_name
| release_type (o : Z).

(** The answer lists the releases in the order they are made. *)
Definition nb_type_dealloc (o : Z) : M (list type_release) :=
  let* t := nb_type_data o in
  (if negb (ti_addr (t_type t) =? 0) && negb (has_flag (t_flags t) is_python_type) then
     let* w := get in
     check (bool_decide (is_Some (type_c2p w !! type_index (t_type t))))
       (msg_named "nanobind::detail::nb_type_dealloc" (t_name t) ": could not find type!") ;;
     modify (set_type_c2p (delete (type_index (t_type t))))
   else ret tt) ;;
  modify (set_types (delete o)) ;;
  ret ((if has_flag (t_flags t) has_implicit_conversions
        then [release_implicit; release_implicit_py] else [])
       ++ [release_name; release_type o]).

(** ** Vocabulary of the further statements *)

(** Whether [nb_type_get] takes an object of the host type [tp], whose
    record is [t], for a [cpp_type]: the two type objects are the same or
    carry the same name, or [tp] is a subtype of the host type registered
    for [cpp_type]. *)
Definition get_accepts (env : host_env) (w : world) (cpp_type : type_info)
    (tp : Z) (t : type_data) : bool :=
  type_info_ptr_eq cpp_type (t_type t) || type_info_eq cpp_type (t_type t) ||
  match type_c2p w !! type_index cpp_type with
  | Some d =>
      match types w !! d with
      | Some ty_d => PyType_IsSubtype env tp (t_type_py (tp_data ty_d))
      | None => false
      end
  | None => false
  end.

Definition unready_warning (t : type_data) : string :=
  "nanobind: attempted to access an uninitialized instance of type '"
  +:+ t_name t +:+ "'!" +:+ newline.

(** The last resort of [nb_type_get]: the implicit conversion to the type
    registered for [cpp_type], when the caller asked for conversions and
    gave a cleanup list. *)
Definition get_converted (env : host_env) (cpp_type : type_info) (src : Z)
    (cpp_type_src : option type_info) (flags : Z) (cleanup : option cleanup_list)
    : M (option Z) := fun w =>
  if has_cast_flag flags convert && bool_decide (is_Some cleanup) then
    match type_c2p w !! type_index cpp_type with
    | Some d =>
        match types w !! d with
        | Some ty_d =>
            if has_flag (t_flags (tp_data ty_d)) has_implicit_conversions then
              nb_type_get_implicit env src cpp_type_src (tp_data ty_d) cleanup w
            else Ok None w
        | None => Undefined
        end
    | None => Ok None w
    end
  else Ok None w.

(** The end of the loop of [nb_type_put], read as an end of the loop of
    [nb_type_put_p] in which [td_p] was not set. *)
Definition scan_p_of (s : put_scan) : put_p_scan :=
  match s with
  | scan_return o => scan_p_return o
  | scan_null => scan_p_null
  | scan_break td => scan_p_break td 0
  end.

Definition result_map {A B} (f : A → B) (r : result A) : result B :=
  match r with
  | Ok a w => Ok (f a) w
  | Fatal msg w => Fatal msg w
  | Thrown e w => Thrown e w
  | Undefined => Undefined
  end.

(** The calls that release a payload, the calls of a native destructor, and
    the calls made between two worlds of one run. *)
Definition is_delete (e : event) : bool :=
  match e with
  | EvDelete _ | EvDeleteAligned _ _ => true
  | _ => false
  end.

Definition is_destruct_call (e : event) : bool :=
  match e with
  | EvDestruct _ _ => true
  | _ => false
  end.

Definition events_since (w w' : world) : list event :=
  drop (length (trace w)) (trace w').

(** The wrapper [o] as [inst_dealloc] wants to find it: a wrapper of the
    bridge with the fields [i] and the payload address [p], in a world whose
    identity map holds no wrapper twice and whose keep-alive table holds no
    empty list for [o]. *)
Definition dealloc_ready (w : world) (o tp : Z) (ty : nb_type) (i : nb_inst) (p : Z)
    : Prop :=
  ob_type w !! o = Some tp ∧ types w !! tp = Some ty ∧ insts w !! o = Some i ∧
  inst_ptr o w = Ok p w ∧ c2p_wf (inst_c2p w) ∧
  (clear_keep_alive i = true → keep_alive_map w !! o ≠ Some []).

Definition inst_destruct_msg (t : type_data) : string :=
  msg_named "nanobind::detail::nb_inst_destruct" (t_name t)
    ": attempted to call the destructor of a non-destructible type!".

(** The calls by which [nb_inst_copy] and [nb_inst_move] fill the payload
    at [dst] from the payload at [src]. *)
Definition inst_copy_events (t : type_data) (dst src : Z) : list event :=
  [ if has_flag (t_flags t) has_copy then EvCopy (t_copy t) dst src
    else EvMemcpy dst src (t_size t) ].

Definition inst_move_events (t : type_data) (dst src : Z) : list event :=
  if has_flag (t_flags t) has_move then [EvMove (t_move t) dst src]
  else [EvMemcpy dst src (t_size t); EvMemzero src (t_size t)].

(** [world_owned] with a second [Point] wrapper, whose payload is
    co-located. *)
Definition world_pair : world :=
  world_of (inst_new 1000 world_owned) world_owned.

Definition keep_alive_weakref_msg : string :=
  "nanobind::detail::keep_alive(): could not create a weak reference! Likely, the 'nurse' argument you specified is not a weak-referenceable type!".

(** [world0] with a host object at 9000 whose type (77) is none of the
    bridge. *)
Definition world_foreign : world := set_ob_type (insert 9000 77) world0.

Global Instance type_flags_eq_dec : EqDecision type_flags.
Proof. solve_decision. Defined.

(** The bit of a flag in [type_data::flags]. *)
Definition type_flag_bit (f : type_flags) : Z := Z.log2 (type_flag_mask f).

(** A host in which 4900 is the tuple of bases [(1000,)], every object asked
    about is a type, [PyType_Type.tp_init] succeeds, and the type 2000 is
    named as below. *)
Definition host0 : type_host :=
  {| tuple_exact := fun o => if o =? 4900 then Some [1000] else None;
     PyType_Check := fun _ => true;
     PyType_tp_init := fun _ _ _ => 0;
     type_name_obj := fun tp => tp + 5;
     type_name_str := fun _ => "app.PyPoint" |}.

Definition final_type_msg (t_b : type_data) : string :=
  "The type '" +:+ t_name t_b +:+ "' prohibits subclassing!".

Definition type_dealloc_msg (t : type_data) : string :=
  msg_named "nanobind::detail::nb_type_dealloc" (t_name t) ": could not find type!".

(** The type with the record [t] is a bound native type: it has a
    [std::type_info] and was not made by subclassing in Python. *)
Definition is_bound_type (t : type_data) : bool :=
  negb (ti_addr (t_type t) =? 0) && negb (has_flag (t_flags t) is_python_type).

(** [world0] with a fresh host type at 2000, about to be initialised as a
    subclass of [Point]. *)
Definition world_subclass : world :=
  set_ob_type (insert 4300 2000) world0.

(** The allocator answers with addresses at which no object lives. *)
Definition allocs_fresh (w : world) : Prop :=
  Forall (fun a => insts w !! a = None ∧ ob_type w !! a = None) (allocs w).

(** [world0] with the allocator out of memory. *)
Definition world_no_memory : world := set_allocs (fun _ => []) world0.

(** The size [inst_new_impl] asks of [PyObject_Malloc] for an instance with
    co-located storage of a type with the record [t] (lines 59-65). *)
Definition colocated_size (t : type_data) : Z :=
  sizeof_nb_inst + t_size t +
  (if sizeof_ptr <? t_align t then t_align t - sizeof_ptr else 0).

(** [world0] with an allocator that answers with two pointer-aligned
    blocks. *)
Definition world_aligned : world := set_allocs (fun _ => [4096; 4200]) world0.

(** * Properties *)

Lemma bind_Ok_inv {A B} (c : M A) (k : A → M B) w b w' :
  bind c k w = Ok b w' → ∃ a w1, c w = Ok a w1 ∧ k a w1 = Ok b w'.
Proof. unfold bind. destruct (c w); try discriminate. eauto. Qed.

Ltac munfold :=
  unfold nb_type_data, check, when, emit in *;
  unfold modify, get, fail, throw, undefined,
    host_alloc, host_realloc, PyType_GenericAlloc, Py_TYPE, nb_type_obj,
    nb_inst_read, nb_inst_update, nb_type_check in *;
  unfold bind, ret in *.

Ltac mcases := repeat (case_match; simplify_eq; try done).

Lemma seq_check_new_Ok self nodes w u w' :
  seq_check_new self nodes w = Ok u w' →
  w' = w ∧ nodes ≠ [] ∧ Forall (fun n => seq_inst n ≠ self) nodes.
Proof.
  revert w. induction nodes as [|n rest IH]; intros w H; [done|].
  cbn [seq_check_new] in H. munfold. revert H.
  destruct (Z.eqb_spec (seq_inst n) self) as [Heq|Hne]; [done|]. cbn. intros H.
  destruct rest as [|m rest'].
  - simplify_eq. repeat split; [done|]. by constructor.
  - apply IH in H as (-> & _ & HF). repeat split; [done|]. by constructor.
Qed.

Lemma inst_c2p_emplace_frame value self w u w' :
  inst_c2p_emplace value self w = Ok u w' →
  insts w' = insts w ∧ ptr_mem w' = ptr_mem w ∧ ob_type w' = ob_type w ∧
  types w' = types w ∧ type_c2p w' = type_c2p w ∧
  keep_alive_map w' = keep_alive_map w.
Proof.
  unfold inst_c2p_emplace. intros H. munfold. mcases;
  repeat match goal with
  | H : seq_check_new _ _ _ = Ok _ _ |- _ => apply seq_check_new_Ok in H as (-> & _ & _)
  end; done.
Qed.

Lemma offset_check_iff self value :
  is_ptr self → is_ptr value →
  (to_intptr (to_intptr self + to_int32 (to_intptr value - to_intptr self)) =? to_intptr value)
  = fits_int32 (to_intptr (value - self)).
Proof.
  unfold is_ptr, fits_int32, to_intptr, to_int32. intros Hs Hv.
  change (2 ^ 64) with 18446744073709551616 in *.
  change (2 ^ 63) with 9223372036854775808 in *.
  change (2 ^ 32) with 4294967296 in *.
  change (2 ^ 31) with 2147483648 in *.
  apply eq_true_iff_eq. rewrite Z.eqb_eq, andb_true_iff, Z.leb_le, Z.ltb_lt.
  Z.div_mod_to_equations. lia.
Qed.


Lemma inst_new_alloc_Ok tp value gc t w self w' :
  inst_new_alloc tp value gc t w = Ok self w' → self ≠ 0 →
  ∃ rest, allocs w = self :: rest ∧ allocs w' = rest ∧
    insts w' = <[self:=nb_inst_zero]> (insts w) ∧
    ob_type w' = <[self:=tp]> (ob_type w) ∧
    ptr_mem w' = ptr_mem w ∧ inst_c2p w' = inst_c2p w.
Proof.
  unfold inst_new_alloc, object_init. intros H Hne. munfold. mcases; eauto 10.
Qed.

Ltac zconst :=
  change (2 ^ 64) with 18446744073709551616 in *;
  change (2 ^ 63) with 9223372036854775808 in *;
  change (2 ^ 32) with 4294967296 in *;
  change (2 ^ 31) with 2147483648 in *.

Lemma to_uintptr_self_offset self off :
  is_ptr self → 0 <= self + off < 2 ^ 64 →
  to_uintptr (to_intptr self + off) = self + off.
Proof.
  unfold is_ptr, to_uintptr, to_intptr. zconst. intros. Z.div_mod_to_equations. lia.
Qed.

Lemma to_int32_small d : - 2 ^ 31 <= d < 2 ^ 31 → to_int32 d = d.
Proof. unfold to_int32. zconst. intros. Z.div_mod_to_equations. lia. Qed.

Lemma to_intptr_diff a b : is_ptr a → is_ptr b → - 2 ^ 63 <= a - b < 2 ^ 63 →
  to_intptr a - to_intptr b = a - b ∨ to_intptr a - to_intptr b = a - b - 2^64 ∨ to_intptr a - to_intptr b = a - b + 2^64.
Proof. unfold is_ptr, to_intptr. zconst. intros. Z.div_mod_to_equations. lia. Qed.

Lemma align_up self align :
  0 < align → 0 <= self → self + sizeof_nb_inst + align <= 2 ^ 64 →
  let payload := to_uintptr (to_uintptr (to_uintptr (self + sizeof_nb_inst) + align - 1) / align * align) in
  payload `mod` align = 0 ∧ self + sizeof_nb_inst <= payload < self + sizeof_nb_inst + align.
Proof.
  unfold to_uintptr, sizeof_nb_inst. zconst. intros Ha Hs Hb. cbv zeta.
  rewrite (Z.mod_small (self + 24)) by lia.
  rewrite (Z.mod_small (self + 24 + align - 1)) by lia.
  assert (Hq : (self + 24 + align - 1) / align * align <= self + 24 + align - 1).
  { rewrite Z.mul_comm. apply Z.mul_div_le. lia. }
  assert (Hq2 : self + 24 + align - 1 < (self + 24 + align - 1) / align * align + align).
  { pose proof (Z.mod_pos_bound (self + 24 + align - 1) align Ha).
    pose proof (Z.div_mod (self + 24 + align - 1) align ltac:(lia)). lia. }
  assert (0 <= (self + 24 + align - 1) / align * align).
  { apply Z.mul_nonneg_nonneg; [apply Z.div_pos|]; lia. }
  rewrite (Z.mod_small _ 18446744073709551616) by lia.
  split; [apply Z.mod_mul; lia| lia].
Qed.

Lemma to_intptr_cong a : ∃ k, to_intptr a = a + k * 2 ^ 64.
Proof.
  unfold to_intptr. exists (- ((a + 2 ^ 63) / 2 ^ 64)).
  pose proof (Z.div_mod (a + 2 ^ 63) (2 ^ 64) ltac:(lia)). lia.
Qed.

Lemma to_int32_shift d k : to_int32 (d + k * 2 ^ 64) = to_int32 d.
Proof.
  unfold to_int32. f_equal.
  replace (d + k * 2 ^ 64 + 2 ^ 31) with (d + 2 ^ 31 + (k * 2 ^ 32) * 2 ^ 32).
  - apply Z_mod_plus_full.
  - change (2 ^ 64) with (2 ^ 32 * 2 ^ 32). lia.
Qed.

Lemma to_uintptr_shift d k : to_uintptr (d + k * 2 ^ 64) = to_uintptr d.
Proof. unfold to_uintptr. apply Z_mod_plus_full. Qed.

Lemma to_int32_intptr_diff a b :
  to_int32 (to_intptr a - to_intptr b) = to_int32 (a - b).
Proof.
  destruct (to_intptr_cong a) as [k ->]. destruct (to_intptr_cong b) as [k' ->].
  replace (a + k * 2 ^ 64 - (b + k' * 2 ^ 64)) with (a - b + (k - k') * 2 ^ 64) by lia.
  apply to_int32_shift.
Qed.

Lemma to_uintptr_intptr_add a o :
  to_uintptr (to_intptr a + o) = to_uintptr (a + o).
Proof.
  destruct (to_intptr_cong a) as [k ->].
  replace (a + k * 2 ^ 64 + o) with (a + o + k * 2 ^ 64) by lia.
  apply to_uintptr_shift.
Qed.

Lemma inst_ptr_direct_addr self value :
  is_ptr value → - 2 ^ 31 <= value - self < 2 ^ 31 →
  to_uintptr (to_intptr self + to_int32 (to_intptr value - to_intptr self)) = value.
Proof.
  intros Hv Hd. rewrite to_int32_intptr_diff, to_uintptr_intptr_add.
  rewrite to_int32_small by done.
  replace (self + (value - self)) with value by lia.
  apply Z.mod_small. exact Hv.
Qed.

Lemma to_intptr_small d : - 2 ^ 63 <= d < 2 ^ 63 → to_intptr d = d.
Proof. unfold to_intptr. zconst. intros. Z.div_mod_to_equations. lia. Qed.

Lemma inst_new_place_Ok gc align self0 value w r w' i0 tp :
  insts w !! self0 = Some i0 → ob_type w !! self0 = Some tp →
  (value = 0 → 0 < align < 2 ^ 31 - sizeof_nb_inst) →
  is_ptr value →
  self0 ≠ 0 → alloc_ok self0 → Forall alloc_ok (allocs w) →
  inst_new_place gc align self0 value w = Ok r w' → r.1 ≠ 0 →
  ∃ i payload,
    insts w' !! r.1 = Some i ∧ inst_ptr r.1 w' = Ok payload w' ∧
    r.2 = payload ∧
    storage_encoded w' align value self0 r.1 i payload.
Proof.
  intros Hi Ht Hal Hv Hs0' Hs Hall H Hr.
  destruct Hs as [->|[Hs0 Hs1]]; [done|].
  unfold inst_new_place in H.
  destruct (Z.eqb_spec value 0) as [->|Hv0].
  - specialize (Hal eq_refl).
    destruct (Z.eqb_spec align 0); [lia|].
    munfold. rewrite Hi in H. simplify_eq. cbn in *.
    pose proof (align_up self0 align ltac:(lia) ltac:(lia) ltac:(unfold sizeof_nb_inst in *; zconst; lia)) as [Hm Hb].
    cbv zeta in Hm, Hb.
    set (payload := to_uintptr (to_uintptr (to_uintptr (self0 + sizeof_nb_inst) + align - 1) / align * align)) in *.
    clearbody payload.
    eexists _, payload. unfold inst_ptr. munfold. cbn.
    rewrite lookup_insert_eq. cbn.
    assert (Hoff : to_uintptr (to_intptr self0 + to_int32 (to_intptr payload - to_intptr self0)) = payload).
    { apply inst_ptr_direct_addr; unfold sizeof_nb_inst, sizeof_ptr, is_ptr in *; zconst; lia. }
    rewrite Hoff. split; [done|]. split; [done|]. split; [done|].
    unfold storage_encoded. rewrite decide_True by done. done.
  - assert (Hps : is_ptr self0) by (unfold is_ptr, sizeof_nb_inst, sizeof_ptr in *; lia).
    rewrite (offset_check_iff self0 value Hps Hv) in H.
    destruct (fits_int32 (to_intptr (value - self0))) eqn:Hfit.
    + munfold. rewrite Hi in H. simplify_eq. cbn in *.
      eexists _, value. unfold inst_ptr. munfold. cbn. rewrite lookup_insert_eq. cbn.
      assert (Hoff : to_uintptr (to_intptr self0 + to_int32 (to_intptr value - to_intptr self0)) = value).
      { unfold fits_int32 in Hfit. apply andb_true_iff in Hfit as [H1 H2].
        apply Z.leb_le in H1. apply Z.ltb_lt in H2.
        unfold is_ptr, to_uintptr, to_intptr, to_int32 in *. zconst. Z.div_mod_to_equations. lia. }
      rewrite Hoff. repeat split; try done.
      unfold storage_encoded. rewrite decide_False by done. rewrite Hfit.
      repeat split; try done. cbn.
      unfold fits_int32 in Hfit. apply andb_true_iff in Hfit as [H1 H2].
      apply Z.leb_le in H1. apply Z.ltb_lt in H2.
      unfold is_ptr, to_uintptr, to_intptr, to_int32 in *. zconst. Z.div_mod_to_equations. lia.
    + assert (Hind : ∀ a (w1 : world) i1,
                a ≠ 0 → alloc_ok a → insts w1 !! a = Some i1 →
                (modify (set_ptr_mem (insert (a + sizeof_nb_inst) value)) ;;
                 nb_inst_update a (set_storage (to_int32 sizeof_nb_inst) false false) ;;
                 ret (a, value)) w1 = Ok r w' →
                ∃ i payload,
                  insts w' !! r.1 = Some i ∧ inst_ptr r.1 w' = Ok payload w' ∧
                  r.2 = payload ∧ storage_encoded w' align value self0 r.1 i payload).
      { intros a w1 i1 Ha [->|[Ha0 Ha1]] Hi1 Hrun; [done|].
        munfold. cbn in Hrun. rewrite Hi1 in Hrun. simplify_eq. cbn.
        eexists _, value. unfold inst_ptr. munfold. cbn. rewrite lookup_insert_eq. cbn.
        change (to_int32 sizeof_nb_inst) with sizeof_nb_inst.
        rewrite to_uintptr_intptr_add.
        unfold to_uintptr. rewrite Z.mod_small by (unfold sizeof_nb_inst; zconst; lia).
        rewrite lookup_insert_eq. repeat split; try done.
        unfold storage_encoded. rewrite decide_False by done. rewrite Hfit. cbn.
        rewrite lookup_insert_eq. done. }
      destruct gc; cbn [negb] in H.
      * unfold bind at 1 in H. unfold ret at 1 in H.
        destruct (Z.eqb_spec self0 0); [done|].
        eapply Hind; [done| | |exact H]; [right; done|exact Hi].
      * unfold bind at 1 in H. unfold bind at 1 in H. unfold host_realloc in H.
        destruct (allocs w) as [|a rest] eqn:Hallocs.
        { munfold; cbn in H; simplify_eq; done. }
        destruct (Z.eqb_spec a 0) as [->|Hane].
        { munfold; cbn in H; simplify_eq; done. }
        unfold bind at 1 in H. unfold modify at 1 in H. unfold ret at 1 in H.
        destruct (Z.eqb_spec a 0); [done|].
        apply Forall_cons in Hall as [Ha _].
        eapply Hind; [exact Hane|exact Ha| |exact H].
        unfold object_move. cbn. rewrite Hi, Ht. cbn. apply lookup_insert_eq.
Qed.

Lemma inst_ptr_frame self w w1 p :
  insts w1 = insts w → ptr_mem w1 = ptr_mem w →
  inst_ptr self w = Ok p w → inst_ptr self w1 = Ok p w1.
Proof.
  unfold inst_ptr. munfold. intros Hi Hp H. rewrite Hi.
  destruct (insts w !! self) as [i|]; [|done].
  destruct (direct i); [by simplify_eq|]. rewrite Hp.
  destruct (ptr_mem w !! _); by simplify_eq.
Qed.

(** Claim C10: the payload address round trip.  When [inst_new_impl tp value]
    returns a wrapper [self], [inst_ptr self] gives the payload address: for
    [value = 0] the address inside the object, aligned to the alignment of
    the type and within one alignment step behind the header, with [direct]
    and [internal] set; for [value ≠ 0] the address [value] itself, stored
    as a 32-bit offset from the object with [direct] set when the distance
    fits, and behind a pointer slot after the header with [direct] clear
    when it does not; [internal] is clear in both cases. *)
Theorem inst_new_impl_inst_ptr tp ty value w self w' :
  types w !! tp = Some ty →
  (value = 0 → 0 < t_align (tp_data ty) < 2 ^ 31 - sizeof_nb_inst) →
  is_ptr value →
  Forall alloc_ok (allocs w) →
  inst_new_impl tp value w = Ok self w' → self ≠ 0 →
  ∃ i payload self0 rest,
    allocs w = self0 :: rest ∧
    insts w' !! self = Some i ∧
    inst_ptr self w' = Ok payload w' ∧
    storage_encoded w' (t_align (tp_data ty)) value self0 self i payload.
Proof.
  intros Hty Hal Hv Hall H Hne.
  unfold inst_new_impl in H. unfold bind at 1 in H. unfold nb_type_obj in H.
  rewrite Hty in H.
  apply bind_Ok_inv in H as (self0 & w1 & Halloc & H).
  destruct (Z.eqb_spec self0 0) as [->|Hs0].
  { unfold ret in H. simplify_eq. }
  apply inst_new_alloc_Ok in Halloc as (rest & Ha & Ha' & Hi1 & Ht1 & Hp1 & Hc1); [|done].
  apply bind_Ok_inv in H as (r & w2 & Hplace & H).
  cbv zeta in H.
  destruct (Z.eqb_spec r.1 0) as [Hr0|Hr0].
  { unfold ret in H. simplify_eq. }
  apply bind_Ok_inv in H as (u & w3 & Hemp & H).
  unfold ret in H. simplify_eq.
  rewrite Ha in Hall. apply Forall_cons in Hall as [Has Hall].
  assert (Halign : value = 0 → 0 < to_uintptr (t_align (tp_data ty)) < 2 ^ 31 - sizeof_nb_inst).
  { intros Hz. specialize (Hal Hz). unfold to_uintptr.
    rewrite Z.mod_small; [done|]. unfold sizeof_nb_inst in *. zconst. lia. }
  eapply inst_new_place_Ok in Hplace as (i & payload & Hi & Hptr & Hr2 & Henc); try done;
    [| by rewrite Hi1, lookup_insert_eq | by rewrite Ht1, lookup_insert_eq ].
  apply inst_c2p_emplace_frame in Hemp as (Hi3 & Hp3 & _).
  exists i, payload, self0, (allocs w1). split; [done|].
  split; [by rewrite Hi3|]. split; [by eapply inst_ptr_frame|].
  unfold storage_encoded in *. rewrite Hp3.
  destruct (decide (value = 0)) as [Hz|Hz]; [|done].
  specialize (Hal Hz). unfold to_uintptr in Henc.
  rewrite (Z.mod_small (t_align (tp_data ty)) (2 ^ 64)) in Henc; [done|].
  unfold sizeof_nb_inst in *. zconst. lia.
Qed.

Lemma inst_new_impl_inst_ptr_witness :
  ∃ i payload self0 rest,
    allocs world0 = self0 :: rest ∧
    insts (world_of (inst_new_impl 1000 (2 ^ 40) world0) world0) !! 4200 = Some i ∧
    inst_ptr 4200 (world_of (inst_new_impl 1000 (2 ^ 40) world0) world0)
      = Ok payload (world_of (inst_new_impl 1000 (2 ^ 40) world0) world0) ∧
    storage_encoded (world_of (inst_new_impl 1000 (2 ^ 40) world0) world0)
      8 (2 ^ 40) self0 4200 i payload.
Proof.
  apply (inst_new_impl_inst_ptr 1000 point_type (2 ^ 40) world0 4200
           (world_of (inst_new_impl 1000 (2 ^ 40) world0) world0)).
  - reflexivity.
  - intros H. discriminate H.
  - unfold is_ptr. lia.
  - unfold world0, alloc_ok. simpl. repeat (apply Forall_cons_2; [right; lia|]). apply Forall_nil_2.
  - vm_compute. reflexivity.
  - lia.
Defined.

Lemma seq_unlink_None inst nodes :
  seq_unlink inst nodes = None → inst ∉ seq_inst <$> nodes.
Proof.
  induction nodes as [|n rest IH]; cbn; [intros _; apply not_elem_of_nil|].
  destruct (Z.eqb_spec (seq_inst n) inst) as [|Hne]; [done|].
  destruct (seq_unlink inst rest) as [[r rest']|]; [done|].
  intros _. rewrite not_elem_of_cons. split; [congruence|]. by apply IH.
Qed.

Lemma seq_unlink_Some inst nodes n rest :
  seq_unlink inst nodes = Some (n, rest) →
  ∃ before behind,
    nodes = before ++ n :: behind ∧ rest = before ++ behind ∧
    seq_inst n = inst ∧ inst ∉ seq_inst <$> before.
Proof.
  revert rest. induction nodes as [|m nodes IH]; cbn; [done|]. intros rest.
  destruct (Z.eqb_spec (seq_inst m) inst) as [Heq|Hne].
  - intros [= <- <-]. exists [], nodes. repeat split; [done|]. apply not_elem_of_nil.
  - destruct (seq_unlink inst nodes) as [[r rest']|]; [|done].
    intros [= <- <-]. destruct (IH _ eq_refl) as (before & behind & -> & -> & Hn & Hnot).
    exists (m :: before), behind. repeat split; [done|].
    cbn. rewrite not_elem_of_cons. split; [congruence|done].
Qed.

Lemma count_filter_not_elem (inst : Z) (l : list Z) :
  inst ∉ l → length (filter (fun x => x = inst) l) = 0%nat.
Proof.
  induction l as [|x l IH]; [done|]. rewrite not_elem_of_cons. intros [Hne Hl].
  rewrite filter_cons_False by congruence. by apply IH.
Qed.

Lemma count_filter_NoDup (inst : Z) (l : list Z) :
  NoDup l → inst ∈ l → length (filter (fun x => x = inst) l) = 1%nat.
Proof.
  induction 1 as [|x l Hx Hnd IH]; [by intros ?%elem_of_nil|].
  rewrite elem_of_cons. intros [->|Hin].
  - rewrite filter_cons_True by done. cbn. by rewrite count_filter_not_elem.
  - rewrite filter_cons_False; [by apply IH|]. intros ->. done.
Qed.

Lemma count_filter_other (inst inst' : Z) (l1 l2 : list Z) :
  inst' ≠ inst →
  length (filter (fun x => x = inst') (l1 ++ inst :: l2)) =
  length (filter (fun x => x = inst') (l1 ++ l2)).
Proof.
  intros Hne. rewrite !filter_app, !length_app.
  by rewrite filter_cons_False by congruence.
Qed.

Lemma inst_c2p_emplace_Ok p inst w u w' :
  inst_c2p_emplace p inst w = Ok u w' →
  ∃ e', inst_c2p w' = <[p:=e']> (inst_c2p w) ∧
        entry_after_insertion inst (inst_c2p w !! p) (Some e') ∧
        c2p_insts e' = from_option c2p_insts [] (inst_c2p w !! p) ++ [inst] ∧
        inst ∉ from_option c2p_insts [] (inst_c2p w !! p).
Proof.
  unfold inst_c2p_emplace. intros H. munfold.
  destruct (inst_c2p w !! p) as [[e|nodes]|] eqn:E; cbn.
  - mcases.
    match goal with
    | H : seq_check_new _ _ _ = Ok _ _ |- _ => apply seq_check_new_Ok in H as (-> & _ & HF)
    end.
    eexists. cbn. rewrite insert_insert_eq. split; [done|]. split; [eauto|].
    split; [done|]. rewrite Forall_singleton in HF. cbn in HF.
    rewrite not_elem_of_cons. split; [by intros ->|apply not_elem_of_nil].
  - mcases.
    match goal with
    | H : seq_check_new _ _ _ = Ok _ _ |- _ => apply seq_check_new_Ok in H as (-> & _ & HF)
    end.
    eexists. split; [done|]. split; [cbn; eauto|].
    split; [cbn [c2p_insts from_option]; by rewrite fmap_app|].
    cbn [c2p_insts from_option]. rewrite list_elem_of_fmap. intros (n & Hn & Hin).
    rewrite Forall_forall in HF. by apply HF in Hin.
  - simplify_eq. eexists. cbn. split; [done|]. split; [done|]. split; [done|].
    apply not_elem_of_nil.
Qed.

Lemma seq_check_new_dup inst nodes w :
  inst ∈ seq_inst <$> nodes →
  seq_check_new inst nodes w = Fatal "nanobind::detail::inst_new(): duplicate instance!" w.
Proof.
  induction nodes as [|n rest IH]; cbn [fmap list_fmap]; [by intros ?%elem_of_nil|].
  rewrite elem_of_cons. intros Hin. cbn [seq_check_new]. munfold.
  destruct (Z.eqb_spec (seq_inst n) inst) as [Heq|Hne]; [done|]. cbn.
  destruct Hin as [Heq|Hin]; [done|].
  destruct rest; [by apply elem_of_nil in Hin|]. by apply IH.
Qed.

Lemma inst_c2p_emplace_dup p inst w :
  (0 < c2p_count (inst_c2p w) p inst)%nat →
  ∃ msg w', inst_c2p_emplace p inst w = Fatal msg w'.
Proof.
  unfold c2p_count, inst_c2p_emplace. munfold.
  destruct (inst_c2p w !! p) as [[e|nodes]|] eqn:E; cbn [c2p_insts]; [| |lia].
  - destruct (decide (e = inst)) as [->|Hne].
    + intros _. destruct (allocs w) as [|a rest]; cbn; [eauto|].
      destruct (Z.eqb_spec a 0); cbn; [eauto|].
      rewrite Z.eqb_refl. cbn. eauto.
    + rewrite filter_cons_False by done. cbn. lia.
  - intros Hc.
    assert (Hin : inst ∈ seq_inst <$> nodes).
    { destruct (decide (inst ∈ seq_inst <$> nodes)) as [|Hnot]; [done|].
      rewrite count_filter_not_elem in Hc by done. lia. }
    rewrite seq_check_new_dup by done. eauto.
Qed.

Lemma inst_c2p_remove_Ok p inst w found w' :
  inst_c2p_remove p inst w = Ok found w' →
  (found = false ∧ c2p_count (inst_c2p w) p inst = 0%nat ∧ inst_c2p w' = inst_c2p w) ∨
  (found = true ∧
   ∃ e, inst_c2p w !! p = Some e ∧
        entry_after_removal inst e (inst_c2p w' !! p) ∧
        (∀ p', p' ≠ p → inst_c2p w' !! p' = inst_c2p w !! p') ∧
        ∃ before behind,
          c2p_insts e = before ++ (inst :: behind) ∧ (inst ∉ before) ∧
          from_option c2p_insts [] (inst_c2p w' !! p) = before ++ behind).
Proof.
  unfold inst_c2p_remove, c2p_count. intros H. munfold.
  destruct (inst_c2p w !! p) as [[e|nodes]|] eqn:E.
  - destruct (Z.eqb_spec e inst) as [->|Hne]; simplify_eq.
    + right. split; [done|]. eexists. split; [done|]. cbn. rewrite lookup_delete_eq.
      split; [done|]. split; [intros; by rewrite lookup_delete_ne|].
      exists [], []. repeat split; [apply not_elem_of_nil].
    + left. split; [done|]. split; [|done]. cbn [c2p_insts].
      by rewrite filter_cons_False by done.
  - destruct nodes as [|n0 nodes0]; [done|].
    destruct (seq_unlink inst (n0 :: nodes0)) as [[n rest]|] eqn:Hu.
    + apply seq_unlink_Some in Hu as (before & behind & Hnodes & -> & Hn & Hnot).
      right.
      assert (found = true) as -> by (destruct (before ++ behind); by simplify_eq).
      split; [done|]. eexists. split; [done|].
      assert (Hm : inst_c2p w' = match before ++ behind with
                                 | [] => delete p (inst_c2p w)
                                 | _ => <[p:=Seq (before ++ behind)]> (inst_c2p w)
                                 end).
      { destruct (before ++ behind); by simplify_eq. }
      rewrite Hm, Hnodes. cbn [entry_after_removal c2p_insts].
      split.
      { exists before, n, behind. split; [done|]. split; [done|].
        destruct before as [|b before']; cbn.
        - destruct behind; [apply lookup_delete_eq|apply lookup_insert_eq].
        - apply lookup_insert_eq. }
      split.
      { intros p' Hp'. destruct (before ++ behind);
          [by rewrite lookup_delete_ne|by rewrite lookup_insert_ne]. }
      exists (seq_inst <$> before), (seq_inst <$> behind).
      rewrite fmap_app, fmap_cons, Hn. split; [done|]. split; [done|].
      destruct (before ++ behind) eqn:Hbb.
      * rewrite lookup_delete_eq. apply app_eq_nil in Hbb as [-> ->]. done.
      * rewrite lookup_insert_eq. cbn [from_option c2p_insts]. by rewrite <- Hbb, fmap_app.
    + simplify_eq. left. split; [done|]. split; [|done].
      apply seq_unlink_None in Hu. cbn [c2p_insts]. by rewrite count_filter_not_elem.
  - simplify_eq. left. done.
Qed.

Lemma nb_is_seq_mark p : nb_is_seq (nb_mark_seq p) = true.
Proof.
  unfold nb_is_seq, nb_mark_seq.
  destruct (Z.eqb_spec (Z.land (Z.lor p 1) 1) 0) as [H|H]; [|done].
  apply (f_equal (fun z => Z.testbit z 0)) in H.
  rewrite Z.land_spec, Z.lor_spec, orb_true_r in H. done.
Qed.

Lemma nb_get_seq_mark p : Z.even p = true → nb_get_seq (nb_mark_seq p) = p.
Proof.
  unfold nb_get_seq, nb_mark_seq. intros He. apply Z.bits_inj'. intros n Hn.
  rewrite Z.lxor_spec, Z.lor_spec.
  destruct (decide (n = 0)) as [->|Hn0].
  - rewrite Z.bit0_odd, <- Z.negb_even, He. done.
  - replace (Z.testbit 1 n) with false; [by rewrite orb_false_r, xorb_false_r|].
    symmetry. apply (Z.bits_above_log2 1 n); cbn; lia.
Qed.

Lemma nb_is_seq_even p : Z.even p = true → nb_is_seq p = false.
Proof.
  unfold nb_is_seq. intros He.
  replace (Z.land p 1) with 0; [done|].
  symmetry. apply Z.bits_inj'. intros n Hn. rewrite Z.land_spec, Z.bits_0.
  destruct (decide (n = 0)) as [->|Hn0].
  - by rewrite Z.bit0_odd, <- Z.negb_even, He.
  - replace (Z.testbit 1 n) with false; [by rewrite andb_false_r|].
    symmetry. apply (Z.bits_above_log2 1 n); cbn; lia.
Qed.

Lemma c2p_count_insert_other (m : gmap Z c2p_entry) p e p' inst' :
  p' ≠ p → c2p_count (<[p:=e]> m) p' inst' = c2p_count m p' inst'.
Proof. intros Hne. unfold c2p_count. by rewrite lookup_insert_ne. Qed.

Lemma c2p_wf_insert (m : gmap Z c2p_entry) p e :
  c2p_wf m → NoDup (c2p_insts e) → c2p_insts e ≠ [] → c2p_wf (<[p:=e]> m).
Proof.
  intros Hwf Hnd Hne p' e'. rewrite lookup_insert. case_decide.
  - intros [= <-]. done.
  - apply Hwf.
Qed.

Lemma c2p_wf_delete (m : gmap Z c2p_entry) p : c2p_wf m → c2p_wf (delete p m).
Proof.
  intros Hwf p' e'. rewrite lookup_delete. case_decide; [done|]. apply Hwf.
Qed.

Lemma inst_c2p_remove_total p inst w :
  c2p_wf (inst_c2p w) → ∃ found w', inst_c2p_remove p inst w = Ok found w'.
Proof.
  intros Hwf. unfold inst_c2p_remove. munfold.
  destruct (inst_c2p w !! p) as [[e|nodes]|] eqn:E; [| |eauto].
  - destruct (e =? inst); eauto.
  - destruct nodes as [|n0 nodes0].
    { apply Hwf in E as [_ Hne]. done. }
    destruct (seq_unlink inst (n0 :: nodes0)) as [[n rest]|]; [|eauto].
    destruct rest; eauto.
Qed.

Lemma inst_c2p_emplace_spec (w : world) (p inst : Z) u w' :
  c2p_wf (inst_c2p w) →
  inst_c2p_emplace p inst w = Ok u w' →
  c2p_wf (inst_c2p w') ∧
  entry_after_insertion inst (inst_c2p w !! p) (inst_c2p w' !! p) ∧
  c2p_count (inst_c2p w') p inst = 1%nat ∧
  ∀ p' inst', (p', inst') ≠ (p, inst) →
    c2p_count (inst_c2p w') p' inst' = c2p_count (inst_c2p w) p' inst'.
Proof.
  intros Hwf H.
  apply inst_c2p_emplace_Ok in H as (e' & Hm & Hafter & Hins & Hnot).
  assert (Hnd : NoDup (c2p_insts e')).
  { rewrite Hins. apply NoDup_app. split; [|split].
    - destruct (inst_c2p w !! p) as [e|] eqn:E; cbn; [by apply (Hwf p e)|constructor].
    - intros x Hx ->%list_elem_of_singleton. done.
    - apply NoDup_singleton. }
  split; [|split; [|split]].
  + rewrite Hm. apply c2p_wf_insert; [done|done|].
    rewrite Hins. by destruct (from_option c2p_insts [] (inst_c2p w !! p)).
  + by rewrite Hm, lookup_insert_eq.
  + unfold c2p_count. rewrite Hm, lookup_insert_eq.
    apply count_filter_NoDup; [done|]. rewrite Hins. set_solver.
  + intros p' inst' Hne. destruct (decide (p' = p)) as [->|Hp].
    * assert (inst' ≠ inst) by congruence.
      unfold c2p_count. rewrite Hm, lookup_insert_eq, Hins.
      rewrite filter_app, length_app, filter_cons_False by done. cbn.
      destruct (inst_c2p w !! p); cbn; lia.
    * rewrite Hm. by apply c2p_count_insert_other.
Qed.

Lemma inst_c2p_remove_spec (w : world) (p inst : Z) found w' :
  c2p_wf (inst_c2p w) →
  inst_c2p_remove p inst w = Ok found w' →
  c2p_wf (inst_c2p w') ∧
  found = bool_decide (c2p_count (inst_c2p w) p inst = 1%nat) ∧
  c2p_count (inst_c2p w') p inst = 0%nat ∧
  (∀ p' inst', (p', inst') ≠ (p, inst) →
     c2p_count (inst_c2p w') p' inst' = c2p_count (inst_c2p w) p' inst') ∧
  (found = true →
     ∃ e, inst_c2p w !! p = Some e ∧
          entry_after_removal inst e (inst_c2p w' !! p)) ∧
  (∀ nodes e', inst_c2p w !! p = Some (Seq nodes) →
     inst_c2p w' !! p = Some e' →
     nb_is_seq (c2p_encode e') = true ∧ ∃ nodes', e' = Seq nodes').
Proof.
  intros Hwf H.
  apply inst_c2p_remove_Ok in H
    as [(-> & Hc & Hm)|(-> & e & He & Hafter & Hother & before & behind & Hins & Hnot & Hins')].
  + rewrite Hm. split; [done|]. split; [by rewrite Hc|]. split; [done|].
    split; [done|]. split; [done|].
    intros nodes e' Hn [= <-]%(eq_trans (eq_sym Hn)).
    split; [apply nb_is_seq_mark|eauto].
  + destruct (Hwf p e He) as [Hnd Hne]. rewrite Hins in Hnd.
    assert (Hnd' : NoDup (before ++ behind)).
    { apply NoDup_app in Hnd as (H1 & H2 & H3). apply NoDup_cons in H3 as [H3 H4].
      apply NoDup_app. split; [done|]. split; [|done].
      intros x Hx Hx'. apply (H2 x Hx). by right. }
    assert (Hnin : inst ∉ before ++ behind).
    { apply NoDup_app in Hnd as (H1 & H2 & H3). apply NoDup_cons in H3 as [H3 H4].
      rewrite elem_of_app. intros [?|?]; done. }
    split; [|split; [|split; [|split; [|split]]]].
    * intros p' e1 He1. destruct (decide (p' = p)) as [->|Hp].
      -- rewrite He1 in Hins'. cbn in Hins'. split; [by rewrite Hins'|].
         clear Hins'. destruct e1 as [x|nodes]; [done|].
         destruct e as [y|nodes0]; cbn in Hafter; rewrite He1 in Hafter; [done|].
         destruct Hafter as (b1 & n & b2 & _ & _ & Ha).
         destruct b1, b2; by simplify_eq.
      -- rewrite Hother in He1 by done. by apply (Hwf p' e1).
    * symmetry. apply bool_decide_eq_true. unfold c2p_count. rewrite He.
      apply count_filter_NoDup; [by apply (Hwf p e)|]. rewrite Hins. set_solver.
    * unfold c2p_count. destruct (inst_c2p w' !! p) as [e1|]; [|done].
      cbn in Hins'. rewrite Hins'. by apply count_filter_not_elem.
    * intros p' inst' Hpi. destruct (decide (p' = p)) as [->|Hp].
      -- assert (inst' ≠ inst) by congruence.
         unfold c2p_count. rewrite He, Hins, count_filter_other by done.
         destruct (inst_c2p w' !! p) as [e1|]; cbn in Hins';
           [by rewrite Hins'|by rewrite <- Hins'].
      -- unfold c2p_count. by rewrite Hother.
    * eauto.
    * intros nodes e' Hn He'. rewrite Hn in He. simplify_eq. cbn in Hafter.
      destruct Hafter as (b1 & n & b2 & _ & _ & Ha). rewrite He' in Ha.
      destruct b1, b2; simplify_eq; (split; [apply nb_is_seq_mark|eauto]).
Qed.

Lemma put_move_Ok env t inst new_value value w b w' :
  put_move env t inst new_value value w = Ok b w' → b = true →
  insts w' = insts w ∧ ptr_mem w' = ptr_mem w ∧ inst_c2p w' = inst_c2p w ∧
  keep_alive_map w' = keep_alive_map w ∧ ob_type w' = ob_type w ∧ types w' = types w.
Proof.
  unfold put_move. intros H ->. munfold. mcases.
Qed.

Lemma put_copy_Ok env t inst new_value value w b w' :
  put_copy env t inst new_value value w = Ok b w' → b = true →
  insts w' = insts w ∧ ptr_mem w' = ptr_mem w ∧ inst_c2p w' = inst_c2p w ∧
  keep_alive_map w' = keep_alive_map w ∧ ob_type w' = ob_type w ∧ types w' = types w.
Proof.
  unfold put_copy. intros H ->. munfold. mcases.
Qed.

Lemma keep_alive_frame env nurse patient w u w' :
  keep_alive env nurse patient w = Ok u w' →
  inst_c2p w' = inst_c2p w ∧ ptr_mem w' = ptr_mem w ∧ ob_type w' = ob_type w ∧
  types w' = types w ∧ type_c2p w' = type_c2p w ∧
  (insts w' = insts w ∨
   ∃ i, insts w !! nurse = Some i ∧
        insts w' = <[nurse := set_clear_keep_alive true i]> (insts w)).
Proof.
  unfold keep_alive, keep_alive_slot. intros H. munfold. mcases; cbn in *; eauto 10.
Qed.

Lemma ret_Ok_inv {A} (a b : A) w w' : ret a w = Ok b w' → a = b ∧ w = w'.
Proof. unfold ret. by intros [= -> ->]. Qed.

Ltac inv_bind H :=
  let a := fresh "a" in
  let w := fresh "w" in
  let H1 := fresh "Hm" in
  apply bind_Ok_inv in H as (a & w & H1 & H).

Lemma inst_ptr_Ok self w p w' :
  inst_ptr self w = Ok p w' → w' = w ∧ is_Some (insts w !! self).
Proof. unfold inst_ptr. munfold. intros H. mcases; eauto. Qed.

(** What [nb_type_put_common] leaves in the wrapper it returns: the storage
    fields that [inst_new_impl] wrote, and the ownership flags of the
    effective policy. *)
Lemma put_common_wrapper env value td rvp cleanup w ty inst is_new w' :
  types w !! td = Some ty →
  nb_type_put_common env value td rvp cleanup w = Ok (inst, is_new) w' →
  inst ≠ 0 →
  let t := tp_data ty in
  let rvp1 := rvp_after_intrusive (t_flags t) rvp in
  let eff := effective_rvp env t rvp inst in
  ∃ w0 i0 i,
    inst_new_impl (t_type_py t) (if store_in_obj rvp1 then 0 else value) w = Ok inst w0 ∧
    insts w0 !! inst = Some i0 ∧
    insts w' !! inst = Some i ∧
    offset i = offset i0 ∧ direct i = direct i0 ∧ internal i = internal i0 ∧
    ready i = true ∧
    destruct i = negb (bool_decide (eff = rvp_reference)) &&
                 negb (bool_decide (eff = rvp_reference_internal)) ∧
    cpp_delete i = bool_decide (eff = rvp_take_ownership) ∧
    is_new = negb (has_flag (t_flags t) has_shared_from_this && negb (store_in_obj rvp1) &&
                   keep_shared_answer env (t_keep_shared_from_this_alive t) inst) ∧
    inst_c2p w' = inst_c2p w0 ∧ ptr_mem w' = ptr_mem w0 ∧ types w' = types w0 ∧
    ob_type w' = ob_type w0.
Proof.
  intros Hty H Hinst. cbv zeta. unfold nb_type_put_common in H.
  destruct (bool_decide (rvp = rvp_reference_internal) && negb (cleanup_has_self cleanup)).
  { apply ret_Ok_inv in H as [[= <- <-] _]. done. }
  unfold bind at 1 in H. unfold nb_type_data, bind at 1, nb_type_obj, ret at 1 in H.
  rewrite Hty in H. cbv zeta in H.
  set (t := tp_data ty) in *.
  set (rvp1 := rvp_after_intrusive (t_flags t) rvp) in *.
  inv_bind H. destruct (Z.eqb_spec a 0) as [->|Ha].
  { apply ret_Ok_inv in H as [[= <- <-] _]. done. }
  inv_bind H. rename a0 into new_value.
  inv_bind H. destruct a0; cbn [negb] in H;
    [|apply ret_Ok_inv in H as [[= <- <-] _]; done].
  set (rvp2 := rvp_after_move (t_flags t) rvp1) in *.
  inv_bind H. destruct a0; cbn [negb] in H;
    [|apply ret_Ok_inv in H as [[= <- <-] _]; done].
  inv_bind H. rename a0 into shared.
  inv_bind H.
  inv_bind H.
  inv_bind H.
  apply ret_Ok_inv in H as [[= -> <-] ->].
  assert (Hshared : shared = has_flag (t_flags t) has_shared_from_this && negb (store_in_obj rvp1) &&
                             keep_shared_answer env (t_keep_shared_from_this_alive t) inst).
  { clear - Hm3. munfold.
    destruct (has_flag (t_flags t) has_shared_from_this && negb (store_in_obj rvp1)); by simplify_eq. }
  assert (Heff : effective_rvp env t rvp inst = rvp_after_shared shared rvp2)
    by (by rewrite Hshared).
  rewrite Heff, <- Hshared. clear Heff Hshared.
  set (eff := rvp_after_shared shared rvp2) in *. clearbody eff.
  (* the world up to the write of the flags *)
  apply inst_ptr_Ok in Hm0 as [-> [i0 Hi0]].
  assert (Hf2 : insts w2 = insts w0 ∧ ptr_mem w2 = ptr_mem w0 ∧ inst_c2p w2 = inst_c2p w0 ∧
                ob_type w2 = ob_type w0 ∧ types w2 = types w0).
  { destruct (bool_decide (rvp1 = rvp_move)).
    - apply put_move_Ok in Hm1 as (?&?&?&?&?&?); done.
    - by apply ret_Ok_inv in Hm1 as [_ <-]. }
  assert (Hf3 : insts w3 = insts w2 ∧ ptr_mem w3 = ptr_mem w2 ∧ inst_c2p w3 = inst_c2p w2 ∧
                ob_type w3 = ob_type w2 ∧ types w3 = types w2).
  { destruct (bool_decide (rvp2 = rvp_copy)).
    - apply put_copy_Ok in Hm2 as (?&?&?&?&?&?); done.
    - by apply ret_Ok_inv in Hm2 as [_ <-]. }
  assert (Hf4 : insts w4 = insts w3 ∧ ptr_mem w4 = ptr_mem w3 ∧ inst_c2p w4 = inst_c2p w3 ∧
                ob_type w4 = ob_type w3 ∧ types w4 = types w3).
  { clear - Hm3. munfold. mcases. }
  destruct Hf2 as (Hi2 & Hp2 & Hc2 & Ho2 & Ht2).
  destruct Hf3 as (Hi3 & Hp3 & Hc3 & Ho3 & Ht3).
  destruct Hf4 as (Hi4 & Hp4 & Hc4 & Ho4 & Ht4).
  (* the flags are written *)
  unfold nb_inst_update in Hm4.
  assert (Hi4' : insts w4 !! inst = Some i0) by (by rewrite Hi4, Hi3, Hi2).
  rewrite Hi4' in Hm4. simplify_eq.
  set (i5 := set_ready true _) in *.
  assert (Hi5 : ∃ i, insts w6 !! inst = Some i ∧ ready i = ready i5 ∧
                     destruct i = destruct i5 ∧ cpp_delete i = cpp_delete i5 ∧
                     offset i = offset i5 ∧ direct i = direct i5 ∧ internal i = internal i5).
  { unfold when in Hm5. destruct (bool_decide (eff = rvp_reference_internal)).
    - apply keep_alive_frame in Hm5 as (_ & _ & _ & _ & _ & [Hs|(i & Hi & Hs)]).
      + exists i5. rewrite Hs. cbn. by rewrite lookup_insert_eq.
      + cbn in Hi. rewrite lookup_insert_eq in Hi. simplify_eq.
        eexists. rewrite Hs. rewrite lookup_insert_eq. done.
    - apply ret_Ok_inv in Hm5 as [_ <-]. exists i5. cbn. by rewrite lookup_insert_eq. }
  assert (Hf6 : inst_c2p w6 = inst_c2p w4 ∧ ptr_mem w6 = ptr_mem w4 ∧
                types w6 = types w4 ∧ ob_type w6 = ob_type w4).
  { unfold when in Hm5. destruct (bool_decide (eff = rvp_reference_internal)).
    - apply keep_alive_frame in Hm5 as (? & ? & ? & ? & _). done.
    - by apply ret_Ok_inv in Hm5 as [_ <-]. }
  assert (Hf7 : insts w' = insts w6 ∧ inst_c2p w' = inst_c2p w6 ∧ ptr_mem w' = ptr_mem w6 ∧
                types w' = types w6 ∧ ob_type w' = ob_type w6).
  { clear - Hm6. unfold when in Hm6. munfold. mcases. }
  destruct Hi5 as (i & Hi & Hr & Hd & Hc & Hoff & Hdir & Hint).
  destruct Hf6 as (Hc6 & Hp6 & Ht6 & Ho6). destruct Hf7 as (Hi7 & Hc7 & Hp7 & Ht7 & Ho7).
  exists w0, i0, i. split; [done|]. split; [done|].
  split; [by rewrite Hi7|].
  rewrite Hr, Hd, Hc, Hoff, Hdir, Hint. cbn.
  repeat split; congruence.
Qed.

(** Claim C8: the policy decides the ownership flags.  A wrapper that
    [nb_type_put_common] has made and returns is ready; its [destruct] flag
    is set exactly when the effective policy is neither [reference] nor
    [reference_internal], and its [cpp_delete] flag exactly when the
    effective policy is [take_ownership].  A wrapper whose effective policy
    is [reference] or [reference_internal] has neither flag. *)
Theorem put_common_flags env value td rvp cleanup w ty inst is_new w' :
  types w !! td = Some ty →
  nb_type_put_common env value td rvp cleanup w = Ok (inst, is_new) w' →
  inst ≠ 0 →
  let eff := effective_rvp env (tp_data ty) rvp inst in
  ∃ i, insts w' !! inst = Some i ∧
       ready i = true ∧
       (destruct i = true ↔ eff ≠ rvp_reference ∧ eff ≠ rvp_reference_internal) ∧
       (cpp_delete i = true ↔ eff = rvp_take_ownership) ∧
       (eff = rvp_reference ∨ eff = rvp_reference_internal →
        destruct i = false ∧ cpp_delete i = false).
Proof.
  intros Hty H Hinst eff.
  destruct (put_common_wrapper env value td rvp cleanup w ty inst is_new w' Hty H Hinst)
    as (w0 & i0 & i & _ & _ & Hi & _ & _ & _ & Hr & Hd & Hc & _).
  fold eff in Hd, Hc.
  exists i. split; [done|]. split; [done|]. rewrite Hd, Hc.
  rewrite andb_true_iff, !negb_true_iff, !bool_decide_eq_false, bool_decide_eq_true.
  split; [done|]. split; [done|].
  intros [He|He]; rewrite He; done.
Qed.

Lemma put_common_flags_witness :
  ∃ i, insts (world_of (nb_type_put_common env0 7000 1000 rvp_take_ownership None world0) world0)
         !! 4096 = Some i ∧
       ready i = true ∧
       (destruct i = true ↔
          effective_rvp env0 (tp_data point_type) rvp_take_ownership 4096 ≠ rvp_reference ∧
          effective_rvp env0 (tp_data point_type) rvp_take_ownership 4096 ≠ rvp_reference_internal) ∧
       (cpp_delete i = true ↔
          effective_rvp env0 (tp_data point_type) rvp_take_ownership 4096 = rvp_take_ownership) ∧
       (effective_rvp env0 (tp_data point_type) rvp_take_ownership 4096 = rvp_reference ∨
        effective_rvp env0 (tp_data point_type) rvp_take_ownership 4096 = rvp_reference_internal →
        destruct i = false ∧ cpp_delete i = false).
Proof.
  apply (put_common_flags env0 7000 1000 rvp_take_ownership None world0 point_type 4096 true
           (world_of (nb_type_put_common env0 7000 1000 rvp_take_ownership None world0) world0)).
  - reflexivity.
  - vm_compute. reflexivity.
  - lia.
Defined.

Lemma string_app_assoc (a b c : string) :
  ((a +:+ b) +:+ c = a +:+ (b +:+ c))%string.
Proof.
  induction a as [|x a IH]; [done|].
  change (String x ((a +:+ b) +:+ c) = String x (a +:+ (b +:+ c)))%string.
  by rewrite IH.
Qed.

Lemma msg_named_names prefix name suffix :
  ∃ pre post, msg_named prefix name suffix = (pre +:+ name +:+ post)%string.
Proof.
  exists (prefix +:+ "(" +:+ dquote)%string, (dquote +:+ ")" +:+ suffix)%string.
  unfold msg_named. by rewrite !string_app_assoc.
Qed.

Lemma bind_Ok_eq {A B} (c : M A) (k : A → M B) w a w1 :
  c w = Ok a w1 → bind c k w = k a w1.
Proof. unfold bind. by intros ->. Qed.

Lemma world_eq (w1 w2 : world) :
  inst_c2p w1 = inst_c2p w2 → type_c2p w1 = type_c2p w2 →
  keep_alive_map w1 = keep_alive_map w2 →
  print_implicit_cast_warnings w1 = print_implicit_cast_warnings w2 →
  ob_type w1 = ob_type w2 → insts w1 = insts w2 → types w1 = types w2 →
  ptr_mem w1 = ptr_mem w2 → allocs w1 = allocs w2 → trace w1 = trace w2 →
  w1 = w2.
Proof. destruct w1, w2; cbn; intros; by subst. Qed.

Lemma put_common_move_run env value td cleanup w ty inst w1 new_value :
  types w !! td = Some ty →
  has_flag (t_flags (tp_data ty)) intrusive_ptr = false →
  inst_new_impl (t_type_py (tp_data ty)) 0 w = Ok inst w1 →
  inst ≠ 0 →
  inst_ptr inst w1 = Ok new_value w1 →
  let t := tp_data ty in
  nb_type_put_common env value td rvp_move cleanup w =
  (let* moved := put_move env t inst new_value value in
   if negb moved then ret (0, false)
   else
     let* copied :=
       if negb (has_flag (t_flags t) is_move_constructible)
       then put_copy env t inst new_value value else ret true in
     if negb copied then ret (0, false)
     else
       nb_inst_update inst
         (fun i => set_ready true (set_cpp_delete false (set_destruct true i))) ;;
       ret (inst, true)) w1.
Proof.
  intros Hty Hintr Hnew Hinst Hptr t. subst t. set (t := tp_data ty) in *.
  unfold nb_type_put_common.
  change (bool_decide (rvp_move = rvp_reference_internal)) with false. cbn [andb].
  unfold nb_type_data. unfold bind at 1. unfold bind at 1. unfold nb_type_obj at 1.
  rewrite Hty. unfold ret at 1. fold t.
  unfold rvp_after_intrusive. rewrite Hintr.
  change (store_in_obj rvp_move) with true. cbv iota.
  rewrite (bind_Ok_eq _ _ _ _ _ Hnew).
  destruct (Z.eqb_spec inst 0); [done|].
  rewrite (bind_Ok_eq _ _ _ _ _ Hptr).
  change (bool_decide (rvp_move = rvp_move)) with true. cbv iota.
  unfold rvp_after_move.
  change (bool_decide (rvp_move = rvp_move)) with true. cbn [andb negb].
  unfold bind at 1. symmetry. unfold bind at 1. symmetry.
  destruct (put_move env t inst new_value value w1) as [moved w2| | |]; try done.
  destruct moved; cbn [negb]; [|done].
  destruct (has_flag (t_flags t) is_move_constructible); cbn [negb].
  - change (bool_decide (rvp_move = rvp_copy)) with false. cbv iota.
    unfold bind at 1. unfold ret at 1. cbn [negb].
    unfold bind at 1. unfold ret at 1. cbn [andb negb].
    rewrite andb_false_r.
    unfold bind at 1. unfold ret at 1.
    unfold rvp_after_shared.
    change (bool_decide (rvp_move = rvp_take_ownership)) with false.
    change (bool_decide (rvp_move = rvp_reference)) with false.
    change (bool_decide (rvp_move = rvp_reference_internal)) with false.
    cbn [negb andb when].
    unfold bind. unfold ret. cbn [negb]. destruct (nb_inst_update _ _ _); done.
  - change (bool_decide (rvp_copy = rvp_copy)) with true. cbv iota.
    unfold bind at 1. symmetry. unfold bind at 1. symmetry.
    destruct (put_copy env t inst new_value value w2) as [copied w3| | |]; try done.
    destruct copied; cbn [negb]; [|done].
    rewrite andb_false_r.
    unfold bind at 1. unfold ret at 1.
    unfold rvp_after_shared.
    change (bool_decide (rvp_copy = rvp_take_ownership)) with false.
    change (bool_decide (rvp_copy = rvp_reference)) with false.
    change (bool_decide (rvp_copy = rvp_reference_internal)) with false.
    cbn [negb andb when].
    unfold bind. unfold ret. destruct (nb_inst_update _ _ _); done.
Qed.

(** Claim C7: the fallback chain of the [move] policy.  Once
    [nb_type_put_common] has a fresh wrapper for a value under the [move]
    policy (a type without intrusive ownership), it move-constructs when the
    type is move-constructible, through the move constructor of the type or,
    when the type has none, by copying the bytes and zeroing the source; it
    copy-constructs when the type is copy-constructible only, through the
    copy constructor or by copying the bytes; and it fails with a message
    that contains the name of the type when the type is neither.  A wrapper
    that is returned is ready and owns the destructor call, not the
    storage. *)
Theorem put_common_move env value td cleanup w ty inst w1 new_value :
  types w !! td = Some ty →
  has_flag (t_flags (tp_data ty)) intrusive_ptr = false →
  inst_new_impl (t_type_py (tp_data ty)) 0 w = Ok inst w1 →
  inst ≠ 0 →
  inst_ptr inst w1 = Ok new_value w1 →
  let t := tp_data ty in
  let run := nb_type_put_common env value td rvp_move cleanup w in
  if has_flag (t_flags t) is_move_constructible then
    if has_flag (t_flags t) has_move then
      if native_throws env (t_move t) new_value value then
        run = (emit (EvMove (t_move t) new_value value) ;; emit (EvDecref inst) ;;
               inst_dealloc env inst ;; ret (0, false)) w1
      else
        run = Ok (inst, true)
                (put_finished w1 inst [EvMove (t_move t) new_value value] true false)
    else
      run = Ok (inst, true)
              (put_finished w1 inst
                 [EvMemcpy new_value value (t_size t); EvMemzero value (t_size t)]
                 true false)
  else if has_flag (t_flags t) is_copy_constructible then
    if has_flag (t_flags t) has_copy then
      if native_throws env (t_copy t) new_value value then
        run = (emit (EvCopy (t_copy t) new_value value) ;; emit (EvDecref inst) ;;
               inst_dealloc env inst ;; ret (0, false)) w1
      else
        run = Ok (inst, true)
                (put_finished w1 inst [EvCopy (t_copy t) new_value value] true false)
    else
      run = Ok (inst, true)
              (put_finished w1 inst [EvMemcpy new_value value (t_size t)] true false)
  else
    run = Fatal (msg_named "nanobind::detail::nb_type_put" (t_name t)
                   ": attempted to move an instance that is neither copy- nor move-constructible!")
            w1 ∧
    ∃ pre post,
      msg_named "nanobind::detail::nb_type_put" (t_name t)
        ": attempted to move an instance that is neither copy- nor move-constructible!"
      = (pre +:+ t_name t +:+ post)%string.
Proof.
  intros Hty Hintr Hnew Hinst Hptr t run. subst run.
  rewrite (put_common_move_run env value td cleanup w ty inst w1 new_value) by done.
  subst t. set (t := tp_data ty) in *.
  assert (Hi : ∃ i, insts w1 !! inst = Some i).
  { clear - Hptr. unfold inst_ptr in Hptr. munfold. mcases; eauto. }
  destruct Hi as [i Hi].
  unfold put_move, put_copy.
  destruct (has_flag (t_flags t) is_move_constructible) eqn:Hmc; cbn [negb].
  - destruct (has_flag (t_flags t) has_move) eqn:Hhm.
    + destruct (native_throws env (t_move t) new_value value) eqn:Hth.
      * munfold. cbn. destruct (inst_dealloc env inst _); done.
      * munfold. cbn. rewrite Hi. cbn. f_equal.
        unfold put_finished. apply world_eq; cbn; try done. by rewrite Hi.
    + munfold. cbn. rewrite Hi. cbn. f_equal.
      unfold put_finished. apply world_eq; cbn; try done.
      * by rewrite Hi.
      * by rewrite <- app_assoc.
  - destruct (has_flag (t_flags t) is_copy_constructible) eqn:Hcc.
    + destruct (has_flag (t_flags t) has_copy) eqn:Hhc.
      * destruct (native_throws env (t_copy t) new_value value) eqn:Hth.
        -- munfold. cbn. destruct (inst_dealloc env inst _); done.
        -- munfold. cbn. rewrite Hi. cbn. f_equal.
           unfold put_finished. apply world_eq; cbn; try done. by rewrite Hi.
      * munfold. cbn. rewrite Hi. cbn. f_equal.
        unfold put_finished. apply world_eq; cbn; try done. by rewrite Hi.
    + split; [done|]. apply msg_named_names.
Qed.

Lemma put_common_move_witness :
  nb_type_put_common env0 7000 1000 rvp_move None world0 =
  Ok (4096, true)
    (put_finished (world_of (inst_new_impl 1000 0 world0) world0) 4096
       [EvMove 603 4120 7000] true false).
Proof.
  exact (put_common_move env0 7000 1000 None world0 point_type 4096
           (world_of (inst_new_impl 1000 0 world0) world0) 4120
           eq_refl eq_refl eq_refl ltac:(lia) eq_refl).
Defined.

(** *** Ownership transfer *)

Lemma inst_new_impl_external tp value w self w' :
  inst_new_impl tp value w = Ok self w' → self ≠ 0 → value ≠ 0 →
  ∃ i, insts w' !! self = Some i ∧ internal i = false.
Proof.
  intros H Hs Hv. unfold inst_new_impl in H.
  inv_bind H. inv_bind H.
  destruct (Z.eqb_spec a0 0) as [->|Ha0].
  { apply ret_Ok_inv in H as [<- _]. done. }
  inv_bind H. cbv zeta in H.
  destruct (Z.eqb_spec a1.1 0) as [Hz|Hz].
  { apply ret_Ok_inv in H as [<- _]. done. }
  inv_bind H. apply ret_Ok_inv in H as [<- ->].
  apply inst_c2p_emplace_frame in Hm2 as (-> & _).
  clear - Hm1 Hv Hz. unfold inst_new_place in Hm1.
  destruct (Z.eqb_spec value 0); [done|].
  unfold object_move, object_drop in Hm1. munfold. mcases; cbn in *;
    rewrite ?lookup_insert_eq in *; simplify_eq; cbn; eauto.
Qed.

Lemma relinquish_run o w i :
  insts w !! o = Some i →
  nb_type_relinquish_ownership o true w =
    if ready i then
      if owns_external i then
        Ok tt (set_insts
                 (insert o (set_ready false (set_destruct false (set_cpp_delete false i)))) w)
      else Thrown next_overload (set_trace (fun t => t ++ [EvWarn relinquish_warning]) w)
    else Fatal relinquish_ready_msg w.
Proof.
  intros Hi. unfold nb_type_relinquish_ownership, owns_external. munfold. rewrite Hi.
  destruct (ready i); [|done]. cbn.
  destruct (cpp_delete i), (destruct i), (internal i); cbn; try done.
  rewrite Hi. cbn. rewrite lookup_insert_eq. f_equal.
  apply world_eq; cbn; try done. by rewrite insert_insert_eq.
Qed.

Lemma put_unique_finalize_flags o cpp_type is_new w u w' :
  nb_type_put_unique_finalize o cpp_type true is_new w = Ok u w' →
  ∃ i0, insts w !! o = Some i0 ∧
        insts w' = <[o := set_ready true (set_destruct true (set_cpp_delete true i0))]> (insts w) ∧
        ready i0 = is_new ∧ destruct i0 = is_new ∧ cpp_delete i0 = is_new.
Proof.
  unfold nb_type_put_unique_finalize. intros H. munfold. cbn in H.
  destruct (insts w !! o) as [i0|] eqn:Hi0; [|done].
  destruct (eqb (ready i0) is_new) eqn:E1; [|done].
  destruct (eqb (destruct i0) is_new) eqn:E2; [|done].
  destruct (eqb (cpp_delete i0) is_new) eqn:E3; [|done].
  cbn in H. rewrite Hi0 in H. simplify_eq. cbn.
  apply eqb_prop in E1, E2, E3. eauto 10.
Qed.

Lemma put_fresh_address env cpp_type value rvp cleanup w o is_new w' :
  value ≠ 0 → inst_c2p w !! value = None → o ≠ 0 →
  nb_type_put env cpp_type value rvp cleanup w = Ok (o, is_new) w' →
  ∃ td, type_c2p w !! type_index cpp_type = Some td ∧
        nb_type_put_common env value td rvp cleanup w = Ok (o, is_new) w'.
Proof.
  intros Hv Hnone Ho H. unfold nb_type_put in H.
  destruct (Z.eqb_spec value 0); [done|].
  unfold lookup_type in H. munfold.
  destruct (bool_decide (rvp = rvp_copy)); cbn in H;
    [|rewrite Hnone in H; destruct (bool_decide (rvp = rvp_none)); cbn in H; [by simplify_eq|]].
  all: destruct (type_c2p w !! type_index cpp_type) as [td|]; cbn in H; [|by simplify_eq].
  all: exists td; split; [done|].
  all: destruct (nb_type_put_common env value td rvp cleanup w) as [[]| | |]; by simplify_eq.
Qed.

Lemma put_unique_owned env cpp_type value cleanup w o w1 :
  nb_type_put_unique env cpp_type value cleanup true w = Ok o w1 → o ≠ 0 →
  ∃ i, insts w1 !! o = Some i ∧ ready i = true ∧ destruct i = true ∧ cpp_delete i = true ∧
       (value ≠ 0 → inst_c2p w !! value = None → internal i = false).
Proof.
  intros H Ho. unfold nb_type_put_unique in H. cbv zeta in H.
  inv_bind H. destruct a as [o' is_new]. cbn [fst snd] in H.
  inv_bind H. apply ret_Ok_inv in H as [-> ->].
  unfold when in Hm0. destruct (Z.eqb_spec o 0); [done|]. cbn [negb] in Hm0.
  apply put_unique_finalize_flags in Hm0 as (i0 & Hi0 & Hi & Hr & Hd & Hc).
  eexists. rewrite Hi, lookup_insert_eq. split; [done|]. cbn.
  split; [done|]. split; [done|]. split; [done|].
  intros Hv Hnone.
  apply put_fresh_address in Hm as (td & Htd & Hput); [|done..].
  assert (Hty : ∃ ty, types w !! td = Some ty).
  { clear - Hput Ho. unfold nb_type_put_common in Hput.
    destruct (_ && _); [by apply ret_Ok_inv in Hput as [[= <- _] _]|].
    munfold. destruct (types w !! td); [eauto|done]. }
  destruct Hty as [ty Hty].
  destruct (put_common_wrapper env value td rvp_take_ownership cleanup w ty o is_new w0 Hty Hput Ho)
    as (w2 & i2 & i3 & Hnew & Hi2 & Hi3 & _ & _ & Hint & _).
  assert (Hrvp : rvp_after_intrusive (t_flags (tp_data ty)) rvp_take_ownership = rvp_take_ownership)
    by (unfold rvp_after_intrusive; by destruct (has_flag _ _)).
  rewrite Hrvp in Hnew. change (store_in_obj rvp_take_ownership) with false in Hnew.
  apply inst_new_impl_external in Hnew as (i2' & Hi2' & Hext); [|done..].
  simplify_eq. congruence.
Qed.

(** Claim C3, as the code has it.  [nb_type_relinquish_ownership(o, true)]
    succeeds exactly when the wrapper is ready and owns a destructible
    payload that is not co-located ([cpp_delete] and [destruct] set,
    [internal] clear); it then clears [destruct] and [cpp_delete] and marks
    the wrapper not ready.  A ready wrapper that does not own such a payload
    makes it warn and throw [next_overload], leaving the wrapper as it was.
    A wrapper that is not ready makes it fail fatally.  After
    [nb_type_put_unique(..., cpp_delete = true)] returned a wrapper whose
    payload is not co-located, as is every wrapper it makes for an address
    that had none, the reclaim succeeds and leaves the wrapper not ready and
    without ownership, and a second reclaim fails fatally and releases
    nothing. *)
Theorem relinquish_ownership_reclaim env :
  (∀ o w i,
     insts w !! o = Some i →
     (ready i = true → owns_external i = true →
      nb_type_relinquish_ownership o true w =
        Ok tt (set_insts
                 (insert o (set_ready false (set_destruct false (set_cpp_delete false i)))) w)) ∧
     (ready i = true → owns_external i = false →
      nb_type_relinquish_ownership o true w =
        Thrown next_overload (set_trace (fun t => t ++ [EvWarn relinquish_warning]) w)) ∧
     (ready i = false →
      nb_type_relinquish_ownership o true w = Fatal relinquish_ready_msg w) ∧
     (∀ w', nb_type_relinquish_ownership o true w = Ok tt w' →
            ready i = true ∧ cpp_delete i = true ∧ destruct i = true ∧ internal i = false)) ∧
  (∀ cpp_type value cleanup w o w1,
     nb_type_put_unique env cpp_type value cleanup true w = Ok o w1 → o ≠ 0 →
     ∃ i1, insts w1 !! o = Some i1 ∧
           (value ≠ 0 → inst_c2p w !! value = None → internal i1 = false) ∧
           (internal i1 = false →
            ∃ w2 i2,
              nb_type_relinquish_ownership o true w1 = Ok tt w2 ∧
              insts w2 !! o = Some i2 ∧
              ready i2 = false ∧ destruct i2 = false ∧ cpp_delete i2 = false ∧
              nb_type_relinquish_ownership o true w2 = Fatal relinquish_ready_msg w2)).
Proof.
  split.
  - intros o w i Hi. pose proof (relinquish_run o w i Hi) as Hrun.
    repeat split.
    + intros Hr Ho. by rewrite Hrun, Hr, Ho.
    + intros Hr Ho. by rewrite Hrun, Hr, Ho.
    + intros Hr. by rewrite Hrun, Hr.
    + rewrite Hrun in H. destruct (ready i); [done|]. done.
    + rewrite Hrun in H. destruct (ready i); [|done].
      unfold owns_external in H. by destruct (cpp_delete i).
    + rewrite Hrun in H. destruct (ready i); [|done].
      unfold owns_external in H. by destruct (cpp_delete i), (destruct i).
    + rewrite Hrun in H. destruct (ready i); [|done].
      unfold owns_external in H. by destruct (cpp_delete i), (destruct i), (internal i).
  - intros cpp_type value cleanup w o w1 Hput Ho.
    destruct (put_unique_owned env cpp_type value cleanup w o w1 Hput Ho)
      as (i1 & Hi1 & Hr & Hd & Hc & Hfresh).
    exists i1. split; [done|]. split; [done|]. intros Hint.
    eexists _, _. rewrite (relinquish_run o w1 i1 Hi1), Hr.
    unfold owns_external. rewrite Hc, Hd, Hint. cbn [andb negb].
    split; [done|]. cbn. rewrite lookup_insert_eq. split; [done|].
    split; [done|]. split; [done|]. split; [done|].
    erewrite relinquish_run; [|cbn; apply lookup_insert_eq]. done.
Qed.

Lemma relinquish_ownership_reclaim_witness :
  ∃ i1, insts (world_of (nb_type_put_unique env0 point_info 7000 None true world0) world0)
          !! 4096 = Some i1 ∧
        (7000 ≠ 0 → inst_c2p world0 !! 7000 = None → internal i1 = false) ∧
        (internal i1 = false →
         ∃ w2 i2,
           nb_type_relinquish_ownership 4096 true
             (world_of (nb_type_put_unique env0 point_info 7000 None true world0) world0)
           = Ok tt w2 ∧
           insts w2 !! 4096 = Some i2 ∧
           ready i2 = false ∧ destruct i2 = false ∧ cpp_delete i2 = false ∧
           nb_type_relinquish_ownership 4096 true w2 = Fatal relinquish_ready_msg w2).
Proof.
  apply (proj2 (relinquish_ownership_reclaim env0) point_info 7000 None world0 4096
           (world_of (nb_type_put_unique env0 point_info 7000 None true world0) world0)).
  - vm_compute. reflexivity.
  - lia.
Defined.

(** Claim C3 as written does not hold: a wrapper that is not ready does not
    make the reclaim fail recoverably; the process is aborted. *)
Lemma relinquish_unready_is_fatal :
  (∃ i, insts world_unready !! 4096 = Some i ∧ ready i = false) ∧
  nb_type_relinquish_ownership 4096 true world_unready = Fatal relinquish_ready_msg world_unready ∧
  ¬ (∃ w', nb_type_relinquish_ownership 4096 true world_unready = Thrown next_overload w').
Proof.
  split; [eexists; split; [reflexivity|reflexivity]|].
  split; [reflexivity|]. intros [w' H]. discriminate H.
Qed.

(** *** Keep-alive lists *)




Lemma release_nodes_run s w :
  release_nodes s w = Ok tt (traced (flat_map release_events s) w).
Proof.
  revert w. induction s as [|c s IH]; intros w.
  - cbn. unfold ret, traced. f_equal. apply world_eq; cbn; try done. by rewrite app_nil_r.
  - cbn [release_nodes flat_map]. unfold bind at 1. unfold release_node.
    unfold bind, emit, modify. cbn.
    destruct (negb (ws_callback c =? 0)); cbn; rewrite IH; f_equal;
      apply world_eq; cbn; try done; by rewrite <- !app_assoc.
Qed.

Lemma traced_traced evs evs' w : traced evs' (traced evs w) = traced (evs ++ evs') w.
Proof. unfold traced. apply world_eq; cbn; try done. by rewrite app_assoc. Qed.

Lemma traced_nil w : traced [] w = w.
Proof. unfold traced. apply world_eq; cbn; try done. by rewrite app_nil_r. Qed.


Lemma keep_alive_clear_run self name w s :
  keep_alive_map w !! self = Some s → s ≠ [] →
  keep_alive_clear self name w =
  Ok tt (traced (flat_map release_events s) (set_keep_alive_map (delete self) w)).
Proof.
  intros Hs Hne. unfold keep_alive_clear. munfold. rewrite Hs.
  destruct s as [|c s]; [done|]. apply release_nodes_run.
Qed.

Lemma when_emit_run (b : bool) e w :
  when b (emit e) w = Ok tt (traced (if b then [e] else []) w).
Proof. destruct b; cbn; [done|]. rewrite traced_nil. reflexivity. Qed.

Lemma inst_ptr_traced self evs w p :
  inst_ptr self w = Ok p w → inst_ptr self (traced evs w) = Ok p (traced evs w).
Proof. intros H. by apply (inst_ptr_frame self w). Qed.

Lemma dealloc_payload_run {A} env t i p (k : M A) w0 :
  (when (destruct i)
     (check (has_flag (t_flags t) is_destructible) (dealloc_destruct_msg t) ;;
      when (has_flag (t_flags t) has_destruct) (emit (EvDestruct (t_destruct t) p))) ;;
   when (cpp_delete i)
     (if t_align t <=? default_new_alignment env
      then emit (EvDelete p)
      else emit (EvDeleteAligned p (t_align t))) ;;
   k) w0 =
  if destruct i && negb (has_flag (t_flags t) is_destructible)
  then Fatal (dealloc_destruct_msg t) w0
  else k (traced (dealloc_destruct_events t i p ++ dealloc_delete_events env t i p) w0).
Proof.
  unfold dealloc_destruct_events, dealloc_delete_events.
  destruct (destruct i), (has_flag (t_flags t) is_destructible),
    (has_flag (t_flags t) has_destruct), (cpp_delete i),
    (t_align t <=? default_new_alignment env);
    cbn; try reflexivity; f_equal; unfold traced; apply world_eq; cbn;
    rewrite <- ?app_assoc, ?app_nil_r; reflexivity.
Qed.

Lemma inst_dealloc_run env self w tp ty i p :
  ob_type w !! self = Some tp → types w !! tp = Some ty →
  insts w !! self = Some i → inst_ptr self w = Ok p w →
  let t := tp_data ty in
  let gc := tp_have_gc ty in
  let ev1 := dealloc_untrack_events gc self ++ dealloc_dict_events t self in
  let ev2 := ev1 ++ dealloc_destruct_events t i p ++ dealloc_delete_events env t i p in
  inst_dealloc env self w =
  if destruct i && negb (has_flag (t_flags t) is_destructible)
  then Fatal (dealloc_destruct_msg t) (traced ev1 w)
  else
    (when (clear_keep_alive i) (keep_alive_clear self (t_name t)) ;;
     let* found := inst_c2p_remove p self in
     check found (dealloc_unknown_msg t) ;;
     (if gc then emit (EvTpFree self) else emit (EvFree self)) ;;
     modify (object_drop self) ;;
     emit (EvDecref tp)) (traced ev2 w).
Proof.
  intros Htp Hty Hi Hp t gc ev1 ev2. subst ev1 ev2.
  unfold dealloc_untrack_events, dealloc_dict_events.
  set (ev1 := (if gc then [EvGCUnTrack self] else []) ++
              (if has_flag (t_flags t) has_dynamic_attr then [EvClearDict self] else [])).
  unfold inst_dealloc.
  rewrite (bind_Ok_eq _ _ w tp w) by (unfold Py_TYPE; by rewrite Htp).
  rewrite (bind_Ok_eq _ _ w ty w) by (unfold nb_type_obj; by rewrite Hty).
  cbv zeta. fold t gc.
  rewrite (bind_Ok_eq _ _ _ _ _ (when_emit_run _ _ _)).
  rewrite (bind_Ok_eq _ _ _ _ _ (when_emit_run _ _ _)).
  rewrite traced_traced. fold ev1.
  rewrite (bind_Ok_eq _ _ _ i (traced ev1 w)) by (unfold nb_inst_read; cbn; by rewrite Hi).
  rewrite (bind_Ok_eq _ _ _ _ _ (inst_ptr_traced self ev1 w p Hp)).
  rewrite (dealloc_payload_run env t i p).
  by rewrite traced_traced.
Qed.

Lemma inst_c2p_remove_frame p inst w found w' :
  inst_c2p_remove p inst w = Ok found w' →
  keep_alive_map w' = keep_alive_map w ∧ insts w' = insts w ∧
  ob_type w' = ob_type w ∧ types w' = types w ∧ ptr_mem w' = ptr_mem w ∧
  type_c2p w' = type_c2p w ∧ allocs w' = allocs w ∧
  trace w' = trace w ++ (if found then dealloc_unlink_events w p inst else []).
Proof.
  unfold inst_c2p_remove, dealloc_unlink_events. intros H. munfold.
  destruct (inst_c2p w !! p) as [[e|nodes]|] eqn:E.
  - destruct (e =? inst); simplify_eq; cbn; by rewrite app_nil_r.
  - destruct nodes as [|n0 nodes0]; [done|].
    destruct (seq_unlink inst (n0 :: nodes0)) as [[n rest]|].
    + destruct rest; by simplify_eq.
    + simplify_eq. cbn. by rewrite app_nil_r.
  - simplify_eq. cbn. by rewrite app_nil_r.
Qed.

Lemma inst_dealloc_outcome env self w tp ty i p :
  ob_type w !! self = Some tp → types w !! tp = Some ty →
  insts w !! self = Some i → inst_ptr self w = Ok p w →
  c2p_wf (inst_c2p w) →
  (clear_keep_alive i = true → keep_alive_map w !! self ≠ Some []) →
  let t := tp_data ty in
  let gc := tp_have_gc ty in
  let ev1 := dealloc_untrack_events gc self ++ dealloc_dict_events t self in
  let ev2 := ev1 ++ dealloc_destruct_events t i p ++ dealloc_delete_events env t i p in
  let ev3 := ev2 ++ dealloc_keep_alive_events w i self in
  let ev4 := ev3 ++ dealloc_unlink_events w p self ++ dealloc_free_events gc self tp in
  if destruct i && negb (has_flag (t_flags t) is_destructible) then
    inst_dealloc env self w = Fatal (dealloc_destruct_msg t) (traced ev1 w)
  else if clear_keep_alive i && bool_decide (keep_alive_map w !! self = None) then
    inst_dealloc env self w = Fatal (dealloc_keep_alive_msg t) (traced ev2 w)
  else if bool_decide (c2p_count (inst_c2p w) p self = 0%nat) then
    ∃ w', inst_dealloc env self w = Fatal (dealloc_unknown_msg t) w' ∧
          trace w' = trace w ++ ev3
  else
    ∃ w', inst_dealloc env self w = Ok tt w' ∧
          trace w' = trace w ++ ev4 ∧
          keep_alive_map w' =
            (if clear_keep_alive i then delete self (keep_alive_map w)
             else keep_alive_map w) ∧
          c2p_count (inst_c2p w') p self = 0%nat ∧
          (∃ e, inst_c2p w !! p = Some e ∧
                entry_after_removal self e (inst_c2p w' !! p)) ∧
          insts w' = delete self (insts w) ∧
          ob_type w' = delete self (ob_type w).
Proof.
  intros Htp Hty Hi Hp Hwf Hka t gc ev1 ev2 ev3 ev4.
  rewrite (inst_dealloc_run env self w tp ty i p Htp Hty Hi Hp). cbv zeta.
  fold t gc ev1. fold ev2.
  destruct (destruct i && negb (has_flag (t_flags t) is_destructible)); [done|].
  (* the keep-alive edges *)
  assert (Hstep :
    ∀ {A} (k : M A),
      (when (clear_keep_alive i) (keep_alive_clear self (t_name t)) ;; k) (traced ev2 w) =
      if clear_keep_alive i && bool_decide (keep_alive_map w !! self = None)
      then Fatal (dealloc_keep_alive_msg t) (traced ev2 w)
      else k (traced ev3
                (set_keep_alive_map
                   (fun m => if clear_keep_alive i then delete self m else m) w))).
  { intros A k. subst ev3. unfold dealloc_keep_alive_events.
    destruct (clear_keep_alive i) eqn:Hc; cbn [andb when].
    - destruct (keep_alive_map w !! self) as [s|] eqn:Hs.
      + rewrite bool_decide_eq_false_2 by done.
        assert (Hne : s ≠ []) by (intros ->; by apply Hka).
        unfold bind at 1.
        rewrite (keep_alive_clear_run self (t_name t) (traced ev2 w) s) by done.
        f_equal. unfold traced. apply world_eq; cbn; try done. by rewrite app_assoc.
      + rewrite bool_decide_eq_true_2 by done.
        unfold bind, keep_alive_clear, get, fail. cbn. by rewrite Hs.
    - unfold bind, ret. f_equal. unfold traced. apply world_eq; cbn; try done.
      by rewrite app_nil_r. }
  rewrite Hstep. clear Hstep.
  destruct (clear_keep_alive i && bool_decide (keep_alive_map w !! self = None)); [done|].
  set (wk := traced ev3 _).
  assert (Hwfk : c2p_wf (inst_c2p wk)) by done.
  destruct (inst_c2p_remove_total p self wk Hwfk) as (found & wr & Hrem).
  pose proof (inst_c2p_remove_frame _ _ _ _ _ Hrem) as (Hk & Hin & Ho & _ & _ & _ & _ & Htr).
  rewrite (bind_Ok_eq _ _ _ _ _ Hrem).
  apply inst_c2p_remove_Ok in Hrem
    as [(-> & Hc & Hm)|(-> & e & He & Hafter & Hother & before & behind & Hins & Hnot & Hins')].
  - change (inst_c2p wk) with (inst_c2p w) in Hc.
    rewrite bool_decide_eq_true_2 by done.
    eexists. split; [reflexivity|]. rewrite Htr. cbn. by rewrite app_nil_r.
  - change (inst_c2p wk) with (inst_c2p w) in He, Hother.
    assert (Hcount : c2p_count (inst_c2p w) p self ≠ 0%nat).
    { unfold c2p_count. rewrite He, Hins.
      rewrite filter_app, filter_cons_True, length_app by done. cbn. lia. }
    rewrite bool_decide_eq_false_2 by done.
    assert (Hnd : NoDup (c2p_insts e)) by (by apply (Hwf p e)).
    assert (Hz : c2p_count (inst_c2p wr) p self = 0%nat).
    { unfold c2p_count. destruct (inst_c2p wr !! p) as [e1|]; [|done].
      cbn in Hins'. rewrite Hins'. apply count_filter_not_elem.
      rewrite Hins in Hnd. apply NoDup_app in Hnd as (H1 & H2 & H3).
      apply NoDup_cons in H3 as [H3 H4].
      rewrite elem_of_app. intros [?|?]; done. }
    subst ev4. unfold dealloc_free_events.
    destruct gc.
    all: eexists; split; [unfold check, bind, ret, emit, modify; reflexivity|].
    all: cbn; rewrite ?Htr, ?Hk, ?Hin, ?Ho; cbn.
    all: change (dealloc_unlink_events wk p self) with (dealloc_unlink_events w p self).
    all: split; [repeat (rewrite <- ?app_assoc; cbn [app]); reflexivity|].
    all: split; [done|]. all: split; [done|]. all: split; [eauto|]. all: done.
Qed.





(** *** Release of the keep-alive edges *)








Lemma inst_ptr_same_storage self w w1 i i1 p :
  insts w !! self = Some i → insts w1 !! self = Some i1 →
  offset i1 = offset i → direct i1 = direct i → ptr_mem w1 = ptr_mem w →
  inst_ptr self w = Ok p w → inst_ptr self w1 = Ok p w1.
Proof.
  intros Hi Hi1 Ho Hd Hp H. unfold inst_ptr in *. munfold.
  rewrite Hi in H. rewrite Hi1, Ho, Hd.
  destruct (direct i); [by simplify_eq|]. rewrite Hp.
  destruct (ptr_mem w !! _); by simplify_eq.
Qed.





(** *** The identity map over the life of a wrapper *)

Lemma inst_new_place_c2p gc align self0 value w r w' :
  inst_new_place gc align self0 value w = Ok r w' → inst_c2p w' = inst_c2p w.
Proof.
  unfold inst_new_place, host_realloc, object_move, object_drop. intros H.
  munfold. mcases.
Qed.

(** [inst_new_impl] enters the wrapper it returns under the address that
    [inst_ptr] reads back from it. *)
Lemma inst_new_impl_emplace tp ty value w self w' :
  types w !! tp = Some ty →
  (value = 0 → 0 < t_align (tp_data ty) < 2 ^ 31 - sizeof_nb_inst) →
  is_ptr value → Forall alloc_ok (allocs w) →
  inst_new_impl tp value w = Ok self w' → self ≠ 0 →
  ∃ p w2 u, inst_c2p w2 = inst_c2p w ∧ inst_c2p_emplace p self w2 = Ok u w' ∧
            inst_ptr self w' = Ok p w'.
Proof.
  intros Hty Hal Hv Hall H Hne.
  unfold inst_new_impl in H. unfold bind at 1 in H. unfold nb_type_obj in H.
  rewrite Hty in H.
  apply bind_Ok_inv in H as (self0 & w1 & Halloc & H).
  destruct (Z.eqb_spec self0 0) as [->|Hs0].
  { apply ret_Ok_inv in H as [<- _]. done. }
  apply inst_new_alloc_Ok in Halloc as (rest & Ha & Ha' & Hi1 & Ht1 & Hp1 & Hc1); [|done].
  apply bind_Ok_inv in H as (r & w2 & Hplace & H).
  cbv zeta in H.
  destruct (Z.eqb_spec r.1 0) as [Hr0|Hr0].
  { apply ret_Ok_inv in H as [<- _]. done. }
  apply bind_Ok_inv in H as (u & w3 & Hemp & H).
  apply ret_Ok_inv in H as [<- <-].
  rewrite Ha in Hall. apply Forall_cons in Hall as [Has Hall].
  assert (Halign : value = 0 → 0 < to_uintptr (t_align (tp_data ty)) < 2 ^ 31 - sizeof_nb_inst).
  { intros Hz. specialize (Hal Hz). unfold to_uintptr.
    rewrite Z.mod_small; [done|]. unfold sizeof_nb_inst in *. zconst. lia. }
  pose proof (inst_new_place_c2p _ _ _ _ _ _ _ Hplace) as Hc2.
  eapply inst_new_place_Ok in Hplace as (i & payload & Hi & Hptr & Hr2 & _);
    [|by rewrite Hi1, lookup_insert_eq|by rewrite Ht1, lookup_insert_eq|try done..].
  all: try (rewrite Ha'; done).
  pose proof (inst_c2p_emplace_frame _ _ _ _ _ Hemp) as (Hi3 & Hp3 & _).
  exists payload, w2, u. rewrite Hr2 in Hemp.
  split; [congruence|]. split; [done|]. by eapply inst_ptr_frame.
Qed.

Lemma keep_alive_clear_c2p self name w u w' :
  keep_alive_clear self name w = Ok u w' → inst_c2p w' = inst_c2p w.
Proof.
  unfold keep_alive_clear. munfold. intros H.
  destruct (keep_alive_map w !! self) as [s|]; [|done].
  destruct s as [|c s]; [done|].
  rewrite release_nodes_run in H. by simplify_eq.
Qed.

(** A run of [inst_dealloc] that returns has taken the wrapper out of the
    entry of its payload address. *)
Lemma inst_dealloc_remove env self w u w' p :
  inst_dealloc env self w = Ok u w' → inst_ptr self w = Ok p w →
  ∃ w1 w2, inst_c2p w1 = inst_c2p w ∧ inst_c2p_remove p self w1 = Ok true w2 ∧
           inst_c2p w' = inst_c2p w2.
Proof.
  intros H Hp.
  destruct (ob_type w !! self) as [tp|] eqn:Htp;
    [|unfold inst_dealloc, bind at 1, Py_TYPE in H; by rewrite Htp in H].
  destruct (types w !! tp) as [ty|] eqn:Hty;
    [|unfold inst_dealloc, bind at 1, Py_TYPE in H; rewrite Htp in H;
      unfold bind at 1, nb_type_obj in H; by rewrite Hty in H].
  destruct (inst_ptr_Ok _ _ _ _ Hp) as [_ [i Hi]].
  rewrite (inst_dealloc_run env self w tp ty i p Htp Hty Hi Hp) in H. cbv zeta in H.
  destruct (destruct i && _); [done|].
  apply bind_Ok_inv in H as (u1 & w1 & Hka & H).
  assert (Hc1 : inst_c2p w1 = inst_c2p w).
  { unfold when in Hka. destruct (clear_keep_alive i).
    - by apply keep_alive_clear_c2p in Hka.
    - by apply ret_Ok_inv in Hka as [_ <-]. }
  apply bind_Ok_inv in H as (found & w2 & Hrem & H).
  destruct found; [|by munfold].
  exists w1, w2. split; [done|]. split; [done|].
  clear - H. unfold object_drop in H. munfold. mcases.
Qed.

Lemma inst_ptr_fun self w p p' w1 w2 :
  inst_ptr self w = Ok p w1 → inst_ptr self w = Ok p' w2 → p = p'.
Proof. congruence. Qed.

(** Claim C9: the encoding of the identity map.  In a map whose entries
    hold no wrapper twice (and whose lists are not empty):
    - entering the wrapper [inst] for the address [p] keeps the map so, makes
      a direct entry for the first wrapper of [p], turns a direct entry into
      a list of two nodes for the second, appends a node from then on, and
      leaves [inst] exactly once in the entry of [p] and every other
      occurrence as it was;
    - entering a pair that is in the map already is a fatal failure;
    - taking [inst] out always returns; it finds the wrapper exactly when it
      occurs once, leaves it in no entry, and leaves every other occurrence
      as it was: a direct entry or a list of one node is erased, a removed
      head makes the rest the list, another node is unlinked; an entry that
      was a list stays a tagged list as long as it exists;
    - the wrapper that [inst_new_impl] returns occurs exactly once in the
      entry of the address [inst_ptr] gives for it;
    - the wrapper that [inst_dealloc] has freed occurred exactly once in the
      entry of its payload address and occurs in it no more. *)
Theorem identity_map_encoding (w : world) (p inst : Z) :
  c2p_wf (inst_c2p w) →
  (∀ u w', inst_c2p_emplace p inst w = Ok u w' →
     c2p_wf (inst_c2p w') ∧
     entry_after_insertion inst (inst_c2p w !! p) (inst_c2p w' !! p) ∧
     c2p_count (inst_c2p w') p inst = 1%nat ∧
     ∀ p' inst', (p', inst') ≠ (p, inst) →
       c2p_count (inst_c2p w') p' inst' = c2p_count (inst_c2p w) p' inst') ∧
  ((0 < c2p_count (inst_c2p w) p inst)%nat →
     ∃ msg w', inst_c2p_emplace p inst w = Fatal msg w') ∧
  (∃ found w', inst_c2p_remove p inst w = Ok found w') ∧
  (∀ found w', inst_c2p_remove p inst w = Ok found w' →
     c2p_wf (inst_c2p w') ∧
     found = bool_decide (c2p_count (inst_c2p w) p inst = 1%nat) ∧
     c2p_count (inst_c2p w') p inst = 0%nat ∧
     (∀ p' inst', (p', inst') ≠ (p, inst) →
        c2p_count (inst_c2p w') p' inst' = c2p_count (inst_c2p w) p' inst') ∧
     (found = true →
        ∃ e, inst_c2p w !! p = Some e ∧
             entry_after_removal inst e (inst_c2p w' !! p)) ∧
     (∀ nodes e', inst_c2p w !! p = Some (Seq nodes) →
        inst_c2p w' !! p = Some e' →
        nb_is_seq (c2p_encode e') = true ∧ ∃ nodes', e' = Seq nodes')) ∧
  (∀ tp ty value w',
     types w !! tp = Some ty →
     (value = 0 → 0 < t_align (tp_data ty) < 2 ^ 31 - sizeof_nb_inst) →
     is_ptr value → Forall alloc_ok (allocs w) →
     inst_new_impl tp value w = Ok inst w' → inst ≠ 0 →
     inst_ptr inst w' = Ok p w' →
     c2p_wf (inst_c2p w') ∧
     entry_after_insertion inst (inst_c2p w !! p) (inst_c2p w' !! p) ∧
     c2p_count (inst_c2p w') p inst = 1%nat ∧
     ∀ p' inst', (p', inst') ≠ (p, inst) →
       c2p_count (inst_c2p w') p' inst' = c2p_count (inst_c2p w) p' inst') ∧
  (∀ env u w',
     inst_dealloc env inst w = Ok u w' → inst_ptr inst w = Ok p w →
     c2p_wf (inst_c2p w') ∧
     c2p_count (inst_c2p w) p inst = 1%nat ∧
     c2p_count (inst_c2p w') p inst = 0%nat ∧
     (∀ p' inst', (p', inst') ≠ (p, inst) →
        c2p_count (inst_c2p w') p' inst' = c2p_count (inst_c2p w) p' inst') ∧
     ∃ e, inst_c2p w !! p = Some e ∧
          entry_after_removal inst e (inst_c2p w' !! p)).
Proof.
  intros Hwf. split; [|split; [|split; [|split; [|split]]]].
  - intros u w'. by apply inst_c2p_emplace_spec.
  - apply inst_c2p_emplace_dup.
  - by apply inst_c2p_remove_total.
  - intros found w'. by apply inst_c2p_remove_spec.
  - intros tp ty value w' Hty Hal Hv Hall H Hne Hp.
    destruct (inst_new_impl_emplace tp ty value w inst w' Hty Hal Hv Hall H Hne)
      as (p0 & w2 & u & Hc & Hemp & Hp0).
    assert (p0 = p) as -> by (by eapply inst_ptr_fun).
    apply inst_c2p_emplace_spec in Hemp; rewrite Hc in *; done.
  - intros env u w' H Hp.
    destruct (inst_dealloc_remove env inst w u w' p H Hp) as (w1 & w2 & Hc1 & Hrem & Hc2).
    apply inst_c2p_remove_spec in Hrem; rewrite ?Hc1 in *; [|done].
    rewrite Hc2.
    destruct Hrem as (Hwf' & Hfound & Hzero & Hother & He & _).
    symmetry in Hfound. apply bool_decide_eq_true in Hfound.
    split; [done|]. split; [done|]. split; [done|]. split; [done|]. by apply He.
Qed.

Lemma identity_map_encoding_witness :
  (∃ msg w', inst_c2p_emplace 7000 4096 world_owned = Fatal msg w') ∧
  (∃ found w', inst_c2p_remove 7000 4096 world_owned = Ok found w') ∧
  (let w' := world_of (inst_c2p_emplace 7000 4200 world_owned) world_owned in
   c2p_wf (inst_c2p w') ∧
   entry_after_insertion 4200 (inst_c2p world_owned !! 7000) (inst_c2p w' !! 7000) ∧
   c2p_count (inst_c2p w') 7000 4200 = 1%nat ∧
   ∀ p' inst', (p', inst') ≠ (7000, 4200) →
     c2p_count (inst_c2p w') p' inst' = c2p_count (inst_c2p world_owned) p' inst') ∧
  (let w' := world_of (inst_dealloc env0 4096 world_owned) world_owned in
   c2p_wf (inst_c2p w') ∧
   c2p_count (inst_c2p world_owned) 7000 4096 = 1%nat ∧
   c2p_count (inst_c2p w') 7000 4096 = 0%nat ∧
   (∀ p' inst', (p', inst') ≠ (7000, 4096) →
      c2p_count (inst_c2p w') p' inst' = c2p_count (inst_c2p world_owned) p' inst') ∧
   ∃ e, inst_c2p world_owned !! 7000 = Some e ∧
        entry_after_removal 4096 e (inst_c2p w' !! 7000)).
Proof.
  assert (Hwf : c2p_wf (inst_c2p world_owned)).
  { unfold c2p_wf. refine (bool_decide_unpack _ _). vm_compute. exact I. }
  split; [|split; [|split]].
  - apply (proj1 (proj2 (identity_map_encoding world_owned 7000 4096 Hwf))).
    vm_compute. lia.
  - apply (proj1 (proj2 (proj2 (identity_map_encoding world_owned 7000 4096 Hwf)))).
  - intros w'.
    apply (proj1 (identity_map_encoding world_owned 7000 4200 Hwf) tt w').
    vm_compute. reflexivity.
  - intros w'.
    apply (proj2 (proj2 (proj2 (proj2 (proj2
             (identity_map_encoding world_owned 7000 4096 Hwf))))) env0 tt w').
    + vm_compute. reflexivity.
    + vm_compute. reflexivity.
Defined.

(** *** The search for an implicit conversion *)








(** A [Point] is converted to a [Line] through the native-type entry, though
    the predicate 701 would accept it, and no predicate is asked. *)
Example implicit_native_entry_first :
  predicate_matches env0 line_data 4096 701 = true ∧
  implicit_search env0 4096 (Some point_info) line_data world_owned =
    Ok (Some (by_type_exact 1)) world_owned.
Proof. split; reflexivity. Qed.

(** *** Identity of the wrappers returned by [nb_type_put] *)

Lemma lookup_type_registered cpp_type w td cache :
  type_c2p w !! type_index cpp_type = Some td → cache = 0 ∨ cache = td →
  lookup_type cpp_type cache w = Ok (true, td) w.
Proof.
  intros Htd Hc. unfold lookup_type.
  destruct (Z.eqb_spec cache 0) as [->|Hne]; cbn [negb].
  - unfold bind, get. by rewrite Htd.
  - destruct Hc as [Hc | ->]; done.
Qed.

Lemma put_scan_registered env cpp_type w td ty_dst l :
  type_c2p w !! type_index cpp_type = Some td → types w !! td = Some ty_dst →
  Forall (wrapper_live w) l → l ≠ [] →
  ∀ cache, cache = 0 ∨ cache = td →
  nb_type_put_scan env cpp_type cache l w =
    match List.find (wrapper_fits env w cpp_type (tp_data ty_dst)) l with
    | Some o => Ok (scan_return o) (traced [EvIncref o] w)
    | None => Ok (scan_break td) w
    end.
Proof.
  intros Htd Hty Hlive. induction Hlive as [|inst l [tp [t [Htp Ht]]] Hlive IH];
    intros Hne cache Hc; [done|].
  cbn [nb_type_put_scan List.find]. unfold wrapper_fits at 1. rewrite Htp, Ht.
  unfold Py_TYPE at 1, bind at 1. rewrite Htp.
  unfold nb_type_data at 1, nb_type_obj at 1, bind at 1, bind at 1. rewrite Ht.
  unfold ret at 1.
  destruct (type_info_ptr_eq (t_type (tp_data t)) cpp_type); cbn [orb]; [done|].
  rewrite (bind_Ok_eq _ _ _ _ _ (lookup_type_registered cpp_type w td cache Htd Hc)).
  cbn [fst snd negb].
  unfold nb_type_data at 1, nb_type_obj at 1, bind at 1, bind at 1. rewrite Hty.
  unfold ret at 1.
  destruct (PyType_IsSubtype env tp (t_type_py (tp_data ty_dst))); [done|].
  destruct l as [|inst' l']; [done|]. apply IH; [done|by right].
Qed.

Lemma find_app_none {A} (f : A → bool) l x :
  List.find f l = None → List.find f (l ++ [x]) = if f x then Some x else None.
Proof.
  induction l as [|y l IH]; [done|]. cbn. destruct (f y); [done|]. exact IH.
Qed.

Lemma find_ext_in {A} (f g : A → bool) l :
  (∀ x, x ∈ l → f x = g x) → List.find f l = List.find g l.
Proof.
  induction l as [|y l IH]; [done|]. intros H. cbn.
  rewrite (H y) by (by left). destruct (g y); [done|].
  apply IH. intros x Hx. apply H. by right.
Qed.

Lemma inst_new_place_objects gc align self0 value w r w' tp i0 :
  inst_new_place gc align self0 value w = Ok r w' → value ≠ 0 → r.1 ≠ 0 →
  ob_type w !! self0 = Some tp → insts w !! self0 = Some i0 →
  r.2 = value ∧ inst_c2p w' = inst_c2p w ∧ types w' = types w ∧
  type_c2p w' = type_c2p w ∧ ob_type w' !! r.1 = Some tp ∧
  (r.1 = self0 ∨ r.1 ∈ allocs w) ∧
  ∀ x, x ≠ self0 → x ∉ allocs w → ob_type w' !! x = ob_type w !! x.
Proof.
  intros H Hv Hr Htp Hi. unfold inst_new_place in H.
  destruct (Z.eqb_spec value 0); [done|].
  destruct (to_intptr (to_intptr self0 + _) =? to_intptr value).
  - munfold. rewrite Hi in H. simplify_eq. cbn. repeat split; eauto.
  - destruct gc; cbn [negb] in H.
    + unfold bind at 1, ret at 1 in H.
      destruct (Z.eqb_spec self0 0).
      { apply ret_Ok_inv in H as [<- _]. done. }
      munfold. cbn in H. rewrite Hi in H. simplify_eq. cbn. repeat split; eauto.
    + unfold bind at 1, bind at 1, host_realloc in H.
      destruct (allocs w) as [|a rest] eqn:Ha.
      { munfold. cbn in H. by simplify_eq. }
      destruct (Z.eqb_spec a 0) as [->|Hane].
      { munfold. cbn in H. by simplify_eq. }
      unfold bind at 1, modify at 1, ret at 1 in H.
      destruct (Z.eqb_spec a 0); [done|].
      unfold object_move in H. cbn in H. rewrite Hi, Htp in H.
      munfold. cbn in H. rewrite lookup_insert_eq in H. simplify_eq. cbn.
      rewrite lookup_insert_eq. split; [done|]. split; [done|]. split; [done|].
      split; [done|]. split; [done|]. split; [right; by left|].
      intros x Hx Hxa. rewrite not_elem_of_cons in Hxa. destruct Hxa as [Hxa _].
      rewrite lookup_insert_ne by done. by rewrite lookup_delete_ne.
Qed.

Lemma inst_new_impl_registered tp value w self w0 :
  inst_new_impl tp value w = Ok self w0 → self ≠ 0 → value ≠ 0 →
  wrappers_at w0 value = wrappers_at w value ++ [self] ∧
  is_Some (types w !! tp) ∧
  ob_type w0 !! self = Some tp ∧ types w0 = types w ∧ type_c2p w0 = type_c2p w ∧
  (∀ x, x ∉ allocs w → ob_type w0 !! x = ob_type w !! x).
Proof.
  intros H Hs Hv. unfold inst_new_impl in H.
  inv_bind H. rename a into ty.
  assert (Hw0 : w1 = w ∧ is_Some (types w !! tp)).
  { clear - Hm. unfold nb_type_obj in Hm. destruct (types w !! tp); by simplify_eq. }
  destruct Hw0 as [-> Htp].
  inv_bind H. rename a into self0.
  destruct (Z.eqb_spec self0 0) as [->|Hs0].
  { apply ret_Ok_inv in H as [<- _]. done. }
  assert (Htypes1 : types w1 = types w ∧ type_c2p w1 = type_c2p w).
  { clear - Hm0 Hs0. unfold inst_new_alloc, object_init in Hm0. munfold. mcases. }
  apply inst_new_alloc_Ok in Hm0 as (rest & Ha & Ha' & Hi1 & Ht1 & Hp1 & Hc1); [|done].
  inv_bind H. cbv zeta in H.
  destruct (Z.eqb_spec a.1 0) as [Hz|Hz].
  { apply ret_Ok_inv in H as [<- _]. done. }
  inv_bind H. apply ret_Ok_inv in H as [<- ->].
  rename Hm0 into Hplace, Hm1 into Hemp.
  eapply inst_new_place_objects in Hplace
    as (Hr2 & Hc2 & Hty2 & Htc2 & Ho2 & Hin2 & Hx2);
    [|done|done|by rewrite Ht1, lookup_insert_eq|by rewrite Hi1, lookup_insert_eq].
  rewrite Hr2 in Hemp.
  pose proof (inst_c2p_emplace_frame _ _ _ _ _ Hemp) as (_ & _ & Ho3 & Hty3 & Htc3 & _).
  apply inst_c2p_emplace_Ok in Hemp as (e' & Hm' & _ & Hins & _).
  destruct Htypes1 as [Hty1 Htc1].
  split.
  { unfold wrappers_at. rewrite Hm', lookup_insert_eq. cbn [from_option].
    by rewrite Hins, Hc2, Hc1. }
  split; [done|].
  split; [by rewrite Ho3|]. split; [congruence|]. split; [congruence|].
  intros x Hx. rewrite Ha in Hx. apply not_elem_of_cons in Hx as [Hne Hnin].
  rewrite Ho3, Hx2 by (by rewrite ?Ha'). rewrite Ht1. by rewrite lookup_insert_ne.
Qed.

Lemma inst_new_impl_registry tp value w self w0 :
  inst_new_impl tp value w = Ok self w0 → type_c2p w0 = type_c2p w.
Proof.
  intros H. unfold inst_new_impl in H.
  inv_bind H.
  assert (w1 = w) as ->.
  { clear - Hm. unfold nb_type_obj in Hm. destruct (types w !! tp); by simplify_eq. }
  inv_bind H.
  assert (Hr1 : type_c2p w1 = type_c2p w).
  { clear - Hm0. unfold inst_new_alloc, object_init in Hm0. munfold. mcases. }
  destruct (a0 =? 0); [by apply ret_Ok_inv in H as [_ <-]|].
  inv_bind H. cbv zeta in H.
  assert (Hr2 : type_c2p w2 = type_c2p w1).
  { clear - Hm1. unfold inst_new_place, host_realloc, object_move, object_drop in Hm1.
    munfold. mcases. }
  destruct (a1.1 =? 0); [apply ret_Ok_inv in H as [_ <-]; congruence|].
  inv_bind H. apply ret_Ok_inv in H as [_ <-].
  apply inst_c2p_emplace_frame in Hm2 as (_ & _ & _ & _ & Hr3 & _). congruence.
Qed.

Lemma put_common_registry env value td rvp cleanup w inst is_new w' :
  nb_type_put_common env value td rvp cleanup w = Ok (inst, is_new) w' →
  inst ≠ 0 → type_c2p w' = type_c2p w.
Proof.
  intros H Hinst. unfold nb_type_put_common in H.
  destruct (bool_decide (rvp = rvp_reference_internal) && negb (cleanup_has_self cleanup)).
  { apply ret_Ok_inv in H as [[= <- <-] _]. done. }
  apply bind_Ok_inv in H as (t & wa & Ht & H).
  assert (wa = w) as ->.
  { clear - Ht. unfold nb_type_data, nb_type_obj in Ht. munfold. mcases. }
  cbv zeta in H.
  apply bind_Ok_inv in H as (self & wb & Hnew & H).
  apply inst_new_impl_registry in Hnew.
  destruct (self =? 0); [apply ret_Ok_inv in H as [[= <- <-] _]; done|].
  apply bind_Ok_inv in H as (new_value & wc & Hptr & H).
  apply inst_ptr_Ok in Hptr as [-> _].
  apply bind_Ok_inv in H as (moved & wd & Hmove & H).
  destruct moved; cbn [negb] in H;
    [|apply ret_Ok_inv in H as [[= <- <-] _]; done].
  assert (Hr2 : type_c2p wd = type_c2p wb).
  { clear - Hmove. unfold put_move in Hmove. munfold. mcases. }
  apply bind_Ok_inv in H as (copied & we & Hcopy & H).
  destruct copied; cbn [negb] in H;
    [|apply ret_Ok_inv in H as [[= <- <-] _]; done].
  assert (Hr3 : type_c2p we = type_c2p wd).
  { clear - Hcopy. unfold put_copy in Hcopy. munfold. mcases. }
  apply bind_Ok_inv in H as (shared & wf & Hshared & H).
  assert (Hr4 : type_c2p wf = type_c2p we).
  { clear - Hshared. munfold. mcases. }
  apply bind_Ok_inv in H as (u1 & wg & Hupd & H).
  assert (Hr5 : type_c2p wg = type_c2p wf).
  { clear - Hupd. unfold nb_inst_update in Hupd. munfold. mcases. }
  apply bind_Ok_inv in H as (u2 & wh & Hka & H).
  assert (Hr6 : type_c2p wh = type_c2p wg).
  { clear - Hka. unfold when in Hka. case_match.
    - by apply keep_alive_frame in Hka as (_ & _ & _ & _ & ? & _).
    - by apply ret_Ok_inv in Hka as [_ <-]. }
  apply bind_Ok_inv in H as (u3 & wi & Hself & H). apply ret_Ok_inv in H as [_ <-].
  assert (Hr7 : type_c2p wi = type_c2p wh).
  { clear - Hself. unfold when in Hself. munfold. mcases. }
  congruence.
Qed.

Lemma find_some_nonempty {A} (f : A → bool) l o : List.find f l = Some o → l ≠ [].
Proof. by destruct l. Qed.

Lemma nb_type_put_found env cpp_type td ty_dst p rvp cleanup w o :
  p ≠ 0 → rvp ≠ rvp_copy →
  type_c2p w !! type_index cpp_type = Some td → types w !! td = Some ty_dst →
  Forall (wrapper_live w) (wrappers_at w p) →
  List.find (wrapper_fits env w cpp_type (tp_data ty_dst)) (wrappers_at w p) = Some o →
  nb_type_put env cpp_type p rvp cleanup w = Ok (o, false) (traced [EvIncref o] w).
Proof.
  intros Hp Hrvp Hreg Hty Hlive Hfind. unfold nb_type_put.
  destruct (Z.eqb_spec p 0); [done|].
  rewrite bool_decide_eq_false_2 by done. cbn [negb].
  unfold wrappers_at in *.
  destruct (inst_c2p w !! p) as [entry|] eqn:E; [|done].
  cbn [from_option] in *.
  unfold bind at 1, bind at 1, get at 1. rewrite E.
  rewrite (put_scan_registered env cpp_type w td ty_dst); eauto using find_some_nonempty.
  by rewrite Hfind.
Qed.

Lemma nb_type_put_fresh env cpp_type td ty_dst p rvp cleanup w r w1 :
  p ≠ 0 → rvp ≠ rvp_copy →
  type_c2p w !! type_index cpp_type = Some td → types w !! td = Some ty_dst →
  Forall (wrapper_live w) (wrappers_at w p) →
  List.find (wrapper_fits env w cpp_type (tp_data ty_dst)) (wrappers_at w p) = None →
  nb_type_put env cpp_type p rvp cleanup w = Ok r w1 → r.1 ≠ 0 →
  nb_type_put_common env p td rvp cleanup w = Ok r w1.
Proof.
  intros Hp Hrvp Hreg Hty Hlive Hfind H Hr. unfold nb_type_put in H.
  destruct (Z.eqb_spec p 0); [done|].
  rewrite bool_decide_eq_false_2 in H by done. cbn [negb] in H.
  unfold wrappers_at in *.
  unfold bind at 1, bind at 1, get at 1 in H.
  destruct (inst_c2p w !! p) as [entry|] eqn:E; cbn [from_option] in *.
  - destruct (c2p_insts entry) as [|x l] eqn:El; [done|].
    rewrite (put_scan_registered env cpp_type w td ty_dst) in H; eauto.
    rewrite Hfind in H. cbv beta iota in H. unfold bind at 1 in H.
    rewrite (lookup_type_registered cpp_type w td td) in H by eauto. done.
  - destruct (bool_decide (rvp = rvp_none)).
    + apply ret_Ok_inv in H as [<- _]. done.
    + unfold ret at 1 in H. cbv beta iota in H. unfold bind at 1 in H.
      rewrite (lookup_type_registered cpp_type w td 0) in H by eauto. done.
Qed.

Lemma nb_type_put_again env cpp_type td ty_dst p rvp cleanup w o n :
  p ≠ 0 → rvp ≠ rvp_copy →
  type_c2p w !! type_index cpp_type = Some td → types w !! td = Some ty_dst →
  Forall (wrapper_live w) (wrappers_at w p) →
  List.find (wrapper_fits env w cpp_type (tp_data ty_dst)) (wrappers_at w p) = Some o →
  nb_type_put env cpp_type p rvp cleanup (traced (replicate n (EvIncref o)) w) =
    Ok (o, false) (traced (replicate (S n) (EvIncref o)) w).
Proof.
  intros Hp Hrvp Hreg Hty Hlive Hfind.
  rewrite (nb_type_put_found env cpp_type td ty_dst p rvp cleanup _ o); try done.
  rewrite traced_traced.
  assert (replicate n (EvIncref o) ++ [EvIncref o] = replicate (S n) (EvIncref o)) as ->; [|done].
  induction n as [|n IH]; [done|]. cbn [replicate app] in *. by rewrite IH.
Qed.

Lemma reference_keeps_address flags :
  store_in_obj (rvp_after_intrusive flags rvp_reference) = false.
Proof. unfold rvp_after_intrusive. by destruct (has_flag flags intrusive_ptr). Qed.

Lemma nb_type_put_registers env cpp_type td ty_dst p cleanup w o is_new w1 :
  p ≠ 0 →
  type_c2p w !! type_index cpp_type = Some td → types w !! td = Some ty_dst →
  Forall (wrapper_live w) (wrappers_at w p) →
  (∀ a, PyType_IsSubtype env a a = true) →
  (∀ x, x ∈ allocs w → ob_type w !! x = None) →
  List.find (wrapper_fits env w cpp_type (tp_data ty_dst)) (wrappers_at w p) = None →
  nb_type_put env cpp_type p rvp_reference cleanup w = Ok (o, is_new) w1 → o ≠ 0 →
  type_c2p w1 !! type_index cpp_type = Some td ∧ types w1 !! td = Some ty_dst ∧
  wrappers_at w1 p = wrappers_at w p ++ [o] ∧
  Forall (wrapper_live w1) (wrappers_at w1 p) ∧
  List.find (wrapper_fits env w1 cpp_type (tp_data ty_dst)) (wrappers_at w1 p) = Some o.
Proof.
  intros Hp Hreg Hty Hlive Hrefl Hfresh Hfind H Ho.
  apply (nb_type_put_fresh env cpp_type td ty_dst p rvp_reference cleanup w _ w1
           Hp ltac:(done) Hreg Hty Hlive Hfind) in H; [|done].
  pose proof (put_common_registry _ _ _ _ _ _ _ _ _ H Ho) as Hreg1.
  destruct (put_common_wrapper env p td rvp_reference cleanup w ty_dst o is_new w1 Hty H Ho)
    as (w0 & _ & _ & Hnew & _ & _ & _ & _ & _ & _ & _ & _ & _ & Hc & _ & Ht & Hob).
  rewrite reference_keeps_address in Hnew.
  apply inst_new_impl_registered in Hnew as (Hat & [ty Htp] & Hobj & Ht0 & _ & Hold); [|done..].
  assert (Hat1 : wrappers_at w1 p = wrappers_at w p ++ [o]).
  { unfold wrappers_at in *. by rewrite Hc. }
  assert (Hsame : ∀ x, x ∈ wrappers_at w p → ob_type w1 !! x = ob_type w !! x).
  { intros x Hx. rewrite Hob. apply Hold. intros Hin. apply Hfresh in Hin.
    rewrite Forall_forall in Hlive. destruct (Hlive x Hx) as (? & ? & ? & _). congruence. }
  assert (Hfits : wrapper_fits env w1 cpp_type (tp_data ty_dst) o = true).
  { unfold wrapper_fits. rewrite Hob, Hobj, Ht, Ht0, Htp, Hrefl. apply orb_true_r. }
  split; [by rewrite Hreg1|]. split; [by rewrite Ht, Ht0|]. split; [done|].
  rewrite Hat1. split.
  - apply Forall_app. split.
    + rewrite Forall_forall in Hlive |- *. intros x Hx.
      destruct (Hlive x Hx) as (tp & t & ? & ?). exists tp, t.
      by rewrite Hsame, Ht, Ht0.
    + apply Forall_singleton. exists (t_type_py (tp_data ty_dst)), ty.
      by rewrite Hob, Ht, Ht0.
  - rewrite find_app_none, Hfits; [done|].
    rewrite <- Hfind. apply find_ext_in. intros x Hx.
    unfold wrapper_fits. by rewrite Hsame, Ht, Ht0.
Qed.

(** Claim C1: object identity preservation.  Let [cpp_type] be registered
    and the wrappers that the identity map holds for the address [p ≠ 0] be
    live.  If the policy is not [copy] and a wrapper for [p] fits
    [cpp_type] (its type record names [cpp_type], or its host type is a
    subtype of the host type registered for [cpp_type]), then [nb_type_put]
    returns a fitting wrapper of that entry, the first one, and does nothing
    but increment its reference count: no wrapper is made and the identity
    map is unchanged.  Consequently, once [nb_type_put] with the policy
    [reference] has returned an object [o] for [p], every further such call
    returns [o], whether the first call found [o] or made it. *)
Theorem nb_type_put_identity env cpp_type td ty_dst p cleanup w :
  p ≠ 0 →
  type_c2p w !! type_index cpp_type = Some td → types w !! td = Some ty_dst →
  Forall (wrapper_live w) (wrappers_at w p) →
  (∀ rvp inst, rvp ≠ rvp_copy → inst ∈ wrappers_at w p →
     wrapper_fits env w cpp_type (tp_data ty_dst) inst = true →
     ∃ o, o ∈ wrappers_at w p ∧
          wrapper_fits env w cpp_type (tp_data ty_dst) o = true ∧
          List.find (wrapper_fits env w cpp_type (tp_data ty_dst)) (wrappers_at w p) = Some o ∧
          nb_type_put env cpp_type p rvp cleanup w = Ok (o, false) (traced [EvIncref o] w)) ∧
  ((∀ a, PyType_IsSubtype env a a = true) →
   (∀ x, x ∈ allocs w → ob_type w !! x = None) →
   ∀ o is_new w1,
     nb_type_put env cpp_type p rvp_reference cleanup w = Ok (o, is_new) w1 → o ≠ 0 →
     o ∈ wrappers_at w1 p ∧
     ∀ n, nb_type_put env cpp_type p rvp_reference cleanup
            (traced (replicate n (EvIncref o)) w1) =
          Ok (o, false) (traced (replicate (S n) (EvIncref o)) w1)).
Proof.
  intros Hp Hreg Hty Hlive. split.
  - intros rvp inst Hrvp Hin Hfits.
    destruct (List.find (wrapper_fits env w cpp_type (tp_data ty_dst)) (wrappers_at w p))
      as [o|] eqn:Hfind.
    + exists o. apply find_some in Hfind as Ho. destruct Ho as [Ho1 Ho2].
      apply list_elem_of_In in Ho1.
      eauto using nb_type_put_found.
    + apply list_elem_of_In in Hin.
      apply (find_none _ _ Hfind) in Hin. congruence.
  - intros Hrefl Hfresh o is_new w1 H Ho.
    destruct (List.find (wrapper_fits env w cpp_type (tp_data ty_dst)) (wrappers_at w p))
      as [o'|] eqn:Hfind.
    + rewrite (nb_type_put_found env cpp_type td ty_dst p rvp_reference cleanup w o') in H
        by done.
      injection H as <- <- <-. split.
      * apply find_some in Hfind as [Hin _]. by apply list_elem_of_In in Hin.
      * intros n. by apply (nb_type_put_again env cpp_type td ty_dst).
    + destruct (nb_type_put_registers env cpp_type td ty_dst p cleanup w o is_new w1)
        as (Hreg1 & Hty1 & Hat & Hlive1 & Hfind1); try done.
      split.
      * rewrite Hat. apply elem_of_app. right. by apply list_elem_of_singleton.
      * intros n. by apply (nb_type_put_again env cpp_type td ty_dst).
Qed.

Lemma nb_type_put_identity_witness :
  (∃ o, o ∈ wrappers_at world_owned 7000 ∧
        wrapper_fits env0 world_owned point_info (tp_data point_type) o = true ∧
        List.find (wrapper_fits env0 world_owned point_info (tp_data point_type))
          (wrappers_at world_owned 7000) = Some o ∧
        nb_type_put env0 point_info 7000 rvp_take_ownership None world_owned =
          Ok (o, false) (traced [EvIncref o] world_owned)) ∧
  (let w1 := world_of (nb_type_put env0 point_info 7000 rvp_reference None world0) world0 in
   4096 ∈ wrappers_at w1 7000 ∧
   ∀ n, nb_type_put env0 point_info 7000 rvp_reference None
          (traced (replicate n (EvIncref 4096)) w1) =
        Ok (4096, false) (traced (replicate (S n) (EvIncref 4096)) w1)).
Proof.
  split.
  - apply (proj1 (nb_type_put_identity env0 point_info 1000 point_type 7000 None world_owned
                    ltac:(lia) eq_refl eq_refl
                    ltac:(apply Forall_singleton; exists 1000, point_type; split; reflexivity))
             rvp_take_ownership 4096).
    + discriminate.
    + apply list_elem_of_singleton. reflexivity.
    + reflexivity.
  - intros w1.
    apply (proj2 (nb_type_put_identity env0 point_info 1000 point_type 7000 None world0
                    ltac:(lia) eq_refl eq_refl ltac:(apply Forall_nil_2))) with (is_new := true).
    + intros a. cbn. by rewrite Z.eqb_refl.
    + intros x Hx. reflexivity.
    + vm_compute. reflexivity.
    + lia.
Defined.

(** ** Further functions *)

(** *** The hash of the pointer maps *)

Lemma lxor_word a b : is_ptr a → is_ptr b → is_ptr (Z.lxor a b).
Proof.
  unfold is_ptr. intros [Ha1 Ha2] [Hb1 Hb2].
  assert (0 <= Z.lxor a b) by (by apply Z.lxor_nonneg).
  split; [done|].
  destruct (decide (Z.lxor a b = 0)) as [->|Hne]; [done|].
  apply Z.log2_lt_pow2; [lia|].
  pose proof (Z.log2_lxor a b Ha1 Hb1) as Hl.
  assert (Z.log2 a < 64).
  { destruct (decide (a = 0)) as [->|?]; [done|]. apply Z.log2_lt_pow2; lia. }
  assert (Z.log2 b < 64).
  { destruct (decide (b = 0)) as [->|?]; [done|]. apply Z.log2_lt_pow2; lia. }
  lia.
Qed.

Lemma shiftr_word v n : 0 <= n → is_ptr v → is_ptr (Z.shiftr v n).
Proof.
  unfold is_ptr. intros Hn [H1 H2]. rewrite Z.shiftr_div_pow2 by done.
  split; [apply Z.div_pos; lia|].
  apply Z.le_lt_trans with v; [|done].
  apply Z.div_le_upper_bound; [lia|]. nia.
Qed.

Lemma xorshift_word v : is_ptr v → is_ptr (Z.lxor v (Z.shiftr v 33)).
Proof. intros H. apply lxor_word; [done|]. by apply shiftr_word. Qed.

Lemma xorshift_involutive v :
  is_ptr v →
  Z.lxor (Z.lxor v (Z.shiftr v 33)) (Z.shiftr (Z.lxor v (Z.shiftr v 33)) 33) = v.
Proof.
  intros [H1 H2]. rewrite Z.shiftr_lxor, Z.shiftr_shiftr by lia.
  replace (Z.shiftr v (33 + 33)) with 0.
  - rewrite Z.lxor_0_r, Z.lxor_assoc, Z.lxor_nilpotent, Z.lxor_0_r. done.
  - rewrite Z.shiftr_div_pow2 by lia. symmetry. apply Z.div_small.
    change (2 ^ 64) with 18446744073709551616 in H2.
    change (2 ^ (33 + 33)) with 73786976294838206464. lia.
Qed.

Lemma to_uintptr_word z : is_ptr (to_uintptr z).
Proof. unfold is_ptr, to_uintptr. apply Z.mod_pos_bound. done. Qed.

Lemma to_uintptr_id v : is_ptr v → to_uintptr v = v.
Proof. unfold is_ptr, to_uintptr. intros H. by apply Z.mod_small. Qed.

Lemma mul_inverse_word c c' v :
  (c * c') mod 2 ^ 64 = 1 → is_ptr v →
  to_uintptr (to_uintptr (v * c) * c') = v.
Proof.
  intros Hc Hv. unfold to_uintptr.
  rewrite Z.mul_mod_idemp_l by done.
  rewrite <- Z.mul_assoc, <- Z.mul_mod_idemp_r, Hc, Z.mul_1_r by done.
  by apply Z.mod_small.
Qed.

Lemma ptr_unhash_hash p : is_ptr p → ptr_unhash (ptr_hash p) = p.
Proof.
  intros Hp. unfold ptr_unhash, ptr_hash. cbv zeta.
  rewrite (to_uintptr_id p) by done.
  set (v1 := Z.lxor p (Z.shiftr p 33)).
  assert (Hv1 : is_ptr v1) by (by apply xorshift_word).
  set (v2 := to_uintptr (v1 * _)).
  assert (Hv2 : is_ptr v2) by apply to_uintptr_word.
  set (v3 := Z.lxor v2 (Z.shiftr v2 33)).
  assert (Hv3 : is_ptr v3) by (by apply xorshift_word).
  set (v4 := to_uintptr (v3 * _)).
  assert (Hv4 : is_ptr v4) by apply to_uintptr_word.
  rewrite (xorshift_involutive v4) by done. subst v4.
  rewrite mul_inverse_word by done.
  subst v3. rewrite (xorshift_involutive v2) by done. subst v2.
  rewrite mul_inverse_word by done.
  subst v1. by apply xorshift_involutive.
Qed.

Lemma ptr_hash_unhash h : is_ptr h → ptr_hash (ptr_unhash h) = h.
Proof.
  intros Hh. unfold ptr_unhash, ptr_hash. cbv zeta.
  set (v1 := Z.lxor h (Z.shiftr h 33)).
  assert (Hv1 : is_ptr v1) by (by apply xorshift_word).
  set (v2 := to_uintptr (v1 * _)).
  assert (Hv2 : is_ptr v2) by apply to_uintptr_word.
  set (v3 := Z.lxor v2 (Z.shiftr v2 33)).
  assert (Hv3 : is_ptr v3) by (by apply xorshift_word).
  set (v4 := to_uintptr (v3 * _)).
  assert (Hv4 : is_ptr v4) by apply to_uintptr_word.
  rewrite (to_uintptr_id (Z.lxor v4 _)) by (by apply xorshift_word).
  rewrite (xorshift_involutive v4) by done. subst v4.
  rewrite mul_inverse_word by done.
  subst v3. rewrite (xorshift_involutive v2) by done. subst v2.
  rewrite mul_inverse_word by done.
  subst v1. by apply xorshift_involutive.
Qed.

Lemma ptr_hash_word p : is_ptr (ptr_hash p).
Proof.
  unfold ptr_hash. cbv zeta. apply xorshift_word, to_uintptr_word.
Qed.

(** Property X1: [ptr_hash] permutes the 64-bit words: the hash of a pointer is a 64-bit
    word, [ptr_unhash] undoes [ptr_hash] and [ptr_hash] undoes [ptr_unhash],
    so two different pointers never have the same hash. *)
Theorem ptr_hash_bijective p q :
  is_ptr p → is_ptr q →
  is_ptr (ptr_hash p) ∧
  ptr_unhash (ptr_hash p) = p ∧
  ptr_hash (ptr_unhash p) = p ∧
  (ptr_hash p = ptr_hash q → p = q).
Proof.
  intros Hp Hq. split; [apply ptr_hash_word|].
  split; [by apply ptr_unhash_hash|]. split; [by apply ptr_hash_unhash|].
  intros H. rewrite <- (ptr_unhash_hash p), <- (ptr_unhash_hash q) by done.
  by rewrite H.
Qed.

Lemma ptr_hash_bijective_witness :
  is_ptr (ptr_hash 4096) ∧
  ptr_unhash (ptr_hash 4096) = 4096 ∧
  ptr_hash (ptr_unhash 4096) = 4096 ∧
  (ptr_hash 4096 = ptr_hash 4104 → 4096 = 4104).
Proof.
  apply (ptr_hash_bijective 4096 4104); unfold is_ptr; lia.
Defined.

(** *** The tag of the collision lists *)

Lemma nb_mark_seq_odd p : Z.odd (nb_mark_seq p) = true.
Proof.
  unfold nb_mark_seq. rewrite <- Z.bit0_odd, Z.lor_spec. apply orb_true_r.
Qed.

Lemma nb_mark_seq_word p : is_ptr p → is_ptr (nb_mark_seq p).
Proof.
  unfold is_ptr, nb_mark_seq. intros [H1 H2].
  assert (0 <= Z.lor p 1) by (apply Z.lor_nonneg; lia).
  split; [done|].
  apply Z.log2_lt_pow2; [|].
  - assert (Z.lor p 1 ≠ 0); [|lia].
    intros H0. apply (f_equal Z.odd) in H0.
    rewrite <- Z.bit0_odd, Z.lor_spec, orb_true_r in H0. done.
  - rewrite Z.log2_lor by lia.
    destruct (decide (p = 0)) as [->|Hp]; [done|].
    assert (Z.log2 p < 64) by (apply Z.log2_lt_pow2; lia).
    change (Z.log2 1) with 0. pose proof (Z.log2_nonneg p). lia.
Qed.

(** Property X2: tagging round trip.  For a pointer [p] with bit 0 clear (every object
    and list node is at least 2-aligned): [p] itself is not read as a list,
    the marked pointer is, unmarking gives [p] back, the marked pointer is
    still a 64-bit word, and it differs from every aligned pointer, so that
    a list is never taken for a wrapper. *)
Theorem seq_tag_round_trip p q :
  Z.even p = true → Z.even q = true →
  nb_is_seq p = false ∧
  nb_is_seq (nb_mark_seq p) = true ∧
  nb_get_seq (nb_mark_seq p) = p ∧
  nb_mark_seq p ≠ q ∧
  (nb_mark_seq p = nb_mark_seq q → p = q) ∧
  (is_ptr p → is_ptr (nb_mark_seq p)).
Proof.
  intros Hp Hq.
  split; [by apply nb_is_seq_even|]. split; [apply nb_is_seq_mark|].
  split; [by apply nb_get_seq_mark|]. split; [|split].
  - intros H. pose proof (nb_mark_seq_odd p) as Ho. rewrite H in Ho.
    rewrite <- Z.negb_even, Hq in Ho. done.
  - intros H. rewrite <- (nb_get_seq_mark p), <- (nb_get_seq_mark q) by done.
    by rewrite H.
  - apply nb_mark_seq_word.
Qed.

Lemma seq_tag_round_trip_witness :
  nb_is_seq 4096 = false ∧
  nb_is_seq (nb_mark_seq 4096) = true ∧
  nb_get_seq (nb_mark_seq 4096) = 4096 ∧
  nb_mark_seq 4096 ≠ 4200 ∧
  (nb_mark_seq 4096 = nb_mark_seq 4200 → 4096 = 4200) ∧
  (is_ptr 4096 → is_ptr (nb_mark_seq 4096)).
Proof.
  apply (seq_tag_round_trip 4096 4200); reflexivity.
Defined.

(** *** [nb_type_get] *)

(** [nb_type_get] on a wrapper of the bridge. *)
Lemma nb_type_get_bridged env cpp_type src flags cleanup w tp ty i :
  src ≠ Py_None env →
  ob_type w !! src = Some tp → types w !! tp = Some ty → insts w !! src = Some i →
  registry_wf w →
  nb_type_get env cpp_type src flags cleanup w =
    if get_accepts env w cpp_type tp (tp_data ty) then
      if negb (ready i) && negb (has_cast_flag flags construct)
      then Ok None (traced [EvWarn (unready_warning (tp_data ty))] w)
      else (let* out := inst_ptr src in ret (Some out)) w
    else get_converted env cpp_type src (Some (t_type (tp_data ty))) flags cleanup w.
Proof.
  intros Hnone Htp Hty Hi Hwf. unfold nb_type_get.
  destruct (Z.eqb_spec src (Py_None env)); [done|].
  rewrite (bind_Ok_eq _ _ w tp w) by (unfold Py_TYPE; by rewrite Htp).
  rewrite (bind_Ok_eq _ _ w true w).
  2:{ unfold nb_type_check. by rewrite bool_decide_eq_true_2. }
  cbv beta iota.
  unfold bind at 1.
  rewrite (bind_Ok_eq _ _ w (tp_data ty) w)
    by (unfold nb_type_data, nb_type_obj, bind, ret; by rewrite Hty).
  cbv zeta. unfold get_accepts, get_converted.
  set (exact := type_info_ptr_eq cpp_type (t_type (tp_data ty)) ||
                type_info_eq cpp_type (t_type (tp_data ty))).
  unfold bind at 1, get at 1.
  destruct exact; cbn [orb].
  - unfold bind at 1, ret at 1.
    unfold bind at 1, nb_inst_read at 1. rewrite Hi.
    destruct (negb (ready i) && negb (has_cast_flag flags construct)); [done|].
    unfold bind, ret. by destruct (inst_ptr src w).
  - destruct (type_c2p w !! type_index cpp_type) as [d|] eqn:Hd.
    + destruct (Hwf _ _ Hd) as [ty_d Hty_d]. rewrite Hty_d.
      rewrite (bind_Ok_eq _ _ w (PyType_IsSubtype env tp (t_type_py (tp_data ty_d))) w)
        by (unfold nb_type_data, nb_type_obj, bind, ret; by rewrite Hty_d).
      destruct (PyType_IsSubtype env tp (t_type_py (tp_data ty_d))).
      * unfold bind at 1, nb_inst_read at 1. rewrite Hi.
        destruct (negb (ready i) && negb (has_cast_flag flags construct)); [done|].
        unfold bind, ret. by destruct (inst_ptr src w).
      * unfold ret at 1. cbv beta iota.
        destruct (has_cast_flag flags convert && bool_decide (is_Some cleanup)); [|done].
        unfold bind at 1, get at 1. cbn [negb].
        rewrite (bind_Ok_eq _ _ w (tp_data ty_d) w)
          by (unfold nb_type_data, nb_type_obj, bind, ret; by rewrite Hty_d).
        by destruct (has_flag _ _).
    + unfold bind at 1, ret at 1. unfold ret at 1. cbv beta iota.
      destruct (has_cast_flag flags convert && bool_decide (is_Some cleanup)); [|done].
      unfold bind at 1, get at 1. cbn [negb]. done.
Qed.

(** [nb_type_get] on an object that is no wrapper of the bridge. *)
Lemma nb_type_get_foreign env cpp_type src flags cleanup w tp :
  src ≠ Py_None env →
  ob_type w !! src = Some tp → types w !! tp = None →
  nb_type_get env cpp_type src flags cleanup w =
    get_converted env cpp_type src None flags cleanup w.
Proof.
  intros Hnone Htp Hty. unfold nb_type_get.
  destruct (Z.eqb_spec src (Py_None env)); [done|].
  rewrite (bind_Ok_eq _ _ w tp w) by (unfold Py_TYPE; by rewrite Htp).
  rewrite (bind_Ok_eq _ _ w false w).
  2:{ unfold nb_type_check. rewrite bool_decide_eq_false_2; [done|].
      rewrite Hty. by intros [? ?]. }
  cbv beta iota. unfold bind at 1, ret at 1. unfold get_converted.
  destruct (has_cast_flag flags convert && bool_decide (is_Some cleanup)); [|done].
  unfold bind at 1, get at 1. cbn [negb].
  destruct (type_c2p w !! type_index cpp_type) as [d|]; [|done].
  unfold nb_type_data, nb_type_obj. unfold bind at 1, bind at 1.
  destruct (types w !! d); [|done]. unfold ret at 1. by destruct (has_flag _ _).
Qed.

Lemma inst_new_impl_ptr_external tp ty value w self w' :
  types w !! tp = Some ty → value ≠ 0 → is_ptr value → Forall alloc_ok (allocs w) →
  inst_new_impl tp value w = Ok self w' → self ≠ 0 →
  inst_ptr self w' = Ok value w'.
Proof.
  intros Hty Hv0 Hv Hall H Hne.
  unfold inst_new_impl in H.
  rewrite (bind_Ok_eq _ _ w ty w) in H by (unfold nb_type_obj; by rewrite Hty).
  apply bind_Ok_inv in H as (self0 & w1 & Halloc & H).
  destruct (Z.eqb_spec self0 0) as [->|Hs0].
  { apply ret_Ok_inv in H as [<- _]. done. }
  apply inst_new_alloc_Ok in Halloc as (rest & Ha & Ha' & Hi1 & Ht1 & Hp1 & Hc1); [|done].
  apply bind_Ok_inv in H as (r & w2 & Hplace & H).
  cbv zeta in H.
  destruct (Z.eqb_spec r.1 0) as [Hr0|Hr0].
  { apply ret_Ok_inv in H as [<- _]. done. }
  apply bind_Ok_inv in H as (u & w3 & Hemp & H).
  apply ret_Ok_inv in H as [<- <-].
  rewrite Ha in Hall. apply Forall_cons in Hall as [Has Hall].
  eapply inst_new_place_Ok in Hplace as (i & payload & Hi & Hptr & Hr2 & Henc);
    [|by rewrite Hi1, lookup_insert_eq|by rewrite Ht1, lookup_insert_eq|try done..].
  all: try (rewrite Ha'; done).
  pose proof (inst_c2p_emplace_frame _ _ _ _ _ Hemp) as (Hi3 & Hp3 & _).
  unfold storage_encoded in Henc. destruct (decide (value = 0)); [done|].
  destruct Henc as [-> _]. by eapply inst_ptr_frame.
Qed.

Lemma put_common_type env value td rvp cleanup w r w' :
  nb_type_put_common env value td rvp cleanup w = Ok r w' → r.1 ≠ 0 →
  is_Some (types w !! td).
Proof.
  intros H Hr. unfold nb_type_put_common in H.
  destruct (_ && _); [by apply ret_Ok_inv in H as [<- _]|].
  apply bind_Ok_inv in H as (t & w1 & Ht & _).
  unfold nb_type_data, nb_type_obj in Ht. unfold bind at 1 in Ht.
  by destruct (types w !! td).
Qed.

(** What a new wrapper for a payload that stays where it is looks like to
    the rest of the bridge. *)
Lemma put_common_external env value td ty rvp cleanup w o is_new w1 :
  types w !! td = Some ty →
  value ≠ 0 → is_ptr value → Forall alloc_ok (allocs w) →
  store_in_obj (rvp_after_intrusive (t_flags (tp_data ty)) rvp) = false →
  nb_type_put_common env value td rvp cleanup w = Ok (o, is_new) w1 → o ≠ 0 →
  ∃ i ty_o,
    insts w1 !! o = Some i ∧ ready i = true ∧
    inst_ptr o w1 = Ok value w1 ∧
    ob_type w1 !! o = Some (t_type_py (tp_data ty)) ∧
    types w !! t_type_py (tp_data ty) = Some ty_o ∧
    types w1 = types w ∧ type_c2p w1 = type_c2p w.
Proof.
  intros Hty Hv0 Hv Hall Hext H Ho.
  pose proof (put_common_registry _ _ _ _ _ _ _ _ _ H Ho) as Hreg.
  destruct (put_common_wrapper env value td rvp cleanup w ty o is_new w1 Hty H Ho)
    as (w0 & i0 & i & Hnew & Hi0 & Hi & Hoff & Hdir & _ & Hready & _ & _ & _ & Hc & Hpm & Ht & Hob).
  rewrite Hext in Hnew.
  destruct (inst_new_impl_registered _ _ _ _ _ Hnew Ho Hv0)
    as (_ & [ty_o Hty_o] & Hobj & Ht0 & _ & _).
  pose proof (inst_new_impl_ptr_external _ _ _ _ _ _ Hty_o Hv0 Hv Hall Hnew Ho) as Hptr.
  exists i, ty_o. split; [done|]. split; [done|].
  split; [by eapply (inst_ptr_same_storage o w0 w1 i0 i)|].
  split; [by rewrite Hob|]. split; [done|]. split; [congruence|done].
Qed.

(** Property X3: round trip of a pointer through the bridge.  When [nb_type_put] has
    made a wrapper [o] for the address [value] under a policy that leaves
    the payload where it is (any policy but [copy] and [move]), then
    [nb_type_get] of the same type on [o] answers [value], whatever the
    flags and the cleanup list, and changes nothing; [nb_inst_ptr] answers
    [value] as well. *)
Theorem nb_type_get_put_round_trip env cpp_type value rvp cleanup flags cleanup' w o is_new w1 :
  value ≠ 0 → is_ptr value → Forall alloc_ok (allocs w) →
  inst_c2p w !! value = None → registry_wf w →
  (∀ a, PyType_IsSubtype env a a = true) →
  rvp ≠ rvp_copy → rvp ≠ rvp_move →
  nb_type_put env cpp_type value rvp cleanup w = Ok (o, is_new) w1 →
  o ≠ 0 → o ≠ Py_None env →
  nb_type_get env cpp_type o flags cleanup' w1 = Ok (Some value) w1 ∧
  nb_inst_ptr o w1 = Ok value w1.
Proof.
  intros Hv0 Hv Hall Hfresh Hwf Hrefl Hc Hm H Ho Hnone.
  apply put_fresh_address in H as (td & Htd & H); [|done..].
  destruct (put_common_type _ _ _ _ _ _ _ _ H Ho) as [ty Hty].
  assert (Hext : store_in_obj (rvp_after_intrusive (t_flags (tp_data ty)) rvp) = false).
  { unfold rvp_after_intrusive, store_in_obj.
    destruct (has_flag _ intrusive_ptr); [done|].
    by rewrite !bool_decide_eq_false_2. }
  destruct (put_common_external env value td ty rvp cleanup w o is_new w1
              Hty Hv0 Hv Hall Hext H Ho)
    as (i & ty_o & Hi & Hready & Hptr & Hob & Hty_o & Ht & Hr).
  split; [|exact Hptr].
  rewrite (nb_type_get_bridged env cpp_type o flags cleanup' w1
             (t_type_py (tp_data ty)) ty_o i); try done.
  - replace (get_accepts env w1 cpp_type (t_type_py (tp_data ty)) (tp_data ty_o)) with true.
    + rewrite Hready. cbn [negb andb]. unfold bind. rewrite Hptr. done.
    + unfold get_accepts. rewrite Hr, Htd, Ht, Hty, Hrefl. by rewrite orb_true_r.
  - by rewrite Ht.
  - unfold registry_wf. by rewrite Hr, Ht.
Qed.

Lemma nb_type_get_put_round_trip_witness :
  let w1 := world_of (nb_type_put env0 point_info 7000 rvp_reference None world0) world0 in
  nb_type_get env0 point_info 4096 0 None w1 = Ok (Some 7000) w1 ∧
  nb_inst_ptr 4096 w1 = Ok 7000 w1.
Proof.
  intros w1.
  apply (nb_type_get_put_round_trip env0 point_info 7000 rvp_reference None 0 None world0
           4096 true).
  - lia.
  - unfold is_ptr. lia.
  - unfold world0, alloc_ok. simpl. repeat (apply Forall_cons_2; [right; lia|]). apply Forall_nil_2.
  - reflexivity.
  - unfold registry_wf. refine (bool_decide_unpack _ _). vm_compute. exact I.
  - intros a. cbn. by rewrite Z.eqb_refl.
  - discriminate.
  - discriminate.
  - vm_compute. reflexivity.
  - lia.
  - cbn. lia.
Defined.

(** Property X4: without the [convert] flag, or without a cleanup list, [nb_type_get]
    converts nothing: an object that is no wrapper of the bridge is refused
    with the world as it is, and a pointer that comes back is the payload
    address of the wrapper given, whose type is accepted and which is ready
    unless the caller passed [construct]; the world is left as it is. *)
Theorem nb_type_get_no_conversion env cpp_type src flags cleanup w tp :
  has_cast_flag flags convert && bool_decide (is_Some cleanup) = false →
  src ≠ Py_None env → ob_type w !! src = Some tp → registry_wf w →
  match types w !! tp with
  | None => nb_type_get env cpp_type src flags cleanup w = Ok None w
  | Some ty =>
      ∀ i out w', insts w !! src = Some i →
        nb_type_get env cpp_type src flags cleanup w = Ok (Some out) w' →
        w' = w ∧ inst_ptr src w = Ok out w ∧
        get_accepts env w cpp_type tp (tp_data ty) = true ∧
        (ready i = true ∨ has_cast_flag flags construct = true)
  end.
Proof.
  intros Hconv Hnone Htp Hwf. destruct (types w !! tp) as [ty|] eqn:Hty.
  - intros i out w' Hi H.
    rewrite (nb_type_get_bridged env cpp_type src flags cleanup w tp ty i) in H by done.
    destruct (get_accepts env w cpp_type tp (tp_data ty)).
    + destruct (ready i), (has_cast_flag flags construct); cbn [negb andb] in H; try done.
      all: apply bind_Ok_inv in H as (p & w1 & Hp & H);
        apply ret_Ok_inv in H as [[= ->] ->];
        destruct (inst_ptr_Ok _ _ _ _ Hp) as [-> _]; eauto.
    + unfold get_converted in H. by rewrite Hconv in H.
  - rewrite (nb_type_get_foreign env cpp_type src flags cleanup w tp) by done.
    unfold get_converted. by rewrite Hconv.
Qed.

Lemma nb_type_get_no_conversion_witness :
  world_owned = world_owned ∧ inst_ptr 4096 world_owned = Ok 7000 world_owned ∧
  get_accepts env0 world_owned point_info 1000 (tp_data point_type) = true ∧
  (ready (default nb_inst_zero (insts world_owned !! 4096)) = true ∨
   has_cast_flag 0 construct = true).
Proof.
  apply (nb_type_get_no_conversion env0 point_info 4096 0 None world_owned 1000
           eq_refl ltac:(cbn; lia) eq_refl
           ltac:(unfold registry_wf; refine (bool_decide_unpack _ _); vm_compute; exact I)
           (default nb_inst_zero (insts world_owned !! 4096)) 7000 world_owned).
  - reflexivity.
  - vm_compute. reflexivity.
Defined.

(** Property X5: a wrapper that is not ready is not handed out: when its type is
    accepted and the caller did not pass [construct], [nb_type_get] warns
    and answers [false], and it tries no implicit conversion, whatever the
    flags and the cleanup list. *)
Theorem nb_type_get_unready_refused env cpp_type src flags cleanup w tp ty i :
  src ≠ Py_None env →
  ob_type w !! src = Some tp → types w !! tp = Some ty → insts w !! src = Some i →
  registry_wf w →
  get_accepts env w cpp_type tp (tp_data ty) = true →
  ready i = false → has_cast_flag flags construct = false →
  nb_type_get env cpp_type src flags cleanup w =
    Ok None (traced [EvWarn (unready_warning (tp_data ty))] w).
Proof.
  intros Hnone Htp Hty Hi Hwf Hacc Hr Hc.
  rewrite (nb_type_get_bridged env cpp_type src flags cleanup w tp ty i) by done.
  by rewrite Hacc, Hr, Hc.
Qed.

Lemma nb_type_get_unready_refused_witness :
  nb_type_get env0 point_info 4096 1 (Some {| cleanup_self := 0 |}) world_unready =
    Ok None (traced [EvWarn (unready_warning (tp_data point_type))] world_unready).
Proof.
  apply (nb_type_get_unready_refused env0 point_info 4096 1 (Some {| cleanup_self := 0 |})
           world_unready 1000 point_type
           (default nb_inst_zero (insts world_unready !! 4096))).
  - cbn. lia.
  - reflexivity.
  - reflexivity.
  - reflexivity.
  - unfold registry_wf. refine (bool_decide_unpack _ _). vm_compute. exact I.
  - reflexivity.
  - reflexivity.
  - reflexivity.
Defined.

(** *** [nb_type_put_p] *)

Lemma type_info_ptr_eq_refl t : type_info_ptr_eq t t = true.
Proof. unfold type_info_ptr_eq. apply Z.eqb_refl. Qed.

Lemma bind_result_map {A B C} (f : A → B) (c : M A) (k : B → M C) (k' : A → M C) w :
  (∀ a w1, k (f a) w1 = k' a w1) →
  match result_map f (c w) with
  | Ok b w1 => k b w1
  | Fatal msg w1 => Fatal msg w1
  | Thrown e w1 => Thrown e w1
  | Undefined => Undefined
  end = bind c k' w.
Proof. intros H. unfold bind. destruct (c w); cbn; auto. Qed.

Lemma lookup_type_p_same cpp_type td w :
  lookup_type_p cpp_type (Some cpp_type) td 0 w =
  result_map (fun r => (r.1, (r.2, 0))) (lookup_type cpp_type td w).
Proof.
  unfold lookup_type_p, lookup_type.
  destruct (negb (td =? 0)); [done|].
  unfold bind, get. destruct (type_c2p w !! type_index cpp_type); [|done].
  by rewrite type_info_ptr_eq_refl.
Qed.

Lemma bind_Undefined {A B} (c : M A) (k : A → M B) w :
  c w = Undefined → bind c k w = Undefined.
Proof. unfold bind. by intros ->. Qed.

Lemma Py_TYPE_run o w :
  Py_TYPE o w = match ob_type w !! o with Some tp => Ok tp w | None => Undefined end.
Proof. done. Qed.

Lemma nb_type_data_run tp w :
  nb_type_data tp w =
  match types w !! tp with Some ty => Ok (tp_data ty) w | None => Undefined end.
Proof. unfold nb_type_data, nb_type_obj, bind, ret. by destruct (types w !! tp). Qed.

Lemma put_p_scan_same env cpp_type seq :
  ∀ td w,
    nb_type_put_p_scan env cpp_type (Some cpp_type) td 0 seq w =
    result_map scan_p_of (nb_type_put_scan env cpp_type td seq w).
Proof.
  induction seq as [|inst next IH]; intros td w; [done|].
  cbn [nb_type_put_p_scan nb_type_put_scan].
  destruct (ob_type w !! inst) as [tp|] eqn:Htp.
  2:{ rewrite !bind_Undefined by (by rewrite Py_TYPE_run, Htp). done. }
  rewrite !(bind_Ok_eq _ _ w tp w) by (by rewrite Py_TYPE_run, Htp).
  destruct (types w !! tp) as [ty|] eqn:Hty.
  2:{ rewrite !bind_Undefined by (by rewrite nb_type_data_run, Hty). done. }
  rewrite !(bind_Ok_eq _ _ w (tp_data ty) w) by (by rewrite nb_type_data_run, Hty).
  cbv zeta. cbn [type_info_ptr_eq_opt]. rewrite orb_diag.
  destruct (type_info_ptr_eq (t_type (tp_data ty)) cpp_type); [done|].
  assert (Hl : ∃ b td', lookup_type cpp_type td w = Ok (b, td') w).
  { unfold lookup_type. destruct (negb (td =? 0)); [by eexists _, _|].
    unfold bind, get. destruct (type_c2p w !! type_index cpp_type); by eexists _, _. }
  destruct Hl as (b & td' & Hl).
  rewrite (bind_Ok_eq _ _ w (b, (td', 0)) w) by (by rewrite lookup_type_p_same, Hl).
  rewrite (bind_Ok_eq _ _ w (b, td') w) by done.
  cbn [fst snd]. destruct b; [|done]. cbn [negb].
  destruct (types w !! td') as [ty_d|] eqn:Hty_d.
  2:{ rewrite !bind_Undefined by (by rewrite nb_type_data_run, Hty_d). done. }
  rewrite !(bind_Ok_eq _ _ w (tp_data ty_d) w) by (by rewrite nb_type_data_run, Hty_d).
  cbn [Z.eqb negb].
  destruct (PyType_IsSubtype env tp (t_type_py (tp_data ty_d))).
  - unfold bind at 1, ret at 1. done.
  - unfold bind at 1, ret at 1.
    destruct next as [|x next']; [done|]. apply IH.
Qed.

(** Property X6: [nb_type_put_p] with the dynamic type equal to the static one is
    [nb_type_put], and so for the unique-ownership variants: the same
    answer, the same calls and the same world on every input. *)
Theorem nb_type_put_p_same_type env cpp_type value rvp cleanup cpp_delete_arg w :
  nb_type_put_p env cpp_type (Some cpp_type) value rvp cleanup w =
    nb_type_put env cpp_type value rvp cleanup w ∧
  nb_type_put_unique_p env cpp_type (Some cpp_type) value cleanup cpp_delete_arg w =
    nb_type_put_unique env cpp_type value cleanup cpp_delete_arg w.
Proof.
  assert (Hput : ∀ rvp w,
    nb_type_put_p env cpp_type (Some cpp_type) value rvp cleanup w =
    nb_type_put env cpp_type value rvp cleanup w).
  { clear. intros rvp w. unfold nb_type_put_p, nb_type_put.
    destruct (value =? 0); [done|].
    assert (Htail : ∀ s w1,
      match scan_p_of s with
      | scan_p_return o => ret (o, false)
      | scan_p_null => ret (0, false)
      | scan_p_break td td_p =>
          let* looked := lookup_type_p cpp_type (Some cpp_type) td td_p in
          if negb looked.1 then ret (0, false)
          else nb_type_put_common env value
                 (if negb (looked.2.2 =? 0) then looked.2.2 else looked.2.1) rvp cleanup
      end w1 =
      match s with
      | scan_return o => ret (o, false)
      | scan_null => ret (0, false)
      | scan_break td =>
          let* looked := lookup_type cpp_type td in
          if negb looked.1 then ret (0, false)
          else nb_type_put_common env value looked.2 rvp cleanup
      end w1).
    { intros [o| |td] w1; cbn [scan_p_of]; [done|done|].
      unfold bind. rewrite lookup_type_p_same.
      destruct (lookup_type cpp_type td w1) as [[b td'] w2| | |]; cbn; [|done..].
      by destruct b. }
    unfold bind at 1. unfold bind at 3.
    destruct (negb (bool_decide (rvp = rvp_copy))).
    - unfold bind at 1, get at 1. unfold bind at 2, get at 1.
      destruct (inst_c2p w !! value) as [entry|].
      + rewrite put_p_scan_same.
        destruct (nb_type_put_scan env cpp_type 0 (c2p_insts entry) w) as [s w1| | |];
          cbn [result_map]; [|done..].
        apply Htail.
      + destruct (bool_decide (rvp = rvp_none)); [done|]. apply (Htail (scan_break 0)).
    - apply (Htail (scan_break 0)). }
  split; [apply Hput|].
  unfold nb_type_put_unique_p, nb_type_put_unique. cbv zeta.
  unfold bind at 1. unfold bind at 3. by rewrite Hput.
Qed.

(** Property X7: the wrapper that [nb_type_put_p] makes for an address without wrapper
    has the most derived registered type: the type registered for the
    dynamic type [cpp_type_p] when there is one, the type registered for the
    static type [cpp_type] otherwise.  The static type has to be registered
    in both cases: without it the answer is null and nothing is made, even
    when the dynamic type is registered. *)
Theorem nb_type_put_p_dynamic env cpp_type cpp_type_p value rvp cleanup w :
  value ≠ 0 → inst_c2p w !! value = None → rvp ≠ rvp_none →
  type_info_ptr_eq cpp_type_p cpp_type = false →
  map_Forall (fun _ td => td ≠ 0) (type_c2p w) →
  nb_type_put_p env cpp_type (Some cpp_type_p) value rvp cleanup w =
    match type_c2p w !! type_index cpp_type with
    | None => Ok (0, false) w
    | Some td =>
        nb_type_put_common env value
          (default td (type_c2p w !! type_index cpp_type_p)) rvp cleanup w
    end.
Proof.
  intros Hv Hfresh Hnone Hne Hnz. unfold nb_type_put_p.
  destruct (Z.eqb_spec value 0); [done|].
  assert (Hscan :
    (if negb (bool_decide (rvp = rvp_copy))
     then let* w0 := get in
          match inst_c2p w0 !! value with
          | Some entry => nb_type_put_p_scan env cpp_type (Some cpp_type_p) 0 0 (c2p_insts entry)
          | None => if bool_decide (rvp = rvp_none) then ret scan_p_null
                    else ret (scan_p_break 0 0)
          end
     else ret (scan_p_break 0 0)) w = Ok (scan_p_break 0 0) w).
  { destruct (negb (bool_decide (rvp = rvp_copy))); [|done].
    unfold bind, get. rewrite Hfresh. by rewrite bool_decide_eq_false_2. }
  rewrite (bind_Ok_eq _ _ _ _ _ Hscan). cbv beta iota.
  unfold lookup_type_p. cbn [Z.eqb negb]. unfold bind at 1, bind at 1, get at 1.
  destruct (type_c2p w !! type_index cpp_type) as [td|] eqn:Htd; [|done].
  rewrite Hne. cbn [negb].
  destruct (type_c2p w !! type_index cpp_type_p) as [td_p|] eqn:Htd_p;
    unfold ret at 1; cbn [fst snd negb default].
  - destruct (Z.eqb_spec td_p 0) as [->|_]; [by apply Hnz in Htd_p|]. done.
  - done.
Qed.

Lemma nb_type_put_p_dynamic_witness :
  nb_type_put_p env0 point_info (Some pod_info) 7000 rvp_reference None world0 =
    nb_type_put_common env0 7000 3000 rvp_reference None world0.
Proof.
  apply (nb_type_put_p_dynamic env0 point_info pod_info 7000 rvp_reference None world0).
  - lia.
  - reflexivity.
  - discriminate.
  - reflexivity.
  - refine (bool_decide_unpack _ _). vm_compute. exact I.
Defined.

(** *** Queries on types *)

Lemma inst_new_place_type gc align self0 value w r w' tp :
  inst_new_place gc align self0 value w = Ok r w' → r.1 ≠ 0 →
  ob_type w !! self0 = Some tp → is_Some (insts w !! self0) →
  ob_type w' !! r.1 = Some tp ∧ types w' = types w.
Proof.
  unfold inst_new_place, host_realloc, object_move, object_drop. intros H Hr Htp [i0 Hi0].
  munfold. mcases; cbn in *; rewrite ?lookup_insert_eq; eauto; try congruence.
  split; congruence.
Qed.

Lemma inst_new_impl_type tp value w self w' :
  inst_new_impl tp value w = Ok self w' → self ≠ 0 →
  ob_type w' !! self = Some tp ∧ is_Some (types w !! tp) ∧ types w' = types w.
Proof.
  intros H Hs. unfold inst_new_impl in H.
  apply bind_Ok_inv in H as (ty & wa & Hty & H).
  assert (wa = w ∧ is_Some (types w !! tp)) as [-> Htp].
  { clear - Hty. unfold nb_type_obj in Hty. destruct (types w !! tp); by simplify_eq. }
  apply bind_Ok_inv in H as (self0 & w1 & Halloc & H).
  destruct (Z.eqb_spec self0 0) as [->|Hs0].
  { apply ret_Ok_inv in H as [<- _]. done. }
  assert (Hty1 : types w1 = types w).
  { clear - Halloc Hs0. unfold inst_new_alloc, object_init in Halloc. munfold. mcases. }
  apply inst_new_alloc_Ok in Halloc as (rest & Ha & Ha' & Hi1 & Ht1 & Hp1 & Hc1); [|done].
  apply bind_Ok_inv in H as (r & w2 & Hplace & H).
  cbv zeta in H.
  destruct (Z.eqb_spec r.1 0) as [Hr0|Hr0].
  { apply ret_Ok_inv in H as [<- _]. done. }
  apply bind_Ok_inv in H as (u & w3 & Hemp & H).
  apply ret_Ok_inv in H as [<- <-].
  apply (inst_new_place_type _ _ _ _ _ _ _ tp) in Hplace as [Hob Hty2];
    [|done|by rewrite Ht1, lookup_insert_eq|by rewrite Hi1, lookup_insert_eq].
  apply inst_c2p_emplace_frame in Hemp as (_ & _ & Hob3 & Hty3 & _).
  split; [by rewrite Hob3|]. split; [done|]. congruence.
Qed.

(** Property X8: the wrapper that [nb_type_put] makes for an address without wrapper is
    an instance of the type it was made for: its host type is the one
    [nb_type_lookup] answers for [cpp_type], and [nb_type_isinstance]
    holds of it, under every policy. *)
Theorem nb_type_put_isinstance env cpp_type value rvp cleanup w o is_new w1 :
  value ≠ 0 → inst_c2p w !! value = None →
  (∀ a, PyType_IsSubtype env a a = true) →
  nb_type_put env cpp_type value rvp cleanup w = Ok (o, is_new) w1 → o ≠ 0 →
  ∃ tp,
    nb_type_lookup cpp_type w1 = Ok tp w1 ∧
    Py_TYPE o w1 = Ok tp w1 ∧
    nb_type_isinstance env o cpp_type w1 = Ok true w1 ∧
    nb_type_check tp w1 = Ok true w1.
Proof.
  intros Hv Hfresh Hrefl H Ho.
  apply put_fresh_address in H as (td & Htd & H); [|done..].
  destruct (put_common_type _ _ _ _ _ _ _ _ H Ho) as [ty Hty].
  pose proof (put_common_registry _ _ _ _ _ _ _ _ _ H Ho) as Hreg.
  destruct (put_common_wrapper env value td rvp cleanup w ty o is_new w1 Hty H Ho)
    as (w0 & _ & _ & Hnew & _ & _ & _ & _ & _ & _ & _ & _ & _ & _ & _ & Ht & Hob).
  apply inst_new_impl_type in Hnew as (Hobj & Htp & Ht0); [|done].
  assert (Hty1 : types w1 !! td = Some ty) by (by rewrite Ht, Ht0).
  exists (t_type_py (tp_data ty)).
  split; [|split; [|split]].
  - unfold nb_type_lookup, bind, get. rewrite Hreg, Htd.
    by rewrite nb_type_data_run, Hty1.
  - by rewrite Py_TYPE_run, Hob, Hobj.
  - unfold nb_type_isinstance. unfold bind at 1, get at 1. rewrite Hreg, Htd.
    rewrite (bind_Ok_eq _ _ w1 (t_type_py (tp_data ty)) w1)
      by (by rewrite Py_TYPE_run, Hob, Hobj).
    rewrite (bind_Ok_eq _ _ w1 (tp_data ty) w1) by (by rewrite nb_type_data_run, Hty1).
    by rewrite Hrefl.
  - unfold nb_type_check. rewrite bool_decide_eq_true_2; [done|].
    by rewrite Ht, Ht0.
Qed.

Lemma nb_type_put_isinstance_witness :
  ∃ tp,
    nb_type_lookup point_info world_owned = Ok tp world_owned ∧
    Py_TYPE 4096 world_owned = Ok tp world_owned ∧
    nb_type_isinstance env0 4096 point_info world_owned = Ok true world_owned ∧
    nb_type_check tp world_owned = Ok true world_owned.
Proof.
  apply (nb_type_put_isinstance env0 point_info 7000 rvp_take_ownership None world0
           4096 true world_owned).
  - lia.
  - reflexivity.
  - intros a. cbn. by rewrite Z.eqb_refl.
  - vm_compute. reflexivity.
  - lia.
Defined.

(** *** The low-level instance interface *)

Lemma events_since_traced evs w : events_since w (traced evs w) = evs.
Proof. unfold events_since, traced. cbn. by rewrite drop_app_length. Qed.

Lemma events_since_app w w' evs : trace w' = trace w ++ evs → events_since w w' = evs.
Proof. unfold events_since. intros ->. by rewrite drop_app_length. Qed.

Lemma filter_release_events f s :
  (∀ c, List.filter f (release_events c) = []) →
  List.filter f (flat_map release_events s) = [].
Proof.
  intros H. induction s as [|c s IH]; [done|].
  cbn [flat_map]. by rewrite List.filter_app, H, IH.
Qed.

(** The payload calls of a run of [inst_dealloc] that returns: the
    destructor exactly when [destruct] is set and the type has one, the
    release exactly when [cpp_delete] is set. *)
Lemma inst_dealloc_payload_calls env o w tp ty i p u w' :
  dealloc_ready w o tp ty i p →
  inst_dealloc env o w = Ok u w' →
  List.filter is_delete (events_since w w') = dealloc_delete_events env (tp_data ty) i p ∧
  List.filter is_destruct_call (events_since w w') = dealloc_destruct_events (tp_data ty) i p.
Proof.
  intros (Htp & Hty & Hi & Hp & Hwf & Hka) H.
  pose proof (inst_dealloc_outcome env o w tp ty i p Htp Hty Hi Hp Hwf Hka) as Hout.
  cbv zeta in Hout.
  destruct (destruct i && negb (has_flag (t_flags (tp_data ty)) is_destructible)) eqn:Hd;
    [congruence|].
  destruct (clear_keep_alive i && bool_decide (keep_alive_map w !! o = None)); [congruence|].
  destruct (bool_decide (c2p_count (inst_c2p w) p o = 0%nat)).
  { destruct Hout as (? & ? & _). congruence. }
  destruct Hout as (w'' & Hrun & Htrace & _).
  assert (w'' = w') as -> by congruence.
  rewrite (events_since_app _ _ _ Htrace).
  assert (Hrel : ∀ f, (∀ c, List.filter f (release_events c) = []) →
                 List.filter f (dealloc_keep_alive_events w i o) = []).
  { intros f Hf. unfold dealloc_keep_alive_events.
    destruct (clear_keep_alive i); [|done]. by apply filter_release_events. }
  rewrite !List.filter_app.
  assert (Hr1 : ∀ c, List.filter is_delete (release_events c) = []).
  { intros c. unfold release_events. destruct (negb (ws_callback c =? 0)); reflexivity. }
  assert (Hr2 : ∀ c, List.filter is_destruct_call (release_events c) = []).
  { intros c. unfold release_events. destruct (negb (ws_callback c =? 0)); reflexivity. }
  rewrite (Hrel _ Hr1), (Hrel _ Hr2).
  unfold dealloc_untrack_events, dealloc_dict_events, dealloc_destruct_events,
    dealloc_delete_events, dealloc_unlink_events, dealloc_free_events.
  split.
  - destruct (tp_have_gc ty), (has_flag (t_flags (tp_data ty)) has_dynamic_attr),
      (destruct i && has_flag (t_flags (tp_data ty)) has_destruct), (cpp_delete i),
      (t_align (tp_data ty) <=? default_new_alignment env);
      cbn; repeat case_match; done.
  - destruct (tp_have_gc ty), (has_flag (t_flags (tp_data ty)) has_dynamic_attr),
      (destruct i && has_flag (t_flags (tp_data ty)) has_destruct), (cpp_delete i),
      (t_align (tp_data ty) <=? default_new_alignment env);
      cbn; repeat case_match; done.
Qed.

Lemma inst_ptr_run o w i :
  insts w !! o = Some i →
  inst_ptr o w =
  (if direct i then Ok (to_uintptr (to_intptr o + offset i)) w
   else match ptr_mem w !! to_uintptr (to_intptr o + offset i) with
        | Some v => Ok v w
        | None => Undefined
        end).
Proof.
  intros Hi. unfold inst_ptr, bind, nb_inst_read. rewrite Hi. by destruct (direct i).
Qed.

(** Updating flags that are not part of the storage encoding keeps
    [inst_dealloc] applicable. *)
Lemma dealloc_ready_update w o tp ty i p i' evs :
  dealloc_ready w o tp ty i p →
  offset i' = offset i → direct i' = direct i →
  clear_keep_alive i' = clear_keep_alive i →
  dealloc_ready (set_insts (insert o i') (traced evs w)) o tp ty i' p.
Proof.
  intros (Htp & Hty & Hi & Hp & Hwf & Hka) Ho Hd Hc.
  split; [done|]. split; [done|]. split; [cbn; by rewrite lookup_insert_eq|].
  split; [|split; [done|by rewrite Hc]].
  rewrite (inst_ptr_run o w i) in Hp by done.
  rewrite (inst_ptr_run o _ i') by (cbn; by rewrite lookup_insert_eq).
  rewrite Ho, Hd. cbn [ptr_mem set_insts traced set_trace].
  destruct (direct i); [by simplify_eq|].
  destruct (ptr_mem w !! _); by simplify_eq.
Qed.

(** Property X9: state round trip, and what it means for the release of the payload.
    After [nb_inst_set_state o ready destruct], [nb_inst_state o] answers
    [(ready, destruct)], and a later [inst_dealloc] calls the destructor
    exactly when [destruct] was passed and the type has one, and releases
    the payload exactly when [destruct] was passed and the payload is not
    co-located: a payload inside the object is never passed to
    [operator delete]. *)
Theorem nb_inst_set_state_dealloc env o ready_arg destruct_arg w tp ty i p :
  dealloc_ready w o tp ty i p →
  ∃ w1,
    nb_inst_set_state o ready_arg destruct_arg w = Ok tt w1 ∧
    nb_inst_state o w1 = Ok (ready_arg, destruct_arg) w1 ∧
    inst_ptr o w1 = Ok p w1 ∧
    ∀ u w2, inst_dealloc env o w1 = Ok u w2 →
      List.filter is_destruct_call (events_since w1 w2) =
        (if destruct_arg && has_flag (t_flags (tp_data ty)) has_destruct
         then [EvDestruct (t_destruct (tp_data ty)) p] else []) ∧
      List.filter is_delete (events_since w1 w2) =
        (if destruct_arg && negb (internal i)
         then [ if t_align (tp_data ty) <=? default_new_alignment env then EvDelete p
                else EvDeleteAligned p (t_align (tp_data ty)) ]
         else []).
Proof.
  intros Hready. pose proof Hready as (Htp & Hty & Hi & Hp & Hwf & Hka).
  set (i' := set_cpp_delete (destruct_arg && negb (internal i))
               (set_destruct destruct_arg (set_ready ready_arg i))).
  pose proof (dealloc_ready_update w o tp ty i p i' [] Hready eq_refl eq_refl eq_refl)
    as Hready1.
  rewrite traced_nil in Hready1.
  exists (set_insts (insert o i') w).
  split; [unfold nb_inst_set_state, nb_inst_update; by rewrite Hi|].
  split; [unfold nb_inst_state, bind, nb_inst_read; cbn; by rewrite lookup_insert_eq|].
  split; [apply Hready1|].
  intros u w2 H.
  destruct (inst_dealloc_payload_calls env o _ tp ty i' p u w2 Hready1 H) as [Hdel Hdes].
  by rewrite Hdel, Hdes.
Qed.

Lemma nb_inst_set_state_dealloc_witness :
  ∃ w1,
    nb_inst_set_state 4096 true true (world_of (inst_new 1000 world0) world0) = Ok tt w1 ∧
    nb_inst_state 4096 w1 = Ok (true, true) w1 ∧
    inst_ptr 4096 w1 = Ok 4120 w1 ∧
    ∀ u w2, inst_dealloc env0 4096 w1 = Ok u w2 →
      List.filter is_destruct_call (events_since w1 w2) =
        (if true && has_flag (t_flags (tp_data point_type)) has_destruct
         then [EvDestruct (t_destruct (tp_data point_type)) 4120] else []) ∧
      List.filter is_delete (events_since w1 w2) =
        (if true && negb (internal (default nb_inst_zero
                            (insts (world_of (inst_new 1000 world0) world0) !! 4096)))
         then [ if t_align (tp_data point_type) <=? default_new_alignment env0
                then EvDelete 4120
                else EvDeleteAligned 4120 (t_align (tp_data point_type)) ]
         else []).
Proof.
  apply (nb_inst_set_state_dealloc env0 4096 true true
           (world_of (inst_new 1000 world0) world0) 1000 point_type
           (default nb_inst_zero (insts (world_of (inst_new 1000 world0) world0) !! 4096))
           4120).
  split; [reflexivity|]. split; [reflexivity|]. split; [reflexivity|].
  split; [vm_compute; reflexivity|]. split.
  - unfold c2p_wf. refine (bool_decide_unpack _ _). vm_compute. exact I.
  - intros H. discriminate H.
Defined.

Lemma nb_inst_destruct_run o w tp ty i p :
  ob_type w !! o = Some tp → types w !! tp = Some ty → insts w !! o = Some i →
  inst_ptr o w = Ok p w →
  nb_inst_destruct o w =
    if destruct i && negb (has_flag (t_flags (tp_data ty)) is_destructible)
    then Fatal (inst_destruct_msg (tp_data ty)) w
    else Ok tt (set_insts (insert o (set_ready false (set_destruct false i)))
                  (traced (dealloc_destruct_events (tp_data ty) i p) w)).
Proof.
  intros Htp Hty Hi Hp. unfold nb_inst_destruct.
  rewrite (bind_Ok_eq _ _ w i w) by (unfold nb_inst_read; by rewrite Hi).
  rewrite (bind_Ok_eq _ _ w tp w) by (by rewrite Py_TYPE_run, Htp).
  rewrite (bind_Ok_eq _ _ w (tp_data ty) w) by (by rewrite nb_type_data_run, Hty).
  unfold dealloc_destruct_events, inst_destruct_msg.
  destruct (destruct i) eqn:Hd; cbn [when andb].
  - destruct (has_flag (t_flags (tp_data ty)) is_destructible); cbn [negb check];
      [|done].
    destruct (has_flag (t_flags (tp_data ty)) has_destruct).
    + unfold bind at 1. unfold bind at 1. unfold ret at 1. unfold bind at 1.
      unfold bind at 1. rewrite Hp. unfold emit, nb_inst_update. cbn.
      rewrite Hi. cbn. rewrite lookup_insert_eq. f_equal.
      apply world_eq; cbn; try done. by rewrite insert_insert_eq.
    + unfold bind at 1. unfold bind at 1. unfold ret at 1. unfold bind at 1.
      unfold ret at 1. unfold nb_inst_update. rewrite Hi. cbn.
      rewrite lookup_insert_eq. f_equal.
      apply world_eq; cbn; try done; [by rewrite insert_insert_eq|by rewrite app_nil_r].
  - unfold bind at 1, ret at 1. unfold nb_inst_update. rewrite Hi. f_equal.
    apply world_eq; cbn; try done; [|by rewrite app_nil_r].
    f_equal. destruct i; cbn in *; by subst.
Qed.

(** Property X10: a destructor runs once.  [nb_inst_destruct] aborts, touching nothing,
    when the [destruct] flag is set for a type that is not destructible;
    otherwise it calls the destructor exactly when the flag is set and the
    type has one, and leaves the wrapper neither ready nor to be
    destructed: a second [nb_inst_destruct] changes nothing, and the
    [inst_dealloc] that follows calls no destructor. *)
Theorem nb_inst_destruct_once env o w tp ty i p :
  dealloc_ready w o tp ty i p →
  if destruct i && negb (has_flag (t_flags (tp_data ty)) is_destructible) then
    nb_inst_destruct o w = Fatal (inst_destruct_msg (tp_data ty)) w
  else
    ∃ w1,
      nb_inst_destruct o w = Ok tt w1 ∧
      events_since w w1 = dealloc_destruct_events (tp_data ty) i p ∧
      nb_inst_state o w1 = Ok (false, false) w1 ∧
      nb_inst_destruct o w1 = Ok tt w1 ∧
      ∀ u w2, inst_dealloc env o w1 = Ok u w2 →
        List.filter is_destruct_call (events_since w1 w2) = [].
Proof.
  intros Hready. pose proof Hready as (Htp & Hty & Hi & Hp & Hwf & Hka).
  rewrite (nb_inst_destruct_run o w tp ty i p) by done.
  destruct (destruct i && negb (has_flag (t_flags (tp_data ty)) is_destructible)); [done|].
  set (i1 := set_ready false (set_destruct false i)).
  set (evs := dealloc_destruct_events (tp_data ty) i p).
  pose proof (dealloc_ready_update w o tp ty i p i1 evs Hready eq_refl eq_refl eq_refl)
    as Hready1.
  set (w1 := set_insts (insert o i1) (traced evs w)) in *.
  exists w1. split; [done|].
  split; [apply events_since_app; by cbn|].
  split; [unfold nb_inst_state, bind, nb_inst_read; cbn; by rewrite lookup_insert_eq|].
  destruct Hready1 as (Htp1 & Hty1 & Hi1 & Hp1 & Hwf1 & Hka1).
  split.
  - rewrite (nb_inst_destruct_run o w1 tp ty i1 p) by done. cbn [destruct i1 set_ready andb].
    f_equal. apply world_eq; cbn; try done.
    + by rewrite insert_insert_eq.
    + by rewrite app_nil_r.
  - intros u w2 H.
    destruct (inst_dealloc_payload_calls env o w1 tp ty i1 p u w2) as [_ Hdes]; [done|done|].
    by rewrite Hdes.
Qed.

Lemma nb_inst_destruct_once_witness :
  ∃ w1,
    nb_inst_destruct 4096 world_owned = Ok tt w1 ∧
    events_since world_owned w1 =
      dealloc_destruct_events (tp_data point_type)
        (default nb_inst_zero (insts world_owned !! 4096)) 7000 ∧
    nb_inst_state 4096 w1 = Ok (false, false) w1 ∧
    nb_inst_destruct 4096 w1 = Ok tt w1 ∧
    ∀ u w2, inst_dealloc env0 4096 w1 = Ok u w2 →
      List.filter is_destruct_call (events_since w1 w2) = [].
Proof.
  assert (Hready : dealloc_ready world_owned 4096 1000 point_type
                     (default nb_inst_zero (insts world_owned !! 4096)) 7000).
  { split; [reflexivity|]. split; [reflexivity|]. split; [reflexivity|].
    split; [vm_compute; reflexivity|]. split.
    - unfold c2p_wf. refine (bool_decide_unpack _ _). vm_compute. exact I.
    - intros H. discriminate H. }
  exact (nb_inst_destruct_once env0 4096 world_owned 1000 point_type
           (default nb_inst_zero (insts world_owned !! 4096)) 7000 Hready).
Defined.

Lemma nb_inst_copy_run env dst src w tp ty tp_dst i p_src p_dst :
  ob_type w !! src = Some tp → types w !! tp = Some ty →
  ob_type w !! dst = Some tp_dst → insts w !! dst = Some i →
  inst_ptr src w = Ok p_src w → inst_ptr dst w = Ok p_dst w →
  native_throws env (t_copy (tp_data ty)) p_dst p_src = false →
  nb_inst_copy env dst src w =
    if (tp =? tp_dst) && has_flag (t_flags (tp_data ty)) is_copy_constructible
    then Ok tt (set_insts (insert dst (set_ready true (set_destruct true i)))
                  (traced (inst_copy_events (tp_data ty) p_dst p_src) w))
    else Fatal "nanobind::detail::nb_inst_copy(): invalid arguments!" w.
Proof.
  intros Htp Hty Htd Hi Hs Hd Hno. unfold nb_inst_copy.
  rewrite (bind_Ok_eq _ _ w tp w) by (by rewrite Py_TYPE_run, Htp).
  rewrite (bind_Ok_eq _ _ w (tp_data ty) w) by (by rewrite nb_type_data_run, Hty).
  rewrite (bind_Ok_eq _ _ w tp_dst w) by (by rewrite Py_TYPE_run, Htd).
  destruct ((tp =? tp_dst) && has_flag (t_flags (tp_data ty)) is_copy_constructible);
    cbn [check]; [|done].
  unfold bind at 1, ret at 1.
  rewrite (bind_Ok_eq _ _ w p_src w) by done.
  rewrite (bind_Ok_eq _ _ w p_dst w) by done.
  unfold inst_copy_events.
  destruct (has_flag (t_flags (tp_data ty)) has_copy).
  - rewrite Hno. unfold bind, emit, when, ret, nb_inst_update. cbn. by rewrite Hi.
  - unfold bind, emit, nb_inst_update. cbn. by rewrite Hi.
Qed.

Lemma nb_inst_move_run env dst src w tp ty tp_dst i p_src p_dst :
  ob_type w !! src = Some tp → types w !! tp = Some ty →
  ob_type w !! dst = Some tp_dst → insts w !! dst = Some i →
  inst_ptr src w = Ok p_src w → inst_ptr dst w = Ok p_dst w →
  native_throws env (t_move (tp_data ty)) p_dst p_src = false →
  nb_inst_move env dst src w =
    if (tp =? tp_dst) && has_flag (t_flags (tp_data ty)) is_move_constructible
    then Ok tt (set_insts (insert dst (set_ready true (set_destruct true i)))
                  (traced (inst_move_events (tp_data ty) p_dst p_src) w))
    else Fatal "nanobind::detail::nb_inst_move(): invalid arguments!" w.
Proof.
  intros Htp Hty Htd Hi Hs Hd Hno. unfold nb_inst_move.
  rewrite (bind_Ok_eq _ _ w tp w) by (by rewrite Py_TYPE_run, Htp).
  rewrite (bind_Ok_eq _ _ w (tp_data ty) w) by (by rewrite nb_type_data_run, Hty).
  rewrite (bind_Ok_eq _ _ w tp_dst w) by (by rewrite Py_TYPE_run, Htd).
  destruct ((tp =? tp_dst) && has_flag (t_flags (tp_data ty)) is_move_constructible);
    cbn [check]; [|done].
  unfold bind at 1, ret at 1.
  rewrite (bind_Ok_eq _ _ w p_src w) by done.
  rewrite (bind_Ok_eq _ _ w p_dst w) by done.
  unfold inst_move_events.
  destruct (has_flag (t_flags (tp_data ty)) has_move).
  - rewrite Hno. unfold bind, emit, when, ret, nb_inst_update. cbn. by rewrite Hi.
  - unfold bind, emit, nb_inst_update. cbn. rewrite Hi. f_equal.
    apply world_eq; cbn; try done. by rewrite <- app_assoc.
Qed.

(** Property X11: copying into a wrapper.  [nb_inst_copy dst src] aborts with the world
    untouched unless [dst] and [src] have the same host type and the type is
    copy-constructible.  Otherwise it copies the payload of [src] to the
    payload of [dst] with one call (the copy constructor if the type has
    one, [memcpy] of the size of the type if not) and makes [dst] ready and
    to be destructed; the storage and the [cpp_delete] flag of [dst] stay,
    and [src] stays as it was.  The [inst_dealloc] of [dst] that follows
    destructs the copy if the type has a destructor, and releases the
    payload as [cpp_delete] told before the copy. *)
Theorem nb_inst_copy_then_dealloc env dst src w tp ty i p_dst i_src p_src :
  dealloc_ready w dst tp ty i p_dst →
  dst ≠ src → insts w !! src = Some i_src → inst_ptr src w = Ok p_src w →
  ∀ tp_src ty_src,
  ob_type w !! src = Some tp_src → types w !! tp_src = Some ty_src →
  native_throws env (t_copy (tp_data ty_src)) p_dst p_src = false →
  if (tp_src =? tp) && has_flag (t_flags (tp_data ty_src)) is_copy_constructible then
    ∃ w1,
      nb_inst_copy env dst src w = Ok tt w1 ∧
      events_since w w1 = inst_copy_events (tp_data ty) p_dst p_src ∧
      nb_inst_state dst w1 = Ok (true, true) w1 ∧
      inst_ptr dst w1 = Ok p_dst w1 ∧
      insts w1 !! src = Some i_src ∧
      ∀ u w2, inst_dealloc env dst w1 = Ok u w2 →
        List.filter is_destruct_call (events_since w1 w2) =
          (if has_flag (t_flags (tp_data ty)) has_destruct
           then [EvDestruct (t_destruct (tp_data ty)) p_dst] else []) ∧
        List.filter is_delete (events_since w1 w2) =
          dealloc_delete_events env (tp_data ty) i p_dst
  else
    nb_inst_copy env dst src w =
      Fatal "nanobind::detail::nb_inst_copy(): invalid arguments!" w.
Proof.
  intros Hready Hne His Hps tp_src ty_src Hts Htys Hno.
  pose proof Hready as (Htp & Hty & Hi & Hp & Hwf & Hka).
  rewrite (nb_inst_copy_run env dst src w tp_src ty_src tp i p_src p_dst) by done.
  destruct (Z.eqb_spec tp_src tp) as [->|]; cbn [andb]; [|done].
  assert (ty_src = ty) as -> by congruence.
  destruct (has_flag (t_flags (tp_data ty)) is_copy_constructible); [|done].
  set (i1 := set_ready true (set_destruct true i)).
  set (evs := inst_copy_events (tp_data ty) p_dst p_src).
  pose proof (dealloc_ready_update w dst tp ty i p_dst i1 evs Hready eq_refl eq_refl eq_refl)
    as Hready1.
  set (w1 := set_insts (insert dst i1) (traced evs w)) in *.
  exists w1. split; [done|].
  split; [apply events_since_app; by cbn|].
  split; [unfold nb_inst_state, bind, nb_inst_read; cbn; by rewrite lookup_insert_eq|].
  split; [apply Hready1|].
  split; [cbn; by rewrite lookup_insert_ne|].
  intros u w2 H.
  destruct (inst_dealloc_payload_calls env dst w1 tp ty i1 p_dst u w2) as [Hdel Hdes];
    [done|done|].
  by rewrite Hdel, Hdes.
Qed.

(** Property X12: moving into a wrapper.  [nb_inst_move dst src] aborts with the world
    untouched unless [dst] and [src] have the same host type and the type is
    move-constructible.  Otherwise it moves the payload of [src] to the
    payload of [dst]: with the move constructor if the type has one, and
    else by copying the bytes and zeroing the source payload.  [dst] becomes
    ready and to be destructed; the wrapper [src] keeps all its flags, so
    that the [inst_dealloc] of [src] still treats the moved-from payload as
    its flags tell. *)
Theorem nb_inst_move_keeps_source env dst src w tp ty i p_src i_dst p_dst :
  dealloc_ready w src tp ty i p_src →
  dst ≠ src → insts w !! dst = Some i_dst → inst_ptr dst w = Ok p_dst w →
  ∀ tp_dst,
  ob_type w !! dst = Some tp_dst →
  native_throws env (t_move (tp_data ty)) p_dst p_src = false →
  if (tp =? tp_dst) && has_flag (t_flags (tp_data ty)) is_move_constructible then
    ∃ w1,
      nb_inst_move env dst src w = Ok tt w1 ∧
      events_since w w1 = inst_move_events (tp_data ty) p_dst p_src ∧
      nb_inst_state dst w1 = Ok (true, true) w1 ∧
      nb_inst_state src w1 = Ok (ready i, destruct i) w1 ∧
      ∀ u w2, inst_dealloc env src w1 = Ok u w2 →
        List.filter is_destruct_call (events_since w1 w2) =
          dealloc_destruct_events (tp_data ty) i p_src ∧
        List.filter is_delete (events_since w1 w2) =
          dealloc_delete_events env (tp_data ty) i p_src
  else
    nb_inst_move env dst src w =
      Fatal "nanobind::detail::nb_inst_move(): invalid arguments!" w.
Proof.
  intros Hready Hne Hid Hpd tp_dst Htd Hno.
  pose proof Hready as (Htp & Hty & Hi & Hp & Hwf & Hka).
  rewrite (nb_inst_move_run env dst src w tp ty tp_dst i_dst p_src p_dst) by done.
  destruct ((tp =? tp_dst) && has_flag (t_flags (tp_data ty)) is_move_constructible);
    [|done].
  set (i1 := set_ready true (set_destruct true i_dst)).
  set (evs := inst_move_events (tp_data ty) p_dst p_src).
  set (w1 := set_insts (insert dst i1) (traced evs w)).
  assert (His1 : insts w1 !! src = Some i) by (cbn; by rewrite lookup_insert_ne).
  assert (Hready1 : dealloc_ready w1 src tp ty i p_src).
  { split; [done|]. split; [done|]. split; [done|]. split; [|done].
    rewrite (inst_ptr_run src w i) in Hp by done.
    rewrite (inst_ptr_run src w1 i) by done. cbn [ptr_mem w1 set_insts traced set_trace].
    destruct (direct i); [by simplify_eq|].
    destruct (ptr_mem w !! _); by simplify_eq. }
  exists w1. split; [done|].
  split; [apply events_since_app; by cbn|].
  split; [unfold nb_inst_state, bind, nb_inst_read; cbn; by rewrite lookup_insert_eq|].
  split; [unfold nb_inst_state, bind, nb_inst_read; by rewrite His1|].
  intros u w2 H.
  destruct (inst_dealloc_payload_calls env src w1 tp ty i p_src u w2) as [Hdel Hdes];
    [done|done|].
  by rewrite Hdel, Hdes.
Qed.

Lemma nb_inst_copy_then_dealloc_witness :
  let i := default nb_inst_zero (insts world_pair !! 4200) in
  ∃ w1,
    nb_inst_copy env0 4200 4096 world_pair = Ok tt w1 ∧
    events_since world_pair w1 = inst_copy_events (tp_data point_type) 4224 7000 ∧
    nb_inst_state 4200 w1 = Ok (true, true) w1 ∧
    inst_ptr 4200 w1 = Ok 4224 w1 ∧
    insts w1 !! 4096 = Some (default nb_inst_zero (insts world_pair !! 4096)) ∧
    ∀ u w2, inst_dealloc env0 4200 w1 = Ok u w2 →
      List.filter is_destruct_call (events_since w1 w2) =
        (if has_flag (t_flags (tp_data point_type)) has_destruct
         then [EvDestruct (t_destruct (tp_data point_type)) 4224] else []) ∧
      List.filter is_delete (events_since w1 w2) =
        dealloc_delete_events env0 (tp_data point_type) i 4224.
Proof.
  assert (Hready : dealloc_ready world_pair 4200 1000 point_type
                     (default nb_inst_zero (insts world_pair !! 4200)) 4224).
  { split; [reflexivity|]. split; [reflexivity|]. split; [reflexivity|].
    split; [vm_compute; reflexivity|]. split.
    - unfold c2p_wf. refine (bool_decide_unpack _ _). vm_compute. exact I.
    - intros H. discriminate H. }
  assert (Hne : 4200 ≠ 4096) by lia.
  assert (Hptr : inst_ptr 4096 world_pair = Ok 7000 world_pair) by (vm_compute; reflexivity).
  exact (nb_inst_copy_then_dealloc env0 4200 4096 world_pair 1000 point_type
           (default nb_inst_zero (insts world_pair !! 4200)) 4224
           (default nb_inst_zero (insts world_pair !! 4096)) 7000
           Hready Hne eq_refl Hptr 1000 point_type eq_refl eq_refl eq_refl).
Defined.

Lemma nb_inst_move_keeps_source_witness :
  let i := default nb_inst_zero (insts world_pair !! 4096) in
  ∃ w1,
    nb_inst_move env0 4200 4096 world_pair = Ok tt w1 ∧
    events_since world_pair w1 = inst_move_events (tp_data point_type) 4224 7000 ∧
    nb_inst_state 4200 w1 = Ok (true, true) w1 ∧
    nb_inst_state 4096 w1 = Ok (ready i, destruct i) w1 ∧
    ∀ u w2, inst_dealloc env0 4096 w1 = Ok u w2 →
      List.filter is_destruct_call (events_since w1 w2) =
        dealloc_destruct_events (tp_data point_type) i 7000 ∧
      List.filter is_delete (events_since w1 w2) =
        dealloc_delete_events env0 (tp_data point_type) i 7000.
Proof.
  assert (Hready : dealloc_ready world_pair 4096 1000 point_type
                     (default nb_inst_zero (insts world_pair !! 4096)) 7000).
  { split; [reflexivity|]. split; [reflexivity|]. split; [reflexivity|].
    split; [vm_compute; reflexivity|]. split.
    - unfold c2p_wf. refine (bool_decide_unpack _ _). vm_compute. exact I.
    - intros H. discriminate H. }
  assert (Hne : 4200 ≠ 4096) by lia.
  assert (Hptr : inst_ptr 4200 world_pair = Ok 4224 world_pair) by (vm_compute; reflexivity).
  exact (nb_inst_move_keeps_source env0 4200 4096 world_pair 1000 point_type
           (default nb_inst_zero (insts world_pair !! 4096)) 7000
           (default nb_inst_zero (insts world_pair !! 4200)) 4224
           Hready Hne eq_refl Hptr 1000 eq_refl eq_refl).
Defined.

(** *** Keeping a patient alive for a nurse that is no wrapper *)

(** Property X13: for a nurse that is no wrapper of the bridge, [keep_alive] records
    nothing in the bridge: it leaks a weak reference to the nurse whose
    callback holds the patient.  When the weak reference cannot be made, the
    callback is dropped, the error is cleared and a [std::runtime_error] is
    raised, with the patient's reference count untouched.  Otherwise the
    patient gets one reference, and [keep_alive_callback], called with the
    weak reference when the nurse dies, gives this one reference back (and
    drops the weak reference); called with anything but one weak reference
    it aborts. *)
Theorem keep_alive_foreign_nurse env nurse patient w tp :
  patient ≠ 0 → nurse ≠ 0 → nurse ≠ Py_None env → patient ≠ Py_None env →
  ob_type w !! nurse = Some tp → types w !! tp = None →
  cfunction_new env patient ≠ 0 →
  let callback := cfunction_new env patient in
  let weakref := weakref_new env nurse callback in
  (if weakref =? 0 then
     keep_alive env nurse patient w =
       Thrown (runtime_error keep_alive_weakref_msg)
         (traced [EvWeakref nurse patient; EvDecref callback; EvErrClear] w)
   else
     keep_alive env nurse patient w =
       Ok tt (traced [EvWeakref nurse patient; EvIncref patient; EvDecref callback] w)) ∧
  (∀ w', keep_alive_callback env patient 1 weakref true w' =
           Ok (Py_None env)
             (traced [EvDecref weakref; EvDecref patient; EvIncref (Py_None env)] w')) ∧
  (∀ nargs arg0 is_weakref w',
     (nargs =? 1) && is_weakref = false →
     keep_alive_callback env patient nargs arg0 is_weakref w' =
       Fatal "nanobind::detail::keep_alive_callback(): invalid input!" w').
Proof.
  intros Hp Hn Hnn Hpn Htp Hty Hcb callback weakref.
  split; [|split].
  - unfold keep_alive.
    destruct (Z.eqb_spec patient 0); [done|]. destruct (Z.eqb_spec nurse 0); [done|].
    destruct (Z.eqb_spec nurse (Py_None env)); [done|].
    destruct (Z.eqb_spec patient (Py_None env)); [done|]. cbn [orb].
    rewrite (bind_Ok_eq _ _ w tp w) by (by rewrite Py_TYPE_run, Htp).
    rewrite (bind_Ok_eq _ _ w false w).
    2:{ unfold nb_type_check. rewrite bool_decide_eq_false_2; [done|].
        rewrite Hty. by intros [? ?]. }
    fold callback. fold weakref.
    destruct (Z.eqb_spec callback 0); [done|].
    destruct (weakref =? 0); cbn.
    + unfold bind, emit, modify, throw, traced. cbn. f_equal.
      apply world_eq; cbn; try done. by rewrite <- !app_assoc.
    + unfold bind, emit, modify, traced. cbn. f_equal.
      apply world_eq; cbn; try done. by rewrite <- !app_assoc.
  - intros w'. unfold keep_alive_callback, bind, emit, modify, ret, traced. cbn. f_equal.
    apply world_eq; cbn; try done. by rewrite <- !app_assoc.
  - intros nargs arg0 is_weakref w' H. unfold keep_alive_callback. by rewrite H.
Qed.

Lemma keep_alive_foreign_nurse_witness :
  (keep_alive env0 9000 7000 world_foreign =
     Ok tt (traced [EvWeakref 9000 7000; EvIncref 7000; EvDecref (cfunction_new env0 7000)]
              world_foreign)) ∧
  (∀ w', keep_alive_callback env0 7000 1 (weakref_new env0 9000 (cfunction_new env0 7000))
           true w' =
         Ok (Py_None env0)
           (traced [EvDecref (weakref_new env0 9000 (cfunction_new env0 7000));
                    EvDecref 7000; EvIncref (Py_None env0)] w')) ∧
  (∀ nargs arg0 is_weakref w',
     (nargs =? 1) && is_weakref = false →
     keep_alive_callback env0 7000 nargs arg0 is_weakref w' =
       Fatal "nanobind::detail::keep_alive_callback(): invalid input!" w').
Proof.
  assert (H1 : 7000 ≠ 0) by lia.
  assert (H2 : 9000 ≠ 0) by lia.
  assert (H3 : 9000 ≠ Py_None env0) by (cbn; lia).
  assert (H4 : 7000 ≠ Py_None env0) by (cbn; lia).
  assert (H5 : cfunction_new env0 7000 ≠ 0) by (cbn; lia).
  exact (keep_alive_foreign_nurse env0 9000 7000 world_foreign 77
           H1 H2 H3 H4 eq_refl eq_refl H5).
Defined.

(** *** Ownership that leaves and comes back *)

Lemma relinquish_keep_run o w i :
  insts w !! o = Some i →
  nb_type_relinquish_ownership o false w =
    if ready i then Ok tt (set_insts (insert o (set_ready false i)) w)
    else Fatal relinquish_ready_msg w.
Proof.
  intros Hi. unfold nb_type_relinquish_ownership. munfold. rewrite Hi.
  destruct (ready i); [|done]. cbn. by rewrite Hi.
Qed.

(** Property X14: ownership round trip.  Let [o] be the ready wrapper that [nb_type_put]
    finds for the address [p] and the type [cpp_type].  After
    [nb_type_relinquish_ownership o cpp_delete] (which needs, for
    [cpp_delete = true], that [o] owns a payload outside the object) the
    wrapper is not ready; [nb_type_put_unique] for [p] with the same
    [cpp_delete] then answers [o] again and gives it back the flags it had:
    the world is the one before the two calls, with one more reference to
    [o]. *)
Theorem unique_ownership_round_trip env cpp_type td ty_dst p cleanup w o i cpp_delete_arg :
  p ≠ 0 → o ≠ 0 →
  type_c2p w !! type_index cpp_type = Some td → types w !! td = Some ty_dst →
  Forall (wrapper_live w) (wrappers_at w p) →
  List.find (wrapper_fits env w cpp_type (tp_data ty_dst)) (wrappers_at w p) = Some o →
  insts w !! o = Some i → ready i = true →
  (cpp_delete_arg = true → owns_external i = true) →
  ∃ w1 i1,
    nb_type_relinquish_ownership o cpp_delete_arg w = Ok tt w1 ∧
    insts w1 !! o = Some i1 ∧ ready i1 = false ∧
    nb_type_put_unique env cpp_type p cleanup cpp_delete_arg w1 =
      Ok o (traced [EvIncref o] w).
Proof.
  intros Hp Ho Hreg Hty Hlive Hfind Hi Hr Hown.
  set (i1 := if cpp_delete_arg
             then set_ready false (set_destruct false (set_cpp_delete false i))
             else set_ready false i).
  set (w1 := set_insts (insert o i1) w).
  exists w1, i1.
  split.
  { destruct cpp_delete_arg.
    - rewrite (relinquish_run o w i Hi), Hr, Hown; done.
    - by rewrite (relinquish_keep_run o w i Hi), Hr. }
  split; [cbn; by rewrite lookup_insert_eq|].
  split; [by destruct cpp_delete_arg|].
  unfold nb_type_put_unique. cbv zeta.
  rewrite (bind_Ok_eq _ _ w1 (o, false) (traced [EvIncref o] w1)).
  2:{ apply (nb_type_put_found env cpp_type td ty_dst); try done.
      by destruct cpp_delete_arg. }
  cbn [fst snd]. destruct (Z.eqb_spec o 0); [done|]. cbn [negb when].
  assert (Hfin : nb_type_put_unique_finalize o cpp_type cpp_delete_arg false
                   (traced [EvIncref o] w1) = Ok tt (traced [EvIncref o] w)).
  { unfold nb_type_put_unique_finalize.
    rewrite orb_true_r. cbn [check]. unfold bind at 1, ret at 1.
    rewrite (bind_Ok_eq _ _ _ i1 (traced [EvIncref o] w1))
      by (unfold nb_inst_read; cbn; by rewrite lookup_insert_eq).
    assert (Hown' : cpp_delete_arg = true →
                    cpp_delete i = true ∧ destruct i = true).
    { intros Hc. specialize (Hown Hc). unfold owns_external in Hown.
      apply andb_true_iff in Hown as [Hown _]. by apply andb_true_iff in Hown. }
    destruct cpp_delete_arg; subst i1; cbn [ready destruct cpp_delete set_ready
      set_destruct set_cpp_delete eqb andb negb check].
    - destruct (Hown' eq_refl) as [Hc Hd].
      unfold bind at 1, ret at 1. unfold nb_inst_update. cbn.
      rewrite lookup_insert_eq. f_equal.
      apply world_eq; cbn; try done.
      rewrite insert_insert_eq. apply insert_id. rewrite Hi. f_equal.
      destruct i; cbn in *; by subst.
    - unfold bind at 1, ret at 1. unfold nb_inst_update. cbn.
      rewrite lookup_insert_eq. f_equal.
      apply world_eq; cbn; try done.
      rewrite insert_insert_eq. apply insert_id. rewrite Hi. f_equal.
      destruct i; cbn in *; by subst. }
  unfold bind at 1. by rewrite Hfin.
Qed.

Lemma unique_ownership_round_trip_witness :
  ∃ w1 i1,
    nb_type_relinquish_ownership 4096 true world_owned = Ok tt w1 ∧
    insts w1 !! 4096 = Some i1 ∧ ready i1 = false ∧
    nb_type_put_unique env0 point_info 7000 None true w1 =
      Ok 4096 (traced [EvIncref 4096] world_owned).
Proof.
  assert (Hp : 7000 ≠ 0) by lia.
  assert (Ho : 4096 ≠ 0) by lia.
  assert (Hlive : Forall (wrapper_live world_owned) (wrappers_at world_owned 7000)).
  { apply Forall_singleton. exists 1000, point_type. split; reflexivity. }
  exact (unique_ownership_round_trip env0 point_info 1000 point_type 7000 None world_owned
           4096 (default nb_inst_zero (insts world_owned !! 4096)) true
           Hp Ho eq_refl eq_refl Hlive eq_refl eq_refl eq_refl (fun _ => eq_refl)).
Defined.

(** *** Types derived in Python, and the end of a type *)

Lemma testbit_one n : Z.testbit 1 n = bool_decide (n = 0).
Proof.
  destruct (Z.lt_trichotomy n 0) as [H|[->|H]].
  - rewrite Z.testbit_neg_r by done. by rewrite bool_decide_eq_false_2 by lia.
  - done.
  - rewrite (Z.bits_above_log2 1 n) by (cbn; lia). by rewrite bool_decide_eq_false_2 by lia.
Qed.

Lemma type_flag_mask_bit f :
  type_flag_mask f = Z.shiftl 1 (type_flag_bit f) ∧ 0 <= type_flag_bit f < 32.
Proof. by destruct f. Qed.

Lemma has_flag_testbit flags f : has_flag flags f = Z.testbit flags (type_flag_bit f).
Proof.
  unfold has_flag. destruct (type_flag_mask_bit f) as [-> [Hk _]].
  set (k := type_flag_bit f) in *.
  assert (Hbits : ∀ n, 0 <= n →
    Z.testbit (Z.land flags (Z.shiftl 1 k)) n = Z.testbit flags n && bool_decide (n = k)).
  { intros n Hn. rewrite Z.land_spec, Z.shiftl_spec, testbit_one by done.
    f_equal. apply bool_decide_ext. lia. }
  destruct (Z.testbit flags k) eqn:Hb.
  - destruct (Z.eqb_spec (Z.land flags (Z.shiftl 1 k)) 0) as [H0|]; [|done].
    specialize (Hbits k Hk). rewrite H0, Z.bits_0, Hb in Hbits.
    by rewrite bool_decide_eq_true_2 in Hbits.
  - replace (Z.land flags (Z.shiftl 1 k)) with 0; [done|].
    symmetry. apply Z.bits_inj'. intros n Hn. rewrite Hbits, Z.bits_0 by done.
    destruct (decide (n = k)) as [->|Hne].
    + by rewrite Hb.
    + by rewrite bool_decide_eq_false_2, andb_false_r.
Qed.

Lemma type_flag_bit_inj f g : type_flag_bit f = type_flag_bit g → f = g.
Proof. by destruct f, g. Qed.

Lemma has_flag_set flags f g :
  has_flag (Z.lor flags (type_flag_mask f)) g = has_flag flags g || bool_decide (g = f).
Proof.
  rewrite !has_flag_testbit, Z.lor_spec.
  destruct (type_flag_mask_bit f) as [-> _]. destruct (type_flag_mask_bit g) as [_ [Hg _]].
  rewrite Z.shiftl_spec, testbit_one by done. f_equal.
  apply bool_decide_ext. split.
  - intros H. apply type_flag_bit_inj. lia.
  - intros ->. lia.
Qed.

Lemma has_flag_clear flags f g :
  has_flag (clear_bits flags (type_flag_mask f)) g =
  has_flag flags g && negb (bool_decide (g = f)).
Proof.
  unfold clear_bits. rewrite !has_flag_testbit, Z.land_spec.
  destruct (type_flag_mask_bit f) as [-> _]. destruct (type_flag_mask_bit g) as [_ [Hg Hg']].
  rewrite Z.mod_pow2_bits_low by lia.
  rewrite Z.lnot_spec, Z.shiftl_spec, testbit_one by done. do 2 f_equal.
  apply bool_decide_ext. split.
  - intros H. apply type_flag_bit_inj. lia.
  - intros ->. lia.
Qed.

Lemma nb_type_init_run h self args kwds w name_o bases dict base ty_b ty_s :
  args = [name_o; bases; dict] →
  tuple_exact h bases = Some [base] → PyType_Check h base = true →
  types w !! base = Some ty_b → types w !! self = Some ty_s →
  PyType_tp_init h self args kwds = 0 →
  nb_type_init h self args kwds w =
    if has_flag (t_flags (tp_data ty_b)) is_final
    then Ok (slot_error PyExc_TypeError (final_type_msg (tp_data ty_b))) w
    else Ok slot_ok
           (traced [EvDecref (type_name_obj h self)]
              (set_types
                 (insert self
                    {| tp_have_gc := tp_have_gc ty_s;
                       tp_data := derived_type_data (tp_data ty_b) self
                                    (type_name_str h self) |}) w)).
Proof.
  intros -> Hb Hc Htb Hts Hrv. unfold nb_type_init. cbn [length Z.of_nat].
  change (negb (Z.of_nat 3 =? 3)) with false. cbv beta iota.
  change ([name_o; bases; dict] !! 1%nat) with (Some bases). cbv beta iota.
  rewrite Hb, Hc. cbn [negb].
  rewrite (bind_Ok_eq _ _ w (tp_data ty_b) w) by (by rewrite nb_type_data_run, Htb).
  destruct (has_flag (t_flags (tp_data ty_b)) is_final); [done|].
  rewrite Hrv. cbn [Z.eqb negb].
  rewrite (bind_Ok_eq _ _ w ty_s w) by (unfold nb_type_obj; by rewrite Hts).
  unfold bind, modify, emit, ret, traced. cbn. done.
Qed.

(** Property X15: subclassing a bound type in Python.  [nb_type_init] refuses a final
    base with a [TypeError] and changes nothing.  Otherwise the new type
    gets the record of its base, marked [is_python_type], without implicit
    conversions, with its own name and itself as host type, and it reports
    the size, the alignment and the native type of its base; the registry
    of native types is not touched.  Instances of the new type are reported as
    derived in Python, and [nb_type_get] accepts them for the native type of
    the base. *)
Theorem nb_type_init_derived env h self args kwds w name_o bases dict base ty_b ty_s :
  args = [name_o; bases; dict] →
  tuple_exact h bases = Some [base] → PyType_Check h base = true →
  types w !! base = Some ty_b → types w !! self = Some ty_s →
  PyType_tp_init h self args kwds = 0 →
  if has_flag (t_flags (tp_data ty_b)) is_final then
    nb_type_init h self args kwds w =
      Ok (slot_error PyExc_TypeError (final_type_msg (tp_data ty_b))) w
  else
    ∃ w1 t,
      nb_type_init h self args kwds w = Ok slot_ok w1 ∧
      type_c2p w1 = type_c2p w ∧ inst_c2p w1 = inst_c2p w ∧ insts w1 = insts w ∧
      (∀ tp, tp ≠ self → types w1 !! tp = types w !! tp) ∧
      nb_type_data self w1 = Ok t w1 ∧
      t_type t = t_type (tp_data ty_b) ∧ t_type_py t = self ∧
      t_name t = type_name_str h self ∧
      nb_type_size self w1 = Ok (t_size (tp_data ty_b)) w1 ∧
      nb_type_align self w1 = Ok (t_align (tp_data ty_b)) w1 ∧
      nb_type_info self w1 = Ok (t_type (tp_data ty_b)) w1 ∧
      t_implicit t = None ∧ t_implicit_py t = None ∧
      (∀ f, has_flag (t_flags t) f =
              (has_flag (t_flags (tp_data ty_b)) f || bool_decide (f = is_python_type)) &&
              negb (bool_decide (f = has_implicit_conversions))) ∧
      get_accepts env w1 (t_type (tp_data ty_b)) self t = true ∧
      (∀ o, ob_type w1 !! o = Some self → nb_inst_python_derived o w1 = Ok true w1).
Proof.
  intros Hargs Hb Hc Htb Hts Hrv.
  rewrite (nb_type_init_run h self args kwds w name_o bases dict base ty_b ty_s) by done.
  destruct (has_flag (t_flags (tp_data ty_b)) is_final); [done|].
  set (t := derived_type_data (tp_data ty_b) self (type_name_str h self)).
  set (w1 := traced _ _).
  assert (Ht : types w1 !! self = Some {| tp_have_gc := tp_have_gc ty_s; tp_data := t |})
    by (cbn; by rewrite lookup_insert_eq).
  assert (Hflags : ∀ f, has_flag (t_flags t) f =
            (has_flag (t_flags (tp_data ty_b)) f || bool_decide (f = is_python_type)) &&
            negb (bool_decide (f = has_implicit_conversions))).
  { intros f. cbn [t derived_type_data t_flags]. by rewrite has_flag_clear, has_flag_set. }
  exists w1, t.
  split; [done|]. split; [done|]. split; [done|]. split; [done|].
  split; [intros tp Hne; cbn; by rewrite lookup_insert_ne|].
  split; [by rewrite nb_type_data_run, Ht|].
  do 3 (split; [done|]).
  split; [unfold nb_type_size; by rewrite (bind_Ok_eq _ _ w1 t w1)
            by (by rewrite nb_type_data_run, Ht)|].
  split; [unfold nb_type_align; by rewrite (bind_Ok_eq _ _ w1 t w1)
            by (by rewrite nb_type_data_run, Ht)|].
  split; [unfold nb_type_info; by rewrite (bind_Ok_eq _ _ w1 t w1)
            by (by rewrite nb_type_data_run, Ht)|].
  do 2 (split; [done|]). split; [exact Hflags|].
  split; [unfold get_accepts; subst t; cbn [derived_type_data t_type];
          by rewrite type_info_ptr_eq_refl|].
  intros o Ho. unfold nb_inst_python_derived.
  rewrite (bind_Ok_eq _ _ w1 self w1) by (by rewrite Py_TYPE_run, Ho).
  rewrite (bind_Ok_eq _ _ w1 t w1) by (by rewrite nb_type_data_run, Ht).
  by rewrite Hflags, bool_decide_eq_true_2, orb_true_r.
Qed.

Lemma nb_type_init_derived_witness :
  ∃ w1 t,
    nb_type_init host0 2000 [4898; 4900; 4899] 0 world0 = Ok slot_ok w1 ∧
    type_c2p w1 = type_c2p world0 ∧ inst_c2p w1 = inst_c2p world0 ∧
    insts w1 = insts world0 ∧
    (∀ tp, tp ≠ 2000 → types w1 !! tp = types world0 !! tp) ∧
    nb_type_data 2000 w1 = Ok t w1 ∧
    t_type t = t_type (tp_data point_type) ∧ t_type_py t = 2000 ∧
    t_name t = type_name_str host0 2000 ∧
    nb_type_size 2000 w1 = Ok (t_size (tp_data point_type)) w1 ∧
    nb_type_align 2000 w1 = Ok (t_align (tp_data point_type)) w1 ∧
    nb_type_info 2000 w1 = Ok (t_type (tp_data point_type)) w1 ∧
    t_implicit t = None ∧ t_implicit_py t = None ∧
    (∀ f, has_flag (t_flags t) f =
            (has_flag (t_flags (tp_data point_type)) f || bool_decide (f = is_python_type)) &&
            negb (bool_decide (f = has_implicit_conversions))) ∧
    get_accepts env0 w1 (t_type (tp_data point_type)) 2000 t = true ∧
    (∀ o, ob_type w1 !! o = Some 2000 → nb_inst_python_derived o w1 = Ok true w1).
Proof.
  exact (nb_type_init_derived env0 host0 2000 [4898; 4900; 4899] 0 world0
           4898 4900 4899 1000 point_type point_subtype
           eq_refl eq_refl eq_refl eq_refl eq_refl eq_refl).
Defined.

Lemma nb_type_dealloc_run o w ty :
  types w !! o = Some ty →
  nb_type_dealloc o w =
    let t := tp_data ty in
    let rel := (if has_flag (t_flags t) has_implicit_conversions
                then [release_implicit; release_implicit_py] else [])
               ++ [release_name; release_type o] in
    if is_bound_type t then
      match type_c2p w !! type_index (t_type t) with
      | Some _ =>
          Ok rel (set_types (delete o) (set_type_c2p (delete (type_index (t_type t))) w))
      | None => Fatal (type_dealloc_msg t) w
      end
    else Ok rel (set_types (delete o) w).
Proof.
  intros Hty. unfold nb_type_dealloc.
  rewrite (bind_Ok_eq _ _ w (tp_data ty) w) by (by rewrite nb_type_data_run, Hty).
  cbv zeta. unfold is_bound_type, type_dealloc_msg.
  destruct (negb (ti_addr (t_type (tp_data ty)) =? 0) &&
            negb (has_flag (t_flags (tp_data ty)) is_python_type)).
  - unfold bind at 1. unfold bind at 1, get at 1.
    destruct (type_c2p w !! type_index (t_type (tp_data ty))) as [d|].
    + rewrite bool_decide_eq_true_2 by eauto. done.
    + rewrite bool_decide_eq_false_2 by (by intros [? ?]). done.
  - done.
Qed.

(** Property X16: the end of a type.  When a bound native type is deallocated, its entry
    leaves the registry, so that [nb_type_lookup] answers null for it and
    [nb_type_put] makes no wrapper of it any more; when the registry has no
    entry for it, [nb_type_dealloc] aborts.  When a type derived in Python
    is deallocated, the registry is not touched.  In both cases the
    conversion tables are released exactly when the type has
    [has_implicit_conversions], then the name and the type object. *)
Theorem nb_type_dealloc_registry env o w ty :
  types w !! o = Some ty →
  let t := tp_data ty in
  let rel := (if has_flag (t_flags t) has_implicit_conversions
              then [release_implicit; release_implicit_py] else [])
             ++ [release_name; release_type o] in
  if is_bound_type t then
    match type_c2p w !! type_index (t_type t) with
    | Some _ =>
        ∃ w1,
          nb_type_dealloc o w = Ok rel w1 ∧
          type_c2p w1 = delete (type_index (t_type t)) (type_c2p w) ∧
          types w1 = delete o (types w) ∧
          nb_type_lookup (t_type t) w1 = Ok 0 w1 ∧
          ∀ value rvp cleanup,
            value ≠ 0 → inst_c2p w !! value = None →
            nb_type_put env (t_type t) value rvp cleanup w1 = Ok (0, false) w1
    | None => nb_type_dealloc o w = Fatal (type_dealloc_msg t) w
    end
  else
    ∃ w1,
      nb_type_dealloc o w = Ok rel w1 ∧
      type_c2p w1 = type_c2p w ∧ types w1 = delete o (types w).
Proof.
  intros Hty t rel. rewrite (nb_type_dealloc_run o w ty Hty). cbv zeta. fold t. fold rel.
  destruct (is_bound_type t).
  - destruct (type_c2p w !! type_index (t_type t)) as [d|]; [|done].
    eexists. split; [done|]. split; [done|]. split; [done|]. split.
    + unfold nb_type_lookup, bind, get. cbn. by rewrite lookup_delete_eq.
    + intros value rvp cleanup Hv Hfresh. unfold nb_type_put.
      destruct (Z.eqb_spec value 0); [done|].
      unfold lookup_type. cbn [Z.eqb negb]. unfold bind, get.
      destruct (bool_decide (rvp = rvp_copy)); cbn.
      * by rewrite lookup_delete_eq.
      * rewrite Hfresh.
        destruct (bool_decide (rvp = rvp_none)); cbn; [done|].
        by rewrite lookup_delete_eq.
  - eexists. done.
Qed.

Lemma nb_type_dealloc_registry_witness :
  ∃ w1,
    nb_type_dealloc 1000 world0 = Ok [release_name; release_type 1000] w1 ∧
    type_c2p w1 = delete (type_index (t_type (tp_data point_type))) (type_c2p world0) ∧
    types w1 = delete 1000 (types world0) ∧
    nb_type_lookup (t_type (tp_data point_type)) w1 = Ok 0 w1 ∧
    ∀ value rvp cleanup,
      value ≠ 0 → inst_c2p world0 !! value = None →
      nb_type_put env0 (t_type (tp_data point_type)) value rvp cleanup w1 = Ok (0, false) w1.
Proof.
  exact (nb_type_dealloc_registry env0 1000 world0 point_type eq_refl).
Defined.

(** Property X17: a type derived in Python comes and goes without a trace in the
    registry: after [nb_type_init] and the [nb_type_dealloc] of the derived
    type, the registry and the other types are as they were, and the
    conversion tables of the base, which the derived record never pointed
    to, are not released. *)
Theorem python_subclass_lifecycle h self args kwds w name_o bases dict base ty_b ty_s :
  args = [name_o; bases; dict] →
  tuple_exact h bases = Some [base] → PyType_Check h base = true →
  types w !! base = Some ty_b → types w !! self = Some ty_s →
  PyType_tp_init h self args kwds = 0 →
  has_flag (t_flags (tp_data ty_b)) is_final = false →
  ∃ w1 w2,
    nb_type_init h self args kwds w = Ok slot_ok w1 ∧
    nb_type_dealloc self w1 = Ok [release_name; release_type self] w2 ∧
    type_c2p w2 = type_c2p w ∧
    types w2 = delete self (types w) ∧
    inst_c2p w2 = inst_c2p w ∧ insts w2 = insts w.
Proof.
  intros Hargs Hb Hc Htb Hts Hrv Hfinal.
  rewrite (nb_type_init_run h self args kwds w name_o bases dict base ty_b ty_s) by done.
  rewrite Hfinal.
  set (t := derived_type_data (tp_data ty_b) self (type_name_str h self)).
  set (w1 := traced _ _).
  assert (Ht : types w1 !! self = Some {| tp_have_gc := tp_have_gc ty_s; tp_data := t |})
    by (cbn; by rewrite lookup_insert_eq).
  exists w1. rewrite (nb_type_dealloc_run self w1 _ Ht). cbv zeta. cbn [tp_data].
  assert (Hpy : has_flag (t_flags t) is_python_type = true).
  { subst t. cbn [derived_type_data t_flags]. rewrite has_flag_clear, has_flag_set.
    by rewrite bool_decide_eq_true_2, orb_true_r. }
  assert (Him : has_flag (t_flags t) has_implicit_conversions = false).
  { subst t. cbn [derived_type_data t_flags]. rewrite has_flag_clear.
    by rewrite bool_decide_eq_true_2, andb_false_r. }
  unfold is_bound_type. rewrite Hpy, Him, andb_false_r. cbn [app].
  eexists. split; [done|]. split; [done|]. split; [done|].
  split; [cbn; by rewrite delete_insert_eq|]. done.
Qed.

Lemma python_subclass_lifecycle_witness :
  ∃ w1 w2,
    nb_type_init host0 2000 [4898; 4900; 4899] 0 world0 = Ok slot_ok w1 ∧
    nb_type_dealloc 2000 w1 = Ok [release_name; release_type 2000] w2 ∧
    type_c2p w2 = type_c2p world0 ∧
    types w2 = delete 2000 (types world0) ∧
    inst_c2p w2 = inst_c2p world0 ∧ insts w2 = insts world0.
Proof.
  exact (python_subclass_lifecycle host0 2000 [4898; 4900; 4899] 0 world0
           4898 4900 4899 1000 point_type point_subtype
           eq_refl eq_refl eq_refl eq_refl eq_refl eq_refl eq_refl).
Defined.

(** *** Out of memory *)

(** Property X18: when [inst_new_impl] answers null, nothing of the failed attempt is
    left: no wrapper, no object, no entry of the identity map and no stored
    pointer.  In particular the object that could not be enlarged for an
    indirect payload pointer is freed again.  The last call is
    [PyErr_NoMemory], and the type is not one of the collector's (for which
    the allocation is not tested).  Conversely, with the allocator out of
    memory, [inst_new_impl] for such a type answers null. *)
Theorem inst_new_impl_no_memory tp ty value w :
  types w !! tp = Some ty → allocs_fresh w →
  (∀ w', inst_new_impl tp value w = Ok 0 w' →
     tp_have_gc ty = false ∧
     inst_c2p w' = inst_c2p w ∧ insts w' = insts w ∧ ob_type w' = ob_type w ∧
     ptr_mem w' = ptr_mem w ∧ types w' = types w ∧
     last (trace w') = Some EvNoMemory) ∧
  (allocs w = [] → tp_have_gc ty = false →
   ∃ w', inst_new_impl tp value w = Ok 0 w').
Proof.
  intros Hty Hfresh. split.
  - intros w' H. unfold inst_new_impl in H.
    rewrite (bind_Ok_eq _ _ w ty w) in H by (unfold nb_type_obj; by rewrite Hty).
    cbv zeta in H.
    apply bind_Ok_inv in H as (self0 & w1 & Halloc & H).
    destruct (Z.eqb_spec self0 0) as [->|Hs0].
    + apply ret_Ok_inv in H as [_ <-].
      unfold inst_new_alloc in Halloc.
      destruct (tp_have_gc ty); cbn [negb] in Halloc.
      * unfold PyType_GenericAlloc, object_init in Halloc. munfold. mcases.
      * unfold host_alloc, object_init in Halloc. munfold.
        mcases; cbn; rewrite ?last_snoc; done.
    + pose proof Halloc as Halloc'.
      apply inst_new_alloc_Ok in Halloc as (rest & Ha & Ha' & Hi1 & Ht1 & Hp1 & Hc1); [|done].
      assert (Hty1 : types w1 = types w).
      { clear - Halloc' Hs0. unfold inst_new_alloc, object_init in Halloc'. munfold. mcases. }
      unfold allocs_fresh in Hfresh. rewrite Ha in Hfresh.
      apply Forall_cons in Hfresh as [[Hfi Hfo] _].
      apply bind_Ok_inv in H as (r & w2 & Hplace & H).
      destruct (Z.eqb_spec r.1 0) as [Hr0|Hr0].
      2:{ apply bind_Ok_inv in H as (u & w3 & _ & H). apply ret_Ok_inv in H as [Hr _]. done. }
      apply ret_Ok_inv in H as [_ <-].
      unfold inst_new_place in Hplace.
      destruct (value =? 0).
      { destruct (_ =? 0); [done|]. unfold nb_inst_update in Hplace.
        unfold bind in Hplace. destruct (insts w1 !! self0); [|done].
        apply ret_Ok_inv in Hplace as [<- _]. done. }
      destruct (_ =? _).
      { unfold nb_inst_update in Hplace.
        unfold bind in Hplace. destruct (insts w1 !! self0); [|done].
        apply ret_Ok_inv in Hplace as [<- _]. done. }
      destruct (tp_have_gc ty); cbn [negb] in Hplace.
      { unfold bind at 1, ret at 1 in Hplace.
        destruct (Z.eqb_spec self0 0); [done|].
        unfold nb_inst_update in Hplace. unfold bind, modify in Hplace. cbn in Hplace.
        destruct (insts w1 !! self0); [|done].
        apply ret_Ok_inv in Hplace as [<- _]. done. }
      split; [done|].
      unfold host_realloc, object_move, object_drop in Hplace. munfold.
      revert Hplace. mcases; intros; simplify_eq; cbn in *;
        try match goal with
            | H : (?a =? 0) = false, H' : ?a = 0 |- _ => rewrite H' in H; discriminate H
            end;
        rewrite ?Hi1, ?Ht1, ?Hp1, ?Hc1, ?Hty1, ?last_snoc, ?delete_insert_id; try done.
  - intros Ha Hgc. unfold inst_new_impl.
    rewrite (bind_Ok_eq _ _ w ty w) by (unfold nb_type_obj; by rewrite Hty).
    cbv zeta. unfold inst_new_alloc. rewrite Hgc. cbn [negb].
    unfold host_alloc. unfold bind at 1. unfold bind at 1. rewrite Ha.
    cbn. eexists. unfold bind, emit, modify, ret. reflexivity.
Qed.

Lemma inst_new_impl_no_memory_witness :
  (∀ w', inst_new_impl 1000 7000 world_no_memory = Ok 0 w' →
     tp_have_gc point_type = false ∧
     inst_c2p w' = inst_c2p world_no_memory ∧ insts w' = insts world_no_memory ∧
     ob_type w' = ob_type world_no_memory ∧
     ptr_mem w' = ptr_mem world_no_memory ∧ types w' = types world_no_memory ∧
     last (trace w') = Some EvNoMemory) ∧
  ∃ w', inst_new_impl 1000 7000 world_no_memory = Ok 0 w'.
Proof.
  destruct (inst_new_impl_no_memory 1000 point_type 7000 world_no_memory eq_refl
              (Forall_nil_2 _)) as [H1 H2].
  split; [exact H1|]. exact (H2 eq_refl eq_refl).
Defined.

(** *** When [nb_type_put] makes nothing *)

(** Property X19: [nb_type_put] answers without making a wrapper, and leaves the world as
    it is, in these cases: for a null pointer the answer is [None], with a
    new reference; for an address without wrapper the answer is null when
    the policy is [none], when the type is not registered, and when the
    policy is [reference_internal] but the cleanup list has no [self]. *)
Theorem nb_type_put_makes_nothing env cpp_type value rvp cleanup w :
  nb_type_put env cpp_type 0 rvp cleanup w =
    Ok (Py_None env, false) (traced [EvIncref (Py_None env)] w) ∧
  (value ≠ 0 → inst_c2p w !! value = None →
   rvp = rvp_none ∨ type_c2p w !! type_index cpp_type = None ∨
   (rvp = rvp_reference_internal ∧ cleanup_has_self cleanup = false) →
   nb_type_put env cpp_type value rvp cleanup w = Ok (0, false) w).
Proof.
  split; [done|].
  intros Hv Hfresh Hcase. unfold nb_type_put.
  destruct (Z.eqb_spec value 0); [done|].
  destruct Hcase as [-> | [Hreg | [-> Hself]]].
  - rewrite (bool_decide_eq_false_2 (rvp_none = rvp_copy)) by done. cbn [negb].
    unfold bind at 1. unfold bind at 1, get at 1. rewrite Hfresh.
    by rewrite bool_decide_eq_true_2.
  - unfold lookup_type. cbn [Z.eqb negb]. unfold bind, get.
    destruct (bool_decide (rvp = rvp_copy)); cbn.
    + by rewrite Hreg.
    + rewrite Hfresh. destruct (bool_decide (rvp = rvp_none)); cbn; [done|].
      by rewrite Hreg.
  - rewrite (bool_decide_eq_false_2 (rvp_reference_internal = rvp_copy)) by done.
    cbn [negb]. unfold bind at 1. unfold bind at 1, get at 1. rewrite Hfresh.
    rewrite (bool_decide_eq_false_2 (rvp_reference_internal = rvp_none)) by done.
    unfold ret at 1. cbv beta iota.
    unfold lookup_type. cbn [Z.eqb negb]. unfold bind, get.
    destruct (type_c2p w !! type_index cpp_type); cbn; [|done].
    unfold nb_type_put_common. by rewrite Hself.
Qed.

Lemma nb_type_put_makes_nothing_witness :
  nb_type_put env0 point_info 0 rvp_none None world0 =
    Ok (Py_None env0, false) (traced [EvIncref (Py_None env0)] world0) ∧
  nb_type_put env0 point_info 7000 rvp_none None world0 = Ok (0, false) world0.
Proof.
  destruct (nb_type_put_makes_nothing env0 point_info 7000 rvp_none None world0) as [H1 H2].
  split; [exact H1|]. apply H2; [lia|reflexivity|by left].
Defined.

(** *** The co-located payload and its block *)

Lemma inst_c2p_emplace_trace value self w u w' :
  inst_c2p_emplace value self w = Ok u w' → ∃ evs, trace w' = trace w ++ evs.
Proof.
  unfold inst_c2p_emplace. intros H. munfold. mcases;
  repeat match goal with
  | H : seq_check_new _ _ _ = Ok _ _ |- _ => apply seq_check_new_Ok in H as (-> & _ & _)
  end; cbn; eexists; rewrite <- ?app_assoc; try reflexivity.
  all: by rewrite app_nil_r.
Qed.

Lemma aligned_gap self payload a :
  0 < a → (a | 8) ∨ (8 | a) → self mod 8 = 0 → payload mod a = 0 →
  self + 24 <= payload < self + 24 + a →
  payload - (self + 24) <= (if 8 <? a then a - 8 else 0).
Proof.
  intros Ha Hdiv H8 Hm Hd.
  apply Z.mod_divide in H8; [|lia]. apply Z.mod_divide in Hm; [|lia].
  destruct H8 as [k Hk]. destruct Hm as [m Hm'].
  destruct Hdiv as [[c Hc] | [c Hc]].
  - assert (0 < c) by nia. assert (a <= 8) by nia.
    replace (8 <? a) with false by (symmetry; apply Z.ltb_ge; lia).
    assert (Hq : payload - (self + 24) = (m - c * (k + 3)) * a).
    { subst payload self. replace (k * 8 + 24) with ((k + 3) * (c * a)) by (rewrite <- Hc; lia).
      ring. }
    set (q := m - c * (k + 3)) in *. clearbody q.
    assert (q < 1) by nia. assert (0 <= q) by nia. nia.
  - assert (0 < c) by nia.
    assert (Hq : payload - (self + 24) = (c * m - k - 3) * 8).
    { subst payload self a. ring. }
    set (q := c * m - k - 3) in *. clearbody q.
    assert (q < c) by nia.
    destruct (Z.ltb_spec 8 a); nia.
Qed.

Lemma inst_new_impl_colocated tp ty w self w' :
  types w !! tp = Some ty → tp_have_gc ty = false →
  0 <= t_size (tp_data ty) < 2 ^ 32 →
  0 < t_align (tp_data ty) < 2 ^ 31 - sizeof_nb_inst →
  (t_align (tp_data ty) | 8) ∨ (8 | t_align (tp_data ty)) →
  Forall alloc_ok (allocs w) → Forall (fun a => a mod 8 = 0) (allocs w) →
  inst_new_impl tp 0 w = Ok self w' → self ≠ 0 →
  ∃ payload,
    EvAlloc (colocated_size (tp_data ty)) self ∈ events_since w w' ∧
    inst_ptr self w' = Ok payload w' ∧
    payload mod t_align (tp_data ty) = 0 ∧
    self + sizeof_nb_inst <= payload ∧
    payload + t_size (tp_data ty) <= self + colocated_size (tp_data ty).
Proof.
  intros Hty Hgc Hsize Hal Hdiv Hall Hal8 H Hne.
  unfold inst_new_impl in H.
  rewrite (bind_Ok_eq _ _ w ty w) in H by (unfold nb_type_obj; by rewrite Hty).
  cbv zeta in H.
  apply bind_Ok_inv in H as (self0 & w1 & Halloc & H).
  destruct (Z.eqb_spec self0 0) as [->|Hs0].
  { apply ret_Ok_inv in H as [<- _]. done. }
  assert (Htr1 : trace w1 = trace w ++ [EvAlloc (colocated_size (tp_data ty)) self0]).
  { clear - Halloc Hgc Hsize Hal Hs0. unfold inst_new_alloc in Halloc.
    rewrite Hgc in Halloc. cbn [negb Z.eqb] in Halloc.
    assert (Hsz : to_uintptr
              (sizeof_nb_inst +
               (t_size (tp_data ty) +
                (if sizeof_ptr <? to_uintptr (t_align (tp_data ty))
                 then to_uintptr (t_align (tp_data ty)) - sizeof_ptr else 0))) =
              colocated_size (tp_data ty)).
    { unfold colocated_size, to_uintptr, sizeof_nb_inst, sizeof_ptr in *. zconst.
      rewrite (Z.mod_small (t_align (tp_data ty))) by lia.
      destruct (8 <? t_align (tp_data ty)); rewrite Z.mod_small; lia. }
    rewrite Hsz in Halloc. unfold host_alloc, object_init in Halloc. munfold.
    revert Halloc. mcases; intros; by simplify_eq. }
  apply inst_new_alloc_Ok in Halloc as (rest & Ha & Ha' & Hi1 & Ht1 & Hp1 & Hc1); [|done].
  apply bind_Ok_inv in H as (r & w2 & Hplace & H).
  destruct (Z.eqb_spec r.1 0) as [Hr0|Hr0].
  { apply ret_Ok_inv in H as [<- _]. done. }
  apply bind_Ok_inv in H as (u & w3 & Hemp & H).
  apply ret_Ok_inv in H as [<- <-].
  rewrite Ha in Hall, Hal8.
  apply Forall_cons in Hall as [Has Hall]. apply Forall_cons in Hal8 as [Hs8 _].
  assert (Halign : to_uintptr (t_align (tp_data ty)) = t_align (tp_data ty)).
  { unfold to_uintptr. apply Z.mod_small. unfold sizeof_nb_inst in *. zconst. lia. }
  rewrite Halign in Hplace.
  assert (Htr2 : trace w2 = trace w1).
  { clear - Hplace. unfold inst_new_place in Hplace. cbn [Z.eqb] in Hplace.
    munfold. revert Hplace. mcases; intros; by simplify_eq. }
  eapply inst_new_place_Ok in Hplace as (i & payload & Hi & Hptr & Hr2 & Henc);
    [|by rewrite Hi1, lookup_insert_eq|by rewrite Ht1, lookup_insert_eq|try done..].
  all: try (rewrite Ha'; done).
  all: try (unfold is_ptr; lia).
  pose proof (inst_c2p_emplace_frame _ _ _ _ _ Hemp) as (Hi3 & Hp3 & _).
  apply inst_c2p_emplace_trace in Hemp as [evs Htr3].
  unfold storage_encoded in Henc. cbn [decide] in Henc.
  destruct (decide (0 = 0)) as [_|]; [|done].
  destruct Henc as (Hself & _ & _ & Hmod & Hlo & Hhi).
  exists payload. split; [|split; [by eapply inst_ptr_frame|]].
  { unfold events_since. rewrite Htr3, Htr2, Htr1, <- app_assoc, drop_app_length.
    rewrite Hself. apply elem_of_app. left. by apply list_elem_of_singleton. }
  split; [done|]. split; [done|].
  pose proof (aligned_gap r.1 payload (t_align (tp_data ty))) as Hgap.
  unfold colocated_size, sizeof_nb_inst, sizeof_ptr in *. rewrite Hself in *.
  specialize (Hgap ltac:(lia) Hdiv Hs8 Hmod ltac:(lia)).
  destruct (8 <? t_align (tp_data ty)); lia.
Qed.

(** Property X20: the co-located payload lies inside the block of its wrapper.  For a
    type outside the collector whose alignment divides, or is a multiple
    of, the pointer size, and an allocator that answers with pointer-aligned
    blocks: the wrapper that [inst_new_impl] makes without a payload address
    was allocated with [colocated_size] bytes, and the [t_size] bytes from
    the address [inst_ptr] gives start behind the header and end within the
    block. *)
Theorem colocated_payload_in_block tp ty w self w' :
  types w !! tp = Some ty → tp_have_gc ty = false →
  0 <= t_size (tp_data ty) < 2 ^ 32 →
  0 < t_align (tp_data ty) < 2 ^ 31 - sizeof_nb_inst →
  (t_align (tp_data ty) | 8) ∨ (8 | t_align (tp_data ty)) →
  Forall alloc_ok (allocs w) → Forall (fun a => a mod 8 = 0) (allocs w) →
  inst_new_impl tp 0 w = Ok self w' → self ≠ 0 →
  ∃ payload,
    EvAlloc (colocated_size (tp_data ty)) self ∈ events_since w w' ∧
    inst_ptr self w' = Ok payload w' ∧
    payload mod t_align (tp_data ty) = 0 ∧
    self + sizeof_nb_inst <= payload ∧
    payload + t_size (tp_data ty) <= self + colocated_size (tp_data ty).
Proof. exact (inst_new_impl_colocated tp ty w self w'). Qed.

Lemma colocated_payload_in_block_witness :
  let w' := world_of (inst_new_impl 1000 0 world_aligned) world_aligned in
  ∃ payload,
    EvAlloc (colocated_size (tp_data point_type)) 4096 ∈ events_since world_aligned w' ∧
    inst_ptr 4096 w' = Ok payload w' ∧
    payload mod t_align (tp_data point_type) = 0 ∧
    4096 + sizeof_nb_inst <= payload ∧
    payload + t_size (tp_data point_type) <= 4096 + colocated_size (tp_data point_type).
Proof.
  intros w'.
  apply (colocated_payload_in_block 1000 point_type world_aligned 4096 w').
  - reflexivity.
  - reflexivity.
  - cbn. lia.
  - cbn. unfold sizeof_nb_inst. lia.
  - right. exists 1. reflexivity.
  - unfold alloc_ok. repeat (apply Forall_cons_2; [right; lia|]). apply Forall_nil_2.
  - repeat (apply Forall_cons_2; [reflexivity|]). apply Forall_nil_2.
  - vm_compute. reflexivity.
  - lia.
Defined.

(** Property X21: zeroing a new instance stays inside its block.  Under the conditions
    above, [nb_inst_zero] on the wrapper that [inst_new] has made zeroes
    exactly the [t_size] bytes of the co-located payload, which lie behind
    the header and within the block that was allocated, and makes the
    wrapper ready and to be destructed. *)
Theorem nb_inst_zero_in_block tp ty w self w' :
  types w !! tp = Some ty → tp_have_gc ty = false →
  0 <= t_size (tp_data ty) < 2 ^ 32 →
  0 < t_align (tp_data ty) < 2 ^ 31 - sizeof_nb_inst →
  (t_align (tp_data ty) | 8) ∨ (8 | t_align (tp_data ty)) →
  Forall alloc_ok (allocs w) → Forall (fun a => a mod 8 = 0) (allocs w) →
  inst_new tp w = Ok self w' → self ≠ 0 →
  ∃ payload w2,
    nb_inst_zero_payload self w' = Ok tt w2 ∧
    events_since w' w2 = [EvMemzero payload (t_size (tp_data ty))] ∧
    self + sizeof_nb_inst <= payload ∧
    payload + t_size (tp_data ty) <= self + colocated_size (tp_data ty) ∧
    nb_inst_state self w2 = Ok (true, true) w2 ∧
    inst_ptr self w2 = Ok payload w2.
Proof.
  intros Hty Hgc Hsize Hal Hdiv Hall Hal8 H Hne. unfold inst_new in H.
  destruct (inst_new_impl_colocated tp ty w self w' Hty Hgc Hsize Hal Hdiv Hall Hal8 H Hne)
    as (payload & _ & Hptr & _ & Hlo & Hhi).
  destruct (inst_new_impl_type _ _ _ _ _ H Hne) as (Hob & _ & Htys).
  destruct (inst_ptr_Ok _ _ _ _ Hptr) as [_ [i Hi]].
  set (i1 := set_ready true (set_destruct true i)).
  exists payload, (set_insts (insert self i1) (traced [EvMemzero payload (t_size (tp_data ty))] w')).
  split.
  { unfold nb_inst_zero_payload.
    rewrite (bind_Ok_eq _ _ w' tp w') by (by rewrite Py_TYPE_run, Hob).
    rewrite (bind_Ok_eq _ _ w' (tp_data ty) w') by (by rewrite nb_type_data_run, Htys, Hty).
    rewrite (bind_Ok_eq _ _ w' payload w') by done.
    unfold bind, emit, modify, nb_inst_update. cbn. by rewrite Hi. }
  split; [apply events_since_app; by cbn|].
  split; [done|]. split; [done|].
  split; [unfold nb_inst_state, bind, nb_inst_read; cbn; by rewrite lookup_insert_eq|].
  rewrite (inst_ptr_run self w' i) in Hptr by done.
  rewrite (inst_ptr_run self _ i1) by (cbn; by rewrite lookup_insert_eq).
  cbn [i1 offset direct set_ready set_destruct ptr_mem set_insts traced set_trace].
  destruct (direct i); [by simplify_eq|].
  destruct (ptr_mem w' !! _); by simplify_eq.
Qed.

Lemma nb_inst_zero_in_block_witness :
  let w' := world_of (inst_new 1000 world_aligned) world_aligned in
  ∃ payload w2,
    nb_inst_zero_payload 4096 w' = Ok tt w2 ∧
    events_since w' w2 = [EvMemzero payload (t_size (tp_data point_type))] ∧
    4096 + sizeof_nb_inst <= payload ∧
    payload + t_size (tp_data point_type) <= 4096 + colocated_size (tp_data point_type) ∧
    nb_inst_state 4096 w2 = Ok (true, true) w2 ∧
    inst_ptr 4096 w2 = Ok payload w2.
Proof.
  intros w'.
  apply (nb_inst_zero_in_block 1000 point_type world_aligned 4096 w').
  - reflexivity.
  - reflexivity.
  - cbn. lia.
  - cbn. unfold sizeof_nb_inst. lia.
  - right. exists 1. reflexivity.
  - unfold alloc_ok. repeat (apply Forall_cons_2; [right; lia|]). apply Forall_nil_2.
  - repeat (apply Forall_cons_2; [reflexivity|]). apply Forall_nil_2.
  - vm_compute. reflexivity.
  - lia.
Defined.
